(** * Watson Online Store: the dialogue orchestration core

    A shallow embedding of [watsononlinestore/watson_online_store.py]:
    the Result Formatter ([format_discovery_response]), the Search
    Dispatch ([get_discovery_response], [handle_DiscoveryQuery]), the
    cart handlers, the customer resolver ([init_customer]) and the
    orchestration loop ([handle_message], [run]); and of what runs before
    the loop: the set-up of the conversation workspace
    ([setup_conversation_workspace]) and the start-up of [run.py].

    Python values are modelled as the code has them: [str] as [string],
    [int] as [Z], [float] as the binary64 [float] of the kernel, [dict]
    used as a map as [gmap string _], [list] as [list]. *)

From Stdlib Require Import ZArith Ascii String DecimalString Floats Lia.
From Stdlib Require DecimalPos.
From stdpp Require Import gmap strings list.

Local Open Scope Z_scope.

(** ** Python exceptions and results *)

Inductive py_exn : Type :=
  | KeyError
  | IndexError
  | ValueError
  | TypeError
  | AttributeError
  | AssertionError
  | ServiceError (repr : string).

Inductive py_result (A : Type) : Type :=
  | Ok (a : A)
  | Raise (e : py_exn).

Arguments Ok {A} a.
Arguments Raise {A} e.

Definition result_bind {A B} (m : py_result A) (k : A → py_result B)
  : py_result B :=
  match m with
  | Ok a => k a
  | Raise e => Raise e
  end.

(** [l[i]] on a Python list, for a non-negative [i]. *)
Definition getitem {A} (l : list A) (i : nat) : py_result A :=
  match l !! i with
  | Some x => Ok x
  | None => Raise IndexError
  end.

(** ** Python string primitives

    A [string] holds a [str] of ASCII characters, one [ascii] for each
    character: on such strings the primitives below are those of Python.
    Text outside ASCII is not modelled; a property that depends on the
    characters of a text, and not only on where a marker occurs in it,
    is stated for ASCII text. *)

Module Py.

Definition len (s : string) : Z := Z.of_nat (String.length s).

(** Normalisation of one slice bound against a length. *)
Definition clamp (n i : Z) : Z :=
  if i <? 0 then Z.max 0 (i + n) else Z.min i n.

(** [s[i:j]] *)
Definition slice (s : string) (i j : Z) : string :=
  let a := clamp (len s) i in
  let b := clamp (len s) j in
  String.substring (Z.to_nat a) (Z.to_nat (b - a)) s.

(** [s.find(sub, start, stop)]: lowest index in [s[start:stop]] where
    [sub] occurs, [-1] when it does not. *)
Definition find_in (s sub : string) (start stop : Z) : Z :=
  let a := clamp (len s) start in
  let b := clamp (len s) stop in
  match String.index (Z.to_nat a) sub (String.substring 0 (Z.to_nat b) s) with
  | Some i => Z.of_nat i
  | None => -1
  end.

(** [s.find(sub, start)] *)
Definition find_from (s sub : string) (start : Z) : Z :=
  match String.index (Z.to_nat (clamp (len s) start)) sub s with
  | Some i => Z.of_nat i
  | None => -1
  end.

(** [s.find(sub)] *)
Definition find (s sub : string) : Z := find_from s sub 0.

(** [s.replace(old, new)] for a non-empty [old]: [skip] counts the
    characters of a matched [old] that are still to be dropped. *)
Fixpoint replace_go (skip : nat) (old new s : string) : string :=
  match s with
  | EmptyString => EmptyString
  | String c s' =>
      match skip with
      | S k => replace_go k old new s'
      | O =>
          if String.prefix old s
          then new +:+ replace_go (String.length old - 1) old new s'
          else String c (replace_go 0 old new s')
      end
  end.

Fixpoint interleave (new s : string) : string :=
  match s with
  | EmptyString => new
  | String c s' => new +:+ String c (interleave new s')
  end.

Definition replace (s old new : string) : string :=
  match old with
  | EmptyString => interleave new s
  | _ => replace_go 0 old new s
  end.

(** [str(n)] for an [int]. *)
Definition str (n : Z) : string := NilEmpty.string_of_int (Z.to_int n).

Definition is_digit (c : ascii) : bool :=
  let n := nat_of_ascii c in ((48 <=? n) && (n <=? 57))%nat.

Definition digit_value (c : ascii) : Z := Z.of_nat (nat_of_ascii c) - 48.

(** The whitespace that [str.strip()] drops, for a [str] of ASCII
    characters: space, \t \n \v \f \r and the separators 0x1c to 0x1f. *)
Definition is_space (c : ascii) : bool :=
  let n := nat_of_ascii c in
  ((n =? 32) || ((9 <=? n) && (n <=? 13)) || ((28 <=? n) && (n <=? 31)))%nat.

Fixpoint lstrip (s : string) : string :=
  match s with
  | EmptyString => EmptyString
  | String c s' => if is_space c then lstrip s' else s
  end.

Fixpoint rstrip (s : string) : string :=
  match s with
  | EmptyString => EmptyString
  | String c s' =>
      match rstrip s' with
      | EmptyString => if is_space c then EmptyString else String c EmptyString
      | r => String c r
      end
  end.

(** [s.strip()], for a [str] of ASCII characters. *)
Definition strip (s : string) : string := rstrip (lstrip s).

(** The whitespace that [int()] drops around the digits of an ASCII
    [str]: space and \t \n \v \f \r (not the separators 0x1c to 0x1f,
    which [str.strip()] drops). *)
Definition is_int_space (c : ascii) : bool :=
  let n := nat_of_ascii c in
  ((n =? 32) || ((9 <=? n) && (n <=? 13)))%nat.

Fixpoint int_lstrip (s : string) : string :=
  match s with
  | EmptyString => EmptyString
  | String c s' => if is_int_space c then int_lstrip s' else s
  end.

Fixpoint int_rstrip (s : string) : string :=
  match s with
  | EmptyString => EmptyString
  | String c s' =>
      match int_rstrip s' with
      | EmptyString =>
          if is_int_space c then EmptyString else String c EmptyString
      | r => String c r
      end
  end.

Definition lower_char (c : ascii) : ascii :=
  let n := nat_of_ascii c in
  if ((65 <=? n) && (n <=? 90))%nat then ascii_of_nat (n + 32) else c.

(** [s.lower()], for a [str] of ASCII characters. *)
Fixpoint lower (s : string) : string :=
  match s with
  | EmptyString => EmptyString
  | String c s' => String (lower_char c) (lower s')
  end.

(** [sub in s] *)
Definition contains (sub s : string) : bool :=
  match String.index 0 sub s with
  | Some _ => true
  | None => false
  end.

(** [s.startswith(p)] *)
Definition startswith (s p : string) : bool := String.prefix p s.

(** [s.split(sep)] for a non-empty [sep]: [cur] is the piece being
    read, [skip] as in [replace_go]. *)
Fixpoint split_go (skip : nat) (sep cur s : string) : list string :=
  match s with
  | EmptyString => [cur]
  | String c s' =>
      match skip with
      | S k => split_go k sep cur s'
      | O =>
          if String.prefix sep s
          then cur :: split_go (String.length sep - 1) sep EmptyString s'
          else split_go 0 sep (cur +:+ String c EmptyString) s'
      end
  end.

Definition split (s sep : string) : py_result (list string) :=
  match sep with
  | EmptyString => Raise ValueError
  | _ => Ok (split_go 0 sep EmptyString s)
  end.

(** [sep.join(l)] *)
Fixpoint join (sep : string) (l : list string) : string :=
  match l with
  | [] => EmptyString
  | [x] => x
  | x :: l' => x +:+ sep +:+ join sep l'
  end.

(** The digits of an [int] literal: decimal digits, single underscores
    allowed between two digits. *)
Fixpoint digits_value (acc : Z) (after_digit : bool) (s : string)
  : option Z :=
  match s with
  | EmptyString => if after_digit then Some acc else None
  | String c s' =>
      if is_digit c then digits_value (10 * acc + digit_value c) true s'
      else if Ascii.eqb c "_"%char
           then if after_digit then digits_value acc false s' else None
           else None
  end.

(** [int(s)] for a [str] of ASCII characters: surrounding whitespace,
    an optional sign, digits; [ValueError] otherwise. *)
Definition int_of_str (s : string) : py_result Z :=
  let body := int_rstrip (int_lstrip s) in
  let '(sign, digits) :=
    match body with
    | String "-"%char d => (-1, d)
    | String "+"%char d => (1, d)
    | _ => (1, body)
    end in
  match digits_value 0 false digits with
  | Some n => Ok (sign * n)
  | None => Raise ValueError
  end.

End Py.

(** ** Constants of the module *)

Definition DISCOVERY_QUERY_COUNT : nat := 10.
Definition DISCOVERY_KEEP_COUNT : nat := 5.

Definition dquote : string := String "034"%char EmptyString.

Definition href_tag : string := "/ProductDetail.aspx?pid=".
Definition img_tag : string :=
  "<a class=" +:+ dquote +:+ "jqzoom" +:+ dquote +:+ " href=" +:+ dquote.
Definition product_tag : string := "Product:".
Definition category_tag : string := "Category:".
Definition url_start : string := "http://www.logostore-globalid.us".

(** ** Data *)

(** One entry of [response['results']]: a dict of which the code reads
    the keys ['html'], ['text'] and ['score'] ([None]: key absent). *)
Record raw_result : Type := {
  result_html : option string;
  result_text : option string;
  result_score : option float
}.

(** The Discovery [query] response, a dict of which the code reads and
    writes the keys ['results'] and ['matching_results']. *)
Record DiscoveryResponse : Type := {
  results : option (list raw_result);
  matching_results : option Z
}.

(** The dict built for each kept result. *)
Record product_data : Type := {
  cart_number : string;
  name : string;
  url : string;
  image : string
}.

(** ** The Result Formatter *)

(** [slack_encode]: Slack does not like <, &, >. *)
Definition slack_encode (input_text : string) : string :=
  match input_text with
  | EmptyString => input_text
  | _ =>
      let args := [("&", "&amp;"); ("<", "&lt;"); (">", "&gt;")] in
      fold_left (λ input_text from_to,
                   Py.replace input_text from_to.1 from_to.2)
                args input_text
  end.

(** [re.sub(r'scale\[[0-9]+\]', 'scale[50]', img)].  [digits_then_close s]
    is the length of the longest run of digits at the head of [s] when
    that run is not empty and is followed by "]". *)
Fixpoint digits_then_close (seen : nat) (s : string) : option nat :=
  match s with
  | EmptyString => None
  | String c s' =>
      if Py.is_digit c then digits_then_close (S seen) s'
      else if Ascii.eqb c "]"%char
           then match seen with O => None | S _ => Some seen end
           else None
  end.

Definition scale_match (s : string) : option nat :=
  if String.prefix "scale[" s
  then match digits_then_close 0 (String.substring 6 (String.length s) s) with
       | Some d => Some (6 + d + 1)%nat
       | None => None
       end
  else None.

Fixpoint re_sub_scale_go (skip : nat) (s : string) : string :=
  match s with
  | EmptyString => EmptyString
  | String c s' =>
      match skip with
      | S k => re_sub_scale_go k s'
      | O =>
          match scale_match s with
          | Some n => "scale[50]" +:+ re_sub_scale_go (n - 1) s'
          | None => String c (re_sub_scale_go 0 s')
          end
      end
  end.

Definition re_sub_scale (img : string) : string := re_sub_scale_go 0 img.

(** The body of the [for] loop of [format_discovery_response], for the
    result at hand and the current value of [cart_number]. *)
Definition format_result (cart_number : Z) (result : raw_result)
  : product_data :=
  let product_name := EmptyString in
  let product_url := EmptyString in
  let img_url := EmptyString in
  (* Pull out product number so that we can build url link. *)
  let '(product_url, img_url) :=
    match result_html result with
    | Some html =>
        let sidx := Py.find html href_tag in
        let product_url :=
          if 0 <? sidx then
            let sidx := sidx + Py.len href_tag in
            let product_id := Py.slice html sidx (sidx + 6) in
            url_start +:+ href_tag +:+ product_id
          else product_url in
        (* grab the image url to allow pictures in slack *)
        let simg := Py.find html img_tag in
        let img_url :=
          if 0 <? simg then
            let simg := simg + Py.len img_tag in
            let eimg := Py.find_from html dquote simg in
            if 0 <? eimg then
              let img := Py.slice html simg eimg in
              re_sub_scale img
            else img_url
          else img_url in
        (product_url, img_url)
    | None => (product_url, img_url)
    end in
  (* Pull out product name from page text. *)
  let product_name :=
    match result_text result with
    | Some text =>
        let sidx := Py.find text product_tag in
        if 0 <? sidx then
          let sidx := sidx + Py.len product_tag in
          let eidx := Py.find_in text category_tag sidx (Py.len text) in
          if 0 <? eidx then Py.slice text sidx (eidx - 1)
          else product_name
        else product_name
    | None => product_name
    end in
  {| cart_number := Py.str cart_number;
     name := slack_encode product_name;
     url := slack_encode product_url;
     image := slack_encode img_url |}.

(** One turn of the [for i in range(...)] loop: the loop state is
    [(cart_number, output)]. *)
Definition format_step (results : list raw_result)
    (acc : py_result (Z * list product_data)) (i : nat)
  : py_result (Z * list product_data) :=
  result_bind acc (λ '(cart_number, output),
    result_bind (getitem results i) (λ result,
      let product_data := format_result cart_number result in
      Ok (cart_number + 1, output ++ [product_data]))).

Definition format_discovery_response (response : DiscoveryResponse)
  : py_result (list product_data) :=
  let output := [] in
  match results response with
  | None | Some [] => Ok output
  | Some results =>
      let cart_number := 1 in
      result_bind
        (fold_left (format_step results)
           (seq 0 (Nat.min (length results) DISCOVERY_KEEP_COUNT))
           (Ok (cart_number, output)))
        (λ '(_, output), Ok output)
  end.


(** ** Context values *)

(** The values a context key holds: what the dialogue engine's JSON
    decodes to (numbers of the flags are integers), and the customer
    dict's shopping cart. *)
Inductive value : Type :=
  | VNone
  | VBool (b : bool)
  | VInt (n : Z)
  | VStr (s : string)
  | VList (l : list string).

(** Truth value of [v] in an [if]. *)
Definition truthy (v : value) : bool :=
  match v with
  | VNone => false
  | VBool b => b
  | VInt n => negb (n =? 0)
  | VStr s => negb (String.eqb s EmptyString)
  | VList l => match l with [] => false | _ => true end
  end.

(** [v == s] for a [str] literal [s]. *)
Definition eq_str (v : value) (s : string) : bool :=
  match v with
  | VStr s' => String.eqb s' s
  | _ => false
  end.

(** [int(v)] *)
Definition py_int (v : value) : py_result Z :=
  match v with
  | VStr s => Py.int_of_str s
  | VInt n => Ok n
  | VBool b => Ok (if b then 1 else 0)
  | VNone | VList _ => Raise TypeError
  end.

(** [repr(e)] of a caught exception. *)
Definition repr_exn (e : py_exn) : string :=
  match e with
  | KeyError => "KeyError()"
  | IndexError => "IndexError()"
  | ValueError => "ValueError()"
  | TypeError => "TypeError()"
  | AttributeError => "AttributeError()"
  | AssertionError => "AssertionError()"
  | ServiceError repr => repr
  end.

Definition nl : string := String "010"%char EmptyString.

(** ** Customers *)

Record OnlineStoreCustomer : Type := {
  email : string;
  first_name : string;
  last_name : string;
  shopping_cart : list string
}.

(** [get_customer_dict]: specific to our cloudant_online_store. *)
Definition get_customer_dict (self : OnlineStoreCustomer)
  : gmap string value :=
  let customer : gmap string value :=
    <["type" := VStr "customer"]>
    (<["email" := VStr (email self)]>
    (<["first_name" := VStr (first_name self)]>
    (<["last_name" := VStr (last_name self)]>
    (<["shopping_cart" := VList (shopping_cart self)]> ∅)))) in
  customer.

(** ** The customer datastore *)

(** Modelled from the spec: the customer datastore
    ([database/cloudant_online_store.py], class [CloudantOnlineStore]),
    whose source is not at hand.  The spec gives its interface:
    [find_customer(email) -> record | none], [create_customer(record)],
    [list_cart(email) -> ordered list], [add_cart_item(email, item)],
    [delete_cart_item(email, item)]; a customer record is keyed by its
    email (unique key) and holds the cart as an ordered sequence of
    strings, insertion order, duplicates permitted. *)
Record customer_doc : Type := {
  doc_email : string;
  doc_first_name : string;
  doc_last_name : string;
  doc_shopping_cart : list string
}.

Module Cloudant.

Definition find_customer (email : string) (db : gmap string customer_doc)
  : option customer_doc := db !! email.

Definition add_customer_obj (customer : OnlineStoreCustomer)
    (db : gmap string customer_doc) : gmap string customer_doc :=
  <[email customer :=
      {| doc_email := email customer;
         doc_first_name := first_name customer;
         doc_last_name := last_name customer;
         doc_shopping_cart := shopping_cart customer |}]> db.

Definition list_shopping_cart (email : string)
    (db : gmap string customer_doc) : list string :=
  match db !! email with
  | Some doc => doc_shopping_cart doc
  | None => []
  end.

Definition with_cart (f : list string → list string) (doc : customer_doc)
  : customer_doc :=
  {| doc_email := doc_email doc;
     doc_first_name := doc_first_name doc;
     doc_last_name := doc_last_name doc;
     doc_shopping_cart := f (doc_shopping_cart doc) |}.

Definition add_to_shopping_cart (email item : string)
    (db : gmap string customer_doc) : gmap string customer_doc :=
  alter (with_cart (λ cart, cart ++ [item])) email db.

Fixpoint remove_item (item : string) (cart : list string) : list string :=
  match cart with
  | [] => []
  | x :: cart' =>
      if String.eqb x item then cart' else x :: remove_item item cart'
  end.

Definition delete_item_shopping_cart (email item : string)
    (db : gmap string customer_doc) : gmap string customer_doc :=
  alter (with_cart (remove_item item)) email db.

End Cloudant.

(** ** The outside world *)

(** One event of [rtm_read()]: a dict of which the code reads the keys
    ['text'], ['user'], ['channel'] and tests ['user_profile']. *)
Record slack_output : Type := {
  out_text : option string;
  out_user : option string;
  out_channel : option string;
  out_user_profile : bool
}.

(** The ['profile'] of a ['users.info'] answer. *)
Record slack_profile : Type := {
  profile_email : option string;
  profile_first_name : option string;
  profile_last_name : option string
}.

(** The ['users.info'] answer: [user_json['user']] when the answer has
    that key, and its ['profile'] when it has one. *)
Record UserJson : Type := {
  json_user : option (option slack_profile)
}.

(** The answer of one dialogue turn: ['context'] when present, and
    [['output']['text']]. *)
Record watson_response : Type := {
  response_context : option (gmap string value);
  response_output_text : list string
}.

(** What the program does to the outside, in order ([LOG.debug]
    records, which print whole dicts, are left out). *)
Inductive event : Type :=
  | RtmConnect
  | RtmRead
  | PostMessage (channel text : string)
  | UsersInfo (user : string)
  | ConversationMessage (text : string) (context : gmap string value)
  | DiscoveryQuery (query : value)
  | RandInt (a b : Z)
  | LogInfo (msg : string)
  | LogWarning (msg : string)
  | LogException (msg : string)
  | Sleep.

(** The collaborators: the Slack client, the Conversation client, the
    Discovery client (which may be absent), [random.randint] and the
    canned answers [FAKE_DISCOVERY].  Each call maps the state [W] of the
    outside world to an answer, or an exception, and a new state. *)
Class Collaborators (W : Type) : Type := {
  rtm_connect : W → py_result bool * W;
  rtm_read : W → py_result (list slack_output) * W;
  users_info : string → W → py_result (option UserJson) * W;
  chat_postMessage : string → string → W → py_result unit * W;
  conversation_message :
    string → gmap string value → W → py_result watson_response * W;
  discovery_client :
    option (value → W → py_result DiscoveryResponse * W);
  random_randint : Z → Z → W → py_result Z * W;
  FAKE_DISCOVERY : list string
}.

(** ** The bot *)

Section WatsonOnlineStore.

Context {W : Type} `{Collaborators W}.

(** The attributes of [self], the datastore behind
    [self.cloudant_online_store], the outside world and the events so
    far. *)
Record WatsonOnlineStore : Type := {
  bot_id : string;
  discovery_score_filter : float;
  context : gmap string value;
  customer : option OnlineStoreCustomer;
  response_tuple : option (list product_data);
  cloudant_online_store : gmap string customer_doc;
  world : W;
  trace : list event
}.

Definition set_context (c : gmap string value) (self : WatsonOnlineStore)
  : WatsonOnlineStore :=
  {| bot_id := bot_id self;
     discovery_score_filter := discovery_score_filter self;
     context := c;
     customer := customer self;
     response_tuple := response_tuple self;
     cloudant_online_store := cloudant_online_store self;
     world := world self;
     trace := trace self |}.

Definition set_customer (c : option OnlineStoreCustomer)
    (self : WatsonOnlineStore) : WatsonOnlineStore :=
  {| bot_id := bot_id self;
     discovery_score_filter := discovery_score_filter self;
     context := context self;
     customer := c;
     response_tuple := response_tuple self;
     cloudant_online_store := cloudant_online_store self;
     world := world self;
     trace := trace self |}.

Definition set_response_tuple (r : option (list product_data))
    (self : WatsonOnlineStore) : WatsonOnlineStore :=
  {| bot_id := bot_id self;
     discovery_score_filter := discovery_score_filter self;
     context := context self;
     customer := customer self;
     response_tuple := r;
     cloudant_online_store := cloudant_online_store self;
     world := world self;
     trace := trace self |}.

Definition set_cloudant (db : gmap string customer_doc)
    (self : WatsonOnlineStore) : WatsonOnlineStore :=
  {| bot_id := bot_id self;
     discovery_score_filter := discovery_score_filter self;
     context := context self;
     customer := customer self;
     response_tuple := response_tuple self;
     cloudant_online_store := db;
     world := world self;
     trace := trace self |}.

Definition set_world (w : W) (self : WatsonOnlineStore)
  : WatsonOnlineStore :=
  {| bot_id := bot_id self;
     discovery_score_filter := discovery_score_filter self;
     context := context self;
     customer := customer self;
     response_tuple := response_tuple self;
     cloudant_online_store := cloudant_online_store self;
     world := w;
     trace := trace self |}.

Definition set_trace (t : list event) (self : WatsonOnlineStore)
  : WatsonOnlineStore :=
  {| bot_id := bot_id self;
     discovery_score_filter := discovery_score_filter self;
     context := context self;
     customer := customer self;
     response_tuple := response_tuple self;
     cloudant_online_store := cloudant_online_store self;
     world := world self;
     trace := t |}.

(** *** Methods as state transformers

    A method maps [self] to its result, a value or a raised exception,
    and the new [self]: what was assigned before an exception stays
    assigned. *)
Definition M (A : Type) : Type :=
  WatsonOnlineStore → py_result A * WatsonOnlineStore.

Definition ret {A} (a : A) : M A := λ self, (Ok a, self).

Definition raise {A} (e : py_exn) : M A := λ self, (Raise e, self).

Definition bind {A B} (m : M A) (k : A → M B) : M B :=
  λ self,
    match m self with
    | (Ok a, self') => k a self'
    | (Raise e, self') => (Raise e, self')
    end.

Definition lift {A} (r : py_result A) : M A := λ self, (r, self).

Definition get {A} (f : WatsonOnlineStore → A) : M A :=
  λ self, (Ok (f self), self).

Definition modify (f : WatsonOnlineStore → WatsonOnlineStore) : M unit :=
  λ self, (Ok tt, f self).

(** [try: m except: handler]: [handler e] is [None] when no [except]
    clause catches [e]. *)
Definition try_except {A} (m : M A) (handler : py_exn → option (M A))
  : M A :=
  λ self,
    match m self with
    | (Ok a, self') => (Ok a, self')
    | (Raise e, self') =>
        match handler e with
        | Some h => h self'
        | None => (Raise e, self')
        end
    end.

Definition emit (e : event) : M unit :=
  modify (λ self, set_trace (trace self ++ [e]) self).

(** A call to a collaborator. *)
Definition extern {A} (e : event) (call : W → py_result A * W) : M A :=
  bind (emit e) (λ _ self,
    let '(r, w) := call (world self) in (r, set_world w self)).

End WatsonOnlineStore.

Arguments WatsonOnlineStore W : clear implicits.
Arguments M W A : clear implicits.

Notation "'let!' x ':=' m 'in' k" := (bind m (λ x, k))
  (at level 10, x pattern, m at level 100, k at level 200).

(** ** Methods of [WatsonOnlineStore] *)

(** [SlackSender]: the Slack client is the one of the world. *)
Record SlackSender : Type := { channel : string }.

Section Methods.

Context {W : Type} `{Collaborators W}.

#[local] Abbreviation M := (M W).

Definition send_message (self : SlackSender) (message : string) : M unit :=
  extern (PostMessage (channel self) message)
         (chat_postMessage (channel self) message).

Definition at_bot (bot_id : string) : string := "<@" +:+ bot_id +:+ ">".

Definition context_merge (dict1 dict2 : gmap string value)
  : gmap string value :=
  let new_dict := dict1 in
  if decide (dict2 = ∅) then new_dict else dict2 ∪ new_dict.

(** [output[key]] for a key read without a test. *)
Definition getkey {A} (field : option A) : py_result A :=
  match field with
  | Some x => Ok x
  | None => Raise KeyError
  end.

Definition truthy_str (s : option string) : bool :=
  match s with
  | Some s => negb (String.eqb s EmptyString)
  | None => false
  end.

Fixpoint parse_slack_output (bot_id : string)
    (output_list : list slack_output)
  : py_result (option string * option string * option string) :=
  match output_list with
  | [] => Ok (None, None, None)
  | output :: rest =>
      match out_text output, out_user output with
      | Some text, Some user =>
          if out_user_profile output then parse_slack_output bot_id rest
          else if Py.contains (at_bot bot_id) text then
            result_bind (Py.split text (at_bot bot_id)) (λ pieces,
            result_bind (getkey (out_channel output)) (λ channel,
              Ok (Some (Py.lower (Py.strip (Py.join EmptyString pieces))),
                  Some channel, Some user)))
          else
            result_bind (getkey (out_channel output)) (λ channel,
              if Py.startswith channel "D" && negb (String.eqb user bot_id)
              then (* Direct message! *)
                Ok (Some (Py.lower (Py.strip text)), Some channel, Some user)
              else parse_slack_output bot_id rest)
      | _, _ => parse_slack_output bot_id rest
      end
  end.

(** We have a customer, send info to Watson. *)
Definition add_customer_to_context : M unit :=
  let! c := get customer in
  match c with
  | Some c =>
      modify (λ self,
        set_context (context_merge (context self) (get_customer_dict c)) self)
  | None => raise AttributeError
  end.

(** Set the customer using data from Cloudant DB. *)
Definition customer_from_db (user_data : customer_doc) : M unit :=
  let email_addr := doc_email user_data in
  let first := doc_first_name user_data in
  let last := doc_last_name user_data in
  modify (set_customer (Some {| email := email_addr;
                                first_name := first;
                                last_name := last;
                                shopping_cart := [] |})).

(** Create a new user from data in Slack. *)
Definition create_user_from_ui (user_json : UserJson) : M unit :=
  let! user := lift (getkey (json_user user_json)) in
  let! profile := lift (getkey user) in
  let! email_addr := lift (getkey (profile_email profile)) in
  let! first := lift (getkey (profile_first_name profile)) in
  let! last := lift (getkey (profile_last_name profile)) in
  modify (set_customer (Some {| email := email_addr;
                                first_name := first;
                                last_name := last;
                                shopping_cart := [] |})).

(** Get user from DB, or create entry for user. *)
Definition init_customer (user_id : string) : M unit :=
  if String.eqb user_id EmptyString then raise AssertionError else
  let! looked_up :=
    try_except
      (let! user_json := extern (UsersInfo user_id) (users_info user_id) in
       ret (Some user_json))
      (λ _, Some (let! _ := emit (LogException "Slack client call exception:") in
                  ret None)) in
  match looked_up with
  | None => ret tt
  | Some None => ret tt
  | Some (Some user_json) =>
      match json_user user_json with
      | None => ret tt
      | Some user =>
          let cust :=
            match user with
            | Some profile => profile_email profile
            | None => None
            end in
          let! _ :=
            if truthy_str cust then
              let cust := default EmptyString cust in
              let! user_data :=
                get (λ self,
                  Cloudant.find_customer cust (cloudant_online_store self)) in
              match user_data with
              | Some user_data =>
                  (* We found this Slack user in our Cloudant DB *)
                  customer_from_db user_data
              | None =>
                  (* Didn't find Slack user in DB, so add them *)
                  let! _ := create_user_from_ui user_json in
                  let! c := get customer in
                  match c with
                  | Some c =>
                      modify (λ self,
                        set_cloudant
                          (Cloudant.add_customer_obj c
                             (cloudant_online_store self)) self)
                  | None => raise AttributeError
                  end
              end
            else ret tt in
          let! c := get customer in
          if c is Some _ then
            (* Now Watson will have customer info *)
            add_customer_to_context
          else ret tt
      end
  end.

Definition get_fake_discovery_response (input_text : value)
  : M (gmap string value) :=
  let last := Z.of_nat (length FAKE_DISCOVERY) - 1 in
  let! index := extern (RandInt 0 last) (random_randint 0 last) in
  let! answer := lift (getitem FAKE_DISCOVERY (Z.to_nat index)) in
  ret {[ "discovery_result" := VStr answer ]}.

(** The truth value of [self.discovery_score_filter]. *)
Definition truthy_float (f : float) : bool := negb (PrimFloat.eqb f 0%float).

(** [[x for x in results if 'score' in x and x['score'] > threshold]] *)
Definition filter_by_score (threshold : float) (results : list raw_result)
  : list raw_result :=
  List.filter (λ x, match result_score x with
                    | Some score => PrimFloat.ltb threshold score
                    | None => false
                    end) results.

(** The part of [get_discovery_response] between the query and the
    formatting: Watson discovery assigns a confidence level to each
    result; filter out the weakest. *)
Definition apply_score_filter (threshold : float)
    (discovery_response : DiscoveryResponse) : DiscoveryResponse :=
  match results discovery_response with
  | Some rs =>
      if truthy_float threshold then
        let fr := filter_by_score threshold rs in
        {| results := Some fr;
           matching_results := Some (Z.of_nat (length fr)) |}
      else discovery_response
  | None => discovery_response
  end.

Definition format_items (response : list product_data) : string :=
  fold_left (λ formatted_response item,
               formatted_response +:+ nl +:+ cart_number item +:+ ") " +:+
               name item +:+ nl +:+ image item)
            response EmptyString.

Definition get_discovery_response (input_text : value)
  : M (gmap string value) :=
  match discovery_client with
  | None => raise AttributeError
  | Some query =>
      let! discovery_response :=
        extern (DiscoveryQuery input_text) (query input_text) in
      let! threshold := get discovery_score_filter in
      let discovery_response :=
        apply_score_filter threshold discovery_response in
      let! response := lift (format_discovery_response discovery_response) in
      let! _ := modify (set_response_tuple (Some response)) in
      let formatted_response := format_items response in
      ret {[ "discovery_result" := VStr formatted_response ]}
  end.

(** [self.context[key]] *)
Definition context_getitem (key : string) : M value :=
  let! c := get context in
  lift (getkey (c !! key)).

(** [self.customer.email] *)
Definition customer_email : M string :=
  let! c := get customer in
  match c with
  | Some c => ret (email c)
  | None => raise AttributeError
  end.

(** Do a Discovery query. *)
Definition handle_DiscoveryQuery : M bool :=
  let! query_string := context_getitem "discovery_string" in
  let! response :=
    if discovery_client is Some _ then
      try_except (get_discovery_response query_string)
        (λ e, Some (ret {[ "discovery_result" := VStr (repr_exn e) ]}))
    else get_fake_discovery_response query_string in
  let! _ :=
    modify (λ self, set_context (context_merge (context self) response) self) in
  (* no need for user input, return to Watson Dialogue *)
  ret false.

Definition get_watson_response (message : string) : M watson_response :=
  let! c := get context in
  extern (ConversationMessage message c) (conversation_message message c).

(** [formatted_out] of [handle_list_shopping_cart]. *)
Definition format_cart (shopping_list : list string) : string :=
  fold_left (λ formatted_out '(index, item),
               formatted_out +:+ Py.str (Z.of_nat index + 1) +:+ ") " +:+
               item +:+ nl)
            (imap (λ index item, (index, item)) shopping_list) EmptyString.

(** Get shopping_cart from DB and return to Watson. *)
Definition handle_list_shopping_cart : M bool :=
  let! cust := customer_email in
  let formatted_out := EmptyString in
  let! shopping_list :=
    get (λ self, Cloudant.list_shopping_cart cust (cloudant_online_store self)) in
  let formatted_out := format_cart shopping_list in
  let! _ :=
    modify (λ self,
      set_context (<["shopping_cart" := VStr formatted_out]> (context self))
                  self) in
  (* no need for user input, return to Watson Dialogue *)
  ret false.

Definition clear_shopping_cart : M unit :=
  let! _ :=
    modify (λ self,
      set_context (<["shopping_cart" := VStr ""]> (context self)) self) in
  modify (λ self,
    set_context (<["cart_item" := VStr ""]> (context self)) self).

(** [int(self.context['cart_item'])] under
    [try: ... except ValueError: LOG.exception(...); return False]:
    [None] stands for the early [return False]. *)
Definition cart_item_number : M (option Z) :=
  try_except
    (let! v := context_getitem "cart_item" in
     let! n := lift (py_int v) in
     ret (Some n))
    (λ e, match e with
          | ValueError =>
              Some (let! _ := emit (LogException "cart_item must be a number") in
                    ret None)
          | _ => None
          end).

(** Delete an item from this Customers shopping cart. *)
Definition handle_delete_from_cart : M bool :=
  let! email := customer_email in
  let! shopping_list :=
    get (λ self, Cloudant.list_shopping_cart email (cloudant_online_store self)) in
  let! parsed := cart_item_number in
  match parsed with
  | None => ret false
  | Some item_num =>
      let! _ :=
        fold_left (λ (done : M unit) '(index, item),
                     let! _ := done in
                     if Z.of_nat index + 1 =? item_num then
                       modify (λ self,
                         set_cloudant
                           (Cloudant.delete_item_shopping_cart email item
                              (cloudant_online_store self)) self)
                     else ret tt)
                  (imap (λ index item, (index, item)) shopping_list)
                  (ret tt) in
      let! _ := clear_shopping_cart in
      (* no need for user input, return to Watson Dialogue *)
      ret false
  end.

(** Add an item to this Customers shopping cart. *)
Definition handle_add_to_cart : M bool :=
  let! parsed := cart_item_number in
  match parsed with
  | None => ret false
  | Some cart_item =>
      let! email := customer_email in
      let! stored := get response_tuple in
      let! response_tuple := lift (match stored with
                                   | Some l => Ok l
                                   | None => Raise TypeError
                                   end) in
      let! _ :=
        fold_left (λ (done : M unit) '(index, entry),
                     let! _ := done in
                     if Z.of_nat index + 1 =? cart_item then
                       let item := name entry +:+ ": " +:+ url entry +:+ nl in
                       modify (λ self,
                         set_cloudant
                           (Cloudant.add_to_shopping_cart email item
                              (cloudant_online_store self)) self)
                     else ret tt)
                  (imap (λ index entry, (index, entry)) response_tuple)
                  (ret tt) in
      let! _ := clear_shopping_cart in
      (* no need for user input, return to Watson Dialogue *)
      ret false
  end.

(** ['key' in self.context.keys() and self.context['key'] == s] *)
Definition flag_is (c : gmap string value) (key s : string) : bool :=
  match c !! key with
  | Some v => eq_str v s
  | None => false
  end.

(** ['cart_item' in self.context.keys() and
     self.context['cart_item'] != ''] *)
Definition has_cart_item (c : gmap string value) : bool :=
  match c !! "cart_item" with
  | Some v => negb (eq_str v "")
  | None => false
  end.

(** Handler for messages: returns True if UI input is required, False if
    we want app processing and no input. *)
Definition handle_message (message : string) (sender : SlackSender)
  : M bool :=
  let! watson_response := get_watson_response message in
  let! _ :=
    match response_context watson_response with
    | Some c => modify (set_context c)
    | None => ret tt
    end in
  let response :=
    fold_left (λ response text, response +:+ text +:+ nl)
              (response_output_text watson_response) EmptyString in
  let! _ := send_message sender response in
  let! c := get context in
  if match c !! "discovery_string" with
     | Some v => truthy v
     | None => false
     end && (if discovery_client is Some _ then true else false)
  then handle_DiscoveryQuery
  else if flag_is c "shopping_cart" "list"
  then handle_list_shopping_cart
  else if flag_is c "shopping_cart" "add" && has_cart_item c
  then handle_add_to_cart
  else if flag_is c "shopping_cart" "delete" && has_cart_item c
  then handle_delete_from_cart
  else if flag_is c "get_input" "no"
  then ret false
  else ret true.

(** The inner loop of [run],
    [while not get_input: get_input = self.handle_message(message, sender)],
    for at most [fuel] turns: [None] when the turns are used up. *)
Fixpoint while_not_get_input (fuel : nat) (message : string)
    (sender : SlackSender) (get_input : bool) : M (option unit) :=
  if get_input then ret (Some tt)
  else
    match fuel with
    | O => ret None
    | S fuel' =>
        let! get_input := handle_message message sender in
        while_not_get_input fuel' message sender get_input
    end.

(** The body of the [while True] loop of [run]. *)
Definition run_iteration (fuel : nat) : M (option unit) :=
  let! slack_output := extern RtmRead rtm_read in
  let! bot := get bot_id in
  let! (message, channel, user) :=
    lift (parse_slack_output bot slack_output) in
  let! c := get customer in
  let! _ :=
    if truthy_str user && (if c is Some _ then false else true)
    then init_customer (default EmptyString user)
    else ret tt in
  let! finished :=
    if truthy_str message && truthy_str channel then
      let message := default EmptyString message in
      let sender := {| channel := default EmptyString channel |} in
      let! get_input := handle_message message sender in
      while_not_get_input fuel message sender get_input
    else ret (Some tt) in
  match finished with
  | Some _ => let! _ := emit Sleep in ret (Some tt)
  | None => ret None
  end.

(** [run], for at most [rounds] turns of its [while True] loop. *)
Fixpoint run_loop (rounds fuel : nat) : M (option unit) :=
  match rounds with
  | O => ret (Some tt)
  | S rounds' =>
      let! finished := run_iteration fuel in
      match finished with
      | Some _ => run_loop rounds' fuel
      | None => ret None
      end
  end.

Definition run (rounds fuel : nat) : M (option unit) :=
  (* make sure DB exists: [init()] of the datastore changes nothing in
     the model of the datastore *)
  let! connected := extern RtmConnect rtm_connect in
  if connected : bool then
    let! _ := emit (LogInfo "Watson Online Store bot is connected and running!") in
    run_loop rounds fuel
  else
    let! _ := emit (LogWarning "Connection failed. Invalid Slack token or bot ID?") in
    ret (Some tt).

End Methods.

(** ** The specification's wording of the extraction rules

    The link and the title as the specification states them, for a
    result whose HTML has the href marker at offset [p] and whose text
    has "Product:" at offset [p'] and the next "Category:" at [q]:
    the base URL, the marker and the 6 characters that follow it; the
    text from right after "Product:" up to "Category:". *)
Definition spec_link (html : string) (p : nat) : string :=
  url_start +:+ href_tag +:+
  String.substring (p + String.length href_tag) 6 html.

Definition spec_title (text : string) (p' q : nat) : string :=
  String.substring (p' + String.length product_tag)
                   (q - (p' + String.length product_tag)) text.

(** ** The specification's wording of the flag inspection

    After a dialogue turn the flags are inspected in a fixed priority
    order and the first branch whose condition holds is taken. *)
Inductive branch : Type :=
  | SearchDispatch
  | CartList
  | CartAdd
  | CartDelete
  | NoNewInput
  | AwaitInput.

#[export] Instance value_eq_dec : EqDecision value.
Proof. solve_decision. Defined.

(** The flag [key] holds a string that is not empty. *)
Definition flag_nonempty (c : gmap string value) (key : string) : bool :=
  match c !! key with
  | Some (VStr s) => negb (String.eqb s EmptyString)
  | _ => false
  end.

(** The flag [key] equals the word [s]. *)
Definition flag_equals (c : gmap string value) (key s : string) : bool :=
  bool_decide (c !! key = Some (VStr s)).

Definition branch_condition (search_client : bool) (c : gmap string value)
    (b : branch) : bool :=
  match b with
  | SearchDispatch => flag_nonempty c "discovery_string" && search_client
  | CartList => flag_equals c "shopping_cart" "list"
  | CartAdd =>
      flag_equals c "shopping_cart" "add" && flag_nonempty c "cart_item"
  | CartDelete =>
      flag_equals c "shopping_cart" "delete" && flag_nonempty c "cart_item"
  | NoNewInput => flag_equals c "get_input" "no"
  | AwaitInput => true
  end.

Definition priority : list branch :=
  [SearchDispatch; CartList; CartAdd; CartDelete; NoNewInput; AwaitInput].

Definition first_branch (search_client : bool) (c : gmap string value)
  : option branch :=
  List.find (branch_condition search_client c) priority.

(** The flag [key], when present, holds a string. *)
Definition string_flag (c : gmap string value) (key : string) : Prop :=
  match c !! key with
  | Some (VStr _) | None => True
  | Some _ => False
  end.

Section Branches.

Context {W : Type} `{Collaborators W}.

Definition search_client : bool :=
  if discovery_client is Some _ then true else false.

(** What each branch does. *)
Definition branch_handler (b : branch) : M W bool :=
  match b with
  | SearchDispatch => handle_DiscoveryQuery
  | CartList => handle_list_shopping_cart
  | CartAdd => handle_add_to_cart
  | CartDelete => handle_delete_from_cart
  | NoNewInput => ret false
  | AwaitInput => ret true
  end.

(** The dialogue-engine turn that opens [handle_message]: send the
    message and the context, take the returned context when there is one,
    forward the reply text. *)
Definition dialogue_turn (message : string) (sender : SlackSender)
  : M W unit :=
  let! watson_response := get_watson_response message in
  let! _ :=
    match response_context watson_response with
    | Some c => modify (set_context c)
    | None => ret tt
    end in
  let response :=
    fold_left (λ response text, response +:+ text +:+ nl)
              (response_output_text watson_response) EmptyString in
  send_message sender response.

(** ** Events of a run *)

(** Every run of [m] adds to the trace only events that satisfy [P]. *)
Definition emits {A} (P : event → Prop) (m : M W A) : Prop :=
  ∀ self r self', m self = (r, self') →
    ∃ events, trace self' = trace self ++ events ∧ Forall P events.

End Branches.

(** An event that a turn on [message] may cause: no transport read, and
    no dialogue-engine call with another text. *)
Definition turn_event (message : string) (e : event) : Prop :=
  match e with
  | RtmRead => False
  | ConversationMessage text _ => text = message
  | _ => True
  end.

Definition no_read (e : event) : Prop :=
  match e with
  | RtmRead => False
  | _ => True
  end.

(** ** Example inputs *)

Definition example_html : string :=
  "<a href=" +:+ dquote +:+ "/ProductDetail.aspx?pid=AT&T42" +:+ dquote +:+
  ">".

Definition example_text : string := "Item Product: Mug Category: Gifts".

Definition example_result : raw_result :=
  {| result_html := Some example_html;
     result_text := Some example_text;
     result_score := None |}.

(** A scripted outside world: the dialogue engine answers with the
    next response of a script (and with an empty response once the script
    is over), Slack delivers the next batch of events, the Discovery
    service always finds [example_found]. *)
Record script : Type := {
  watson_script : list watson_response;
  slack_script : list (list slack_output)
}.

Definition scored (s : float) : raw_result :=
  {| result_html := None; result_text := None; result_score := Some s |}.

Definition example_found : DiscoveryResponse :=
  {| results := Some [scored 0.9; scored 0.3; scored 0.6];
     matching_results := Some 3 |}.

Definition example_profile : slack_profile :=
  {| profile_email := Some "a@b.com";
     profile_first_name := Some "Ann";
     profile_last_name := Some "Bee" |}.

#[export] Instance scripted : Collaborators script := {|
  rtm_connect w := (Ok true, w);
  rtm_read w :=
    match slack_script w with
    | [] => (Ok [], w)
    | batch :: rest =>
        (Ok batch, {| watson_script := watson_script w;
                      slack_script := rest |})
    end;
  users_info _ w :=
    (Ok (Some {| json_user := Some (Some example_profile) |}), w);
  chat_postMessage _ _ w := (Ok tt, w);
  conversation_message _ _ w :=
    match watson_script w with
    | [] => (Ok {| response_context := None; response_output_text := [] |}, w)
    | answer :: rest =>
        (Ok answer, {| watson_script := rest;
                       slack_script := slack_script w |})
    end;
  discovery_client := Some (λ _ w, (Ok example_found, w));
  random_randint a _ w := (Ok a, w);
  FAKE_DISCOVERY := []
|}.

Definition example_customer : OnlineStoreCustomer :=
  {| email := "a@b.com"; first_name := "Ann"; last_name := "Bee";
     shopping_cart := [] |}.

Definition example_doc : customer_doc :=
  {| doc_email := "a@b.com"; doc_first_name := "Ann";
     doc_last_name := "Bee";
     doc_shopping_cart := ["Mug: http://x/1" +:+ nl] |}.

Definition example_products : list product_data :=
  [ {| cart_number := "1"; name := "Mug"; url := "http://x/1"; image := "" |};
    {| cart_number := "2"; name := "Cap"; url := "http://x/2"; image := "" |} ].

(** A bot with [context] as its context, the customer of [example_doc]
    bound, two stored search results, and [answers] to come from the
    dialogue engine. *)
Definition example_bot (context : gmap string value)
    (answers : list watson_response) : WatsonOnlineStore script :=
  {| bot_id := "UBOT";
     discovery_score_filter := 0.5;
     context := context;
     customer := Some example_customer;
     response_tuple := Some example_products;
     cloudant_online_store := {[ "a@b.com" := example_doc ]};
     world := {| watson_script := answers; slack_script := [] |};
     trace := [] |}.

(** The same bot before any customer is bound. *)
Definition example_fresh_bot : WatsonOnlineStore script :=
  set_customer None (example_bot ∅ []).

(** A direct message "show cart" from a user, and the answers of a
    dialogue that lists the cart, then needs no input, then waits. *)
Definition example_event : slack_output :=
  {| out_text := Some "Show cart"; out_user := Some "U1";
     out_channel := Some "D42"; out_user_profile := false |}.

Definition example_answers : list watson_response :=
  [ {| response_context := Some {[ "shopping_cart" := VStr "list" ]};
       response_output_text := ["Here is your cart"] |};
    {| response_context := Some {[ "get_input" := VStr "no" ]};
       response_output_text := [] |};
    {| response_context := Some ∅;
       response_output_text := ["Anything else?"] |} ].

Definition example_session : WatsonOnlineStore script :=
  set_world {| watson_script := example_answers;
               slack_script := [[example_event]] |} (example_bot ∅ []).

(** An answer of the dialogue engine that sets a search query and the
    cart listing flag in the same turn. *)
Definition example_overlap : WatsonOnlineStore script :=
  example_bot ∅
    [ {| response_context :=
           Some {[ "discovery_string" := VStr "mug";
                   "shopping_cart" := VStr "list" ]};
         response_output_text := ["Searching"] |} ].

Definition example_sender : SlackSender := {| channel := "D42" |}.

(** Readings of a trace: the transport reads, and the texts sent to
    the dialogue engine. *)
Definition is_read (e : event) : bool :=
  match e with
  | RtmRead => true
  | _ => false
  end.

Definition engine_text (e : event) : option string :=
  match e with
  | ConversationMessage text _ => Some text
  | _ => None
  end.

(** ** Occurrences of a marker in a string *)

(** [sub] occurs in [s] at offset [p]. *)
Definition occurs_at (sub s : string) (p : nat) : Prop :=
  ∃ pre post, s = pre +:+ sub +:+ post ∧ String.length pre = p.

(** The first occurrence of [sub] in [s] at or after [from] is at [p]. *)
Definition first_at (sub s : string) (from p : nat) : Prop :=
  (from ≤ p)%nat ∧ occurs_at sub s p ∧
  ∀ q, (from ≤ q)%nat → (q < p)%nat → ¬ occurs_at sub s q.

(** [sub] occurs nowhere in [s]. *)
Definition lacks (sub s : string) : Prop := ∀ p, ¬ occurs_at sub s p.

(** A field of a raw result has no occurrence of [marker]: the key is
    absent, or its string holds the marker nowhere. *)
Definition field_lacks (marker : string) (field : option string) : Prop :=
  match field with
  | Some s => lacks marker s
  | None => True
  end.

Section CartLoop.

Context {W : Type} `{Collaborators W}.

(** One turn of the [for index, x in enumerate(...)] loops of the add and
    delete handlers: [g x] is the datastore call made when [index+1]
    is the chosen number [n]. *)
Definition cart_step {A} (n : Z)
    (g : A → gmap string customer_doc → gmap string customer_doc)
    (done : M W unit) : nat * A → M W unit :=
  λ '(index, x),
    let! _ := done in
    if Z.of_nat index + 1 =? n then
      modify (λ self,
        set_cloudant (g x (cloudant_online_store self)) self)
    else ret tt.

End CartLoop.

(** ** Readings of the escape transform *)

(** What [slack_encode] makes of one character. *)
Definition escape_char (c : ascii) : string :=
  if Ascii.eqb c "&" then "&amp;"
  else if Ascii.eqb c "<" then "&lt;"
  else if Ascii.eqb c ">" then "&gt;"
  else String c EmptyString.

Fixpoint escape (s : string) : string :=
  match s with
  | EmptyString => EmptyString
  | String c s' => escape_char c +:+ escape s'
  end.

(** The character [c] occurs in [s]. *)
Fixpoint has_char (c : ascii) (s : string) : bool :=
  match s with
  | EmptyString => false
  | String c' s' => Ascii.eqb c' c || has_char c s'
  end.

(** A string that Slack takes as plain text: no angle bracket. *)
Definition slack_safe (s : string) : bool :=
  negb (has_char "<" s) && negb (has_char ">" s).

(** [s] is a text of ASCII characters. *)
Fixpoint is_ascii (s : string) : bool :=
  match s with
  | EmptyString => true
  | String c s' => (nat_of_ascii c <? 128)%nat && is_ascii s'
  end.

(** ** Readings of the transport events *)

(** The text of an event, when it has one, is ASCII. *)
Definition ascii_event (output : slack_output) : Prop :=
  match out_text output with
  | Some text => is_ascii text = true
  | None => True
  end.

(** The events that [parse_slack_output] looks at: those with a text
    and a user, and without ['user_profile']. *)
Definition is_candidate (output : slack_output) : bool :=
  match out_text output, out_user output with
  | Some _, Some _ => negb (out_user_profile output)
  | _, _ => false
  end.

(** An event that is not for the bot: it is no candidate, or its text
    does not mention the bot and it is not a direct message of somebody
    else. *)
Definition not_for_bot (bot_id : string) (output : slack_output) : Prop :=
  match out_text output, out_user output with
  | Some text, Some user =>
      out_user_profile output = true ∨
      (Py.contains (at_bot bot_id) text = false ∧
       ∃ channel, out_channel output = Some channel ∧
         (Py.startswith channel "D" = false ∨ user = bot_id))
  | _, _ => True
  end.

(** ** Readings of a run *)

Section Frames.

Context {W : Type}.

(** No run of [m] changes the attribute [f] of [self]. *)
Definition keeps {A B} (f : WatsonOnlineStore W → B) (m : M W A) : Prop :=
  ∀ self r self', m self = (r, self') → f self' = f self.

End Frames.

(** An event of a flag handler: no transport read, no customer lookup,
    no dialogue-engine call, no post to a channel. *)
Definition handler_event (e : event) : Prop :=
  match e with
  | RtmConnect | RtmRead | UsersInfo _ | ConversationMessage _ _
  | PostMessage _ _ => False
  | _ => True
  end.

Definition no_randint (e : event) : Prop :=
  match e with
  | RandInt _ _ => False
  | _ => True
  end.

Definition no_users_info (e : event) : Prop :=
  match e with
  | UsersInfo _ => False
  | _ => True
  end.

(** With the customer [c] bound, no run of [m] binds another customer
    or looks a user up. *)
Definition keeps_customer {W A} (c : OnlineStoreCustomer) (m : M W A)
  : Prop :=
  ∀ self r self', customer self = Some c → m self = (r, self') →
    customer self' = Some c ∧
    ∃ events, trace self' = trace self ++ events ∧
              Forall no_users_info events.

(** An event that follows the dialogue-engine call of a turn: no
    further engine call, no transport read or connection, no customer
    look-up. *)
Definition after_engine_call (e : event) : Prop :=
  match e with
  | RtmConnect | RtmRead | UsersInfo _ | ConversationMessage _ _ => False
  | _ => True
  end.

(** An event of the loop of [run]: anything but a connection to the
    transport or a draw of a canned answer. *)
Definition loop_event (e : event) : Prop :=
  match e with
  | RtmConnect | RandInt _ _ => False
  | _ => True
  end.

Definition no_connect (e : event) : Prop :=
  match e with
  | RtmConnect => False
  | _ => True
  end.

(** The dialogue-engine calls of a trace. *)
Definition is_engine_call (e : event) : bool :=
  match e with
  | ConversationMessage _ _ => true
  | _ => false
  end.

Section Rounds.

Context {W : Type} `{Collaborators W}.

(** [if user and not self.customer: self.init_customer(user)] of
    [run]. *)
Definition resolve_customer (user : option string) : M W unit :=
  let! c := get customer in
  if truthy_str user && (if c is Some _ then false else true)
  then init_customer (default EmptyString user)
  else ret tt.

(** [n] turns in a row on [message], each one returning "no input
    required", lead from [self] to [self']. *)
Fixpoint no_input_turns (n : nat) (message : string) (sender : SlackSender)
    (self self' : WatsonOnlineStore W) : Prop :=
  match n with
  | O => self' = self
  | S n' =>
      ∃ self1, handle_message message sender self = (Ok false, self1) ∧
               no_input_turns n' message sender self1 self'
  end.

End Rounds.

Definition no_query (e : event) : Prop :=
  match e with
  | DiscoveryQuery _ | RandInt _ _ => False
  | _ => True
  end.

(** The reply text that [handle_message] forwards: every text of the
    answer followed by a newline. *)
Definition reply_text (watson_response : watson_response) : string :=
  fold_left (λ response text, response +:+ text +:+ nl)
            (response_output_text watson_response) EmptyString.

(** ** Calls before the bot exists

    [setup_conversation_workspace] and the start-up of [run.py] run
    before there is a [self]: they map a state [S] of the outside to a
    result, or an exception, and a new state. *)
Definition IO (S A : Type) : Type := S → py_result A * S.

Definition io_ret {S A} (a : A) : IO S A := λ s, (Ok a, s).

Definition io_lift {S A} (r : py_result A) : IO S A := λ s, (r, s).

Definition io_bind {S A B} (m : IO S A) (k : A → IO S B) : IO S B :=
  λ s,
    match m s with
    | (Ok a, s') => k a s'
    | (Raise e, s') => (Raise e, s')
    end.

Notation "'do!' x ':=' m 'in' k" := (io_bind m (λ x, k))
  (at level 10, x pattern, m at level 100, k at level 200).

(** ** The conversation workspace *)

(** One entry of [list_workspaces()['workspaces']], and the answer of
    [create_workspace]: a dict of which the code reads the keys
    ['workspace_id'] and ['name']. *)
Record workspace : Type := {
  workspace_id : option string;
  workspace_name : option string
}.

(** The Conversation client at set-up, and the file
    [data/workspace.json] behind [get_workspace_json]; [J] is the type
    of the values of that file. *)
Class ConversationSetup (W J : Type) : Type := {
  list_workspaces : W → py_result (option (list workspace)) * W;
  get_workspace_json : W → py_result (gmap string J) * W;
  create_workspace :
    string → string → J → J → J → J → J → J → W → py_result workspace * W
}.

(** The message of the [Exception] raised for a [WORKSPACE_ID] that is
    not there; the exception is carried as a [ServiceError]. *)
Definition workspace_missing (env_workspace_id : string) : string :=
  "WORKSPACE_ID=" +:+ env_workspace_id +:+
  " is specified in a runtime environment variable, but that workspace " +:+
  "does not exist.".

(** [for workspace in workspaces: if workspace['workspace_id'] ==
    env_workspace_id: ret = env_workspace_id; break; else: raise ...] *)
Fixpoint workspace_by_id (env_workspace_id : string)
    (workspaces : list workspace) : py_result string :=
  match workspaces with
  | [] => Raise (ServiceError (workspace_missing env_workspace_id))
  | workspace :: workspaces =>
      result_bind (getkey (workspace_id workspace)) (λ id,
        if String.eqb id env_workspace_id then Ok env_workspace_id
        else workspace_by_id env_workspace_id workspaces)
  end.

(** [for workspace in workspaces: if workspace['name'] == name:
    ret = workspace['workspace_id']; break]: [None] when the loop ends
    without [break]. *)
Fixpoint workspace_by_name (name : string) (workspaces : list workspace)
  : py_result (option string) :=
  match workspaces with
  | [] => Ok None
  | workspace :: workspaces =>
      result_bind (getkey (workspace_name workspace)) (λ workspace_name,
        if String.eqb workspace_name name then
          result_bind (getkey (workspace_id workspace)) (λ ret, Ok (Some ret))
        else workspace_by_name name workspaces)
  end.

Section Setup.

Context {W J : Type} `{ConversationSetup W J}.

(** Verify and/or initialize the conversation workspace. *)
Definition setup_conversation_workspace (environ : gmap string string)
  : IO W string :=
  (* Get the actual workspaces *)
  do! answer := list_workspaces in
  do! workspaces := io_lift (getkey answer) in
  let env_workspace_id := environ !! "WORKSPACE_ID" in
  if truthy_str env_workspace_id then
    (* If one was set in the env, require that it can be found. *)
    let env_workspace_id := default EmptyString env_workspace_id in
    io_lift (workspace_by_id env_workspace_id workspaces)
  else
    (* Find it by name. We may have already created it. *)
    let name := default "watson-online-store" (environ !! "WORKSPACE_NAME") in
    do! found := io_lift (workspace_by_name name workspaces) in
    match found with
    | Some ret => io_ret ret
    | None =>
        (* Not found, so create it. *)
        do! workspace := get_workspace_json in
        do! language := io_lift (getkey (workspace !! "language")) in
        do! intents := io_lift (getkey (workspace !! "intents")) in
        do! entities := io_lift (getkey (workspace !! "entities")) in
        do! dialog_nodes := io_lift (getkey (workspace !! "dialog_nodes")) in
        do! counterexamples :=
          io_lift (getkey (workspace !! "counterexamples")) in
        do! metadata := io_lift (getkey (workspace !! "metadata")) in
        do! created :=
          create_workspace
            name "Conversation workspace created by watson-online-store."
            language intents entities dialog_nodes counterexamples metadata in
        io_lift (getkey (workspace_id created))
    end.

End Setup.

(** ** Start-up ([run.py]) *)

Definition MISSING_ENV_VARS : string :=
  "ERROR: Required environment variables are not set.".

(** One entry of the ['members'] of a ['users.list'] answer: a dict of
    which the code reads the keys ['name'] and ['id']. *)
Record slack_member : Type := {
  member_name : option string;
  member_id : option string
}.

(** The ['users.list'] answer: the truth value of [api_call.get('ok')]
    and [api_call.get('members')]. *)
Record UsersList : Type := {
  list_ok : bool;
  list_members : option (list slack_member)
}.

(** What [get_watson_online_store] hands to the constructors of the
    clients and of [WatsonOnlineStore]: the bot id, and whether a
    Discovery client is made. *)
Record store_args : Type := {
  args_bot_id : string;
  args_discovery : bool
}.

(** The Slack client at start-up, and the constructors (the Conversation
    client, the datastore, the Discovery client when there is one,
    [WatsonOnlineStore]) taken together; [B] is the type of the bot they
    make. *)
Class Startup (W B : Type) : Type := {
  users_list : W → py_result UsersList * W;
  make_store : store_args → W → py_result B * W
}.

(** [a + b] where [b] may be [None]. *)
Definition str_add (a : string) (b : option string) : py_result string :=
  match b with
  | Some b => Ok (a +:+ b)
  | None => Raise TypeError
  end.

(** ['%s' % s] *)
Definition percent_s (s : option string) : string := default "None" s.

(** [all((...))] over the values of the keys [keys] of the environment. *)
Definition all_set (environ : gmap string string) (keys : list string)
  : bool :=
  forallb (λ key, truthy_str (environ !! key)) keys.

Definition required_env : list string :=
  ["SLACK_BOT_TOKEN"; "CONVERSATION_USERNAME"; "CONVERSATION_PASSWORD";
   "CLOUDANT_USERNAME"; "CLOUDANT_PASSWORD"; "CLOUDANT_URL";
   "CLOUDANT_DB_NAME"].

Definition discovery_env : list string :=
  ["DISCOVERY_USERNAME"; "DISCOVERY_PASSWORD"; "DISCOVERY_ENVIRONMENT_ID";
   "DISCOVERY_COLLECTION_ID"].

Section Start.

Context {W B : Type} `{Startup W B}.

(** The state at start-up: the outside world and the lines printed. *)
#[local] Abbreviation IO' := (IO (W * list string)).

Definition print (line : string) : IO' unit :=
  λ '(w, out), (Ok tt, (w, out ++ [line])).

Definition call {A} (f : W → py_result A * W) : IO' A :=
  λ '(w, out), let '(r, w') := f w in (r, (w', out)).

(** The [for user in users] loop of [get_slack_user_id], with its
    [else]. *)
Fixpoint find_bot_id (slack_bot_user : option string)
    (users : list slack_member) : IO' (option string) :=
  match users with
  | [] =>
      do! line :=
        io_lift (str_add "could not find user with the name " slack_bot_user) in
      do! _ := print line in
      io_ret None
  | user :: users =>
      if match member_name user with
         | Some name => bool_decide (Some name = slack_bot_user)
         | None => false
         end
      then
        let bot_id := member_id user in
        do! line := io_lift (str_add "Found BOT_ID=" bot_id) in
        do! _ := print line in
        io_ret bot_id
      else find_bot_id slack_bot_user users
  end.

(** Get slack bot user ID from SLACK_BOT_USER. *)
Definition get_slack_user_id (environ : gmap string string)
  : IO' (option string) :=
  let slack_bot_user := environ !! "SLACK_BOT_USER" in
  do! _ := print ("Looking up BOT_ID for '" +:+ percent_s slack_bot_user +:+
                  "'") in
  do! api_call := call users_list in
  if list_ok api_call then
    (* retrieve all users so we can find our bot *)
    do! users := io_lift (match list_members api_call with
                          | Some users => Ok users
                          | None => Raise TypeError
                          end) in
    find_bot_id slack_bot_user users
  else
    do! _ := print "could not find user because api_call did not return 'ok'" in
    io_ret None.

Definition get_watson_online_store (environ : gmap string string)
  : IO' (option B) :=
  (* Get all the required environment vars *)
  let bot_id := environ !! "BOT_ID" in
  if negb (all_set environ required_env) then
    do! _ := print MISSING_ENV_VARS in
    io_ret None
  else
    (* If BOT_ID wasn't set, we can get it using SlackClient and user ID. *)
    do! bot_id :=
      if negb (truthy_str bot_id) then get_slack_user_id environ
      else io_ret bot_id in
    if negb (truthy_str bot_id) then io_ret None
    else
      (* Init Watson Discovery only if all the env vars are set. *)
      let discovery_client := all_set environ discovery_env in
      do! watsononlinestore :=
        call (make_store {| args_bot_id := default EmptyString bot_id;
                            args_discovery := discovery_client |}) in
      io_ret (Some watsononlinestore).

End Start.

(** ** Example inputs of the set-up *)

(** A Conversation service with two workspaces, whose state counts the
    workspaces created. *)
#[export] Instance example_setup : ConversationSetup nat unit := {|
  list_workspaces w :=
    (Ok (Some [ {| workspace_id := Some "w1"; workspace_name := Some "other" |};
                {| workspace_id := Some "w2";
                   workspace_name := Some "watson-online-store" |} ]), w);
  get_workspace_json w :=
    (Ok (list_to_map
           [("language", tt); ("intents", tt); ("entities", tt);
            ("dialog_nodes", tt); ("counterexamples", tt); ("metadata", tt)]),
     w);
  create_workspace _ _ _ _ _ _ _ _ w :=
    (Ok {| workspace_id := Some "new"; workspace_name := None |}, S w)
|}.

(** A Slack team with two members, whose state counts the calls, and
    constructors that hand back their arguments. *)
#[export] Instance example_startup : Startup nat store_args := {|
  users_list w :=
    (Ok {| list_ok := true;
           list_members :=
             Some [ {| member_name := Some "ann"; member_id := Some "U1" |};
                    {| member_name := Some "wos"; member_id := Some "UBOT" |} ]
        |}, S w);
  make_store args w := (Ok args, w)
|}.

Definition example_environ : gmap string string :=
  list_to_map
    [("SLACK_BOT_TOKEN", "t"); ("CONVERSATION_USERNAME", "u");
     ("CONVERSATION_PASSWORD", "p"); ("CLOUDANT_USERNAME", "cu");
     ("CLOUDANT_PASSWORD", "cp"); ("CLOUDANT_URL", "url");
     ("CLOUDANT_DB_NAME", "db"); ("SLACK_BOT_USER", "wos")].

(** A Slack team whose ['users.info'] knows "U2" by an email alone and
    answers nothing for "U3", and fails for every other user; the
    transport does not connect and there is no Discovery client. *)
Definition sparse : Collaborators unit := {|
  rtm_connect w := (Ok false, w);
  rtm_read w := (Ok [], w);
  users_info user w :=
    if String.eqb user "U2" then
      (Ok (Some {| json_user :=
                     Some (Some {| profile_email := Some "c@d.com";
                                   profile_first_name := None;
                                   profile_last_name := None |}) |}), w)
    else if String.eqb user "U3" then (Ok None, w)
    else (Raise (ServiceError "ConnectionError()"), w);
  chat_postMessage _ _ w := (Ok tt, w);
  conversation_message _ _ w :=
    (Ok {| response_context := None; response_output_text := [] |}, w);
  discovery_client := None;
  random_randint a _ w := (Ok a, w);
  FAKE_DISCOVERY := ["canned"]
|}.

Definition sparse_bot : WatsonOnlineStore unit :=
  {| bot_id := "UBOT";
     discovery_score_filter := 0;
     context := ∅;
     customer := None;
     response_tuple := None;
     cloudant_online_store := ∅;
     world := tt;
     trace := [] |}.

(** * Properties *)

(** ** Strings *)

Lemma substring_full (s : string) : String.substring 0 (String.length s) s = s.
Proof. induction s as [|c s IH]; simpl; [done | by rewrite IH]. Qed.

Lemma substring_length (n m : nat) (s : string) :
  String.length (String.substring n m s)
  = Nat.min m (String.length s - n).
Proof.
  revert n m; induction s as [|c s IH]; intros [|n] [|m]; simpl; try done.
  all: rewrite IH; lia.
Qed.

Lemma substring_truncate (n m : nat) (s : string) :
  String.substring n (Nat.min m (String.length s - n)) s
  = String.substring n m s.
Proof.
  revert n m; induction s as [|c s IH]; intros n m.
  - destruct n, m; done.
  - destruct n as [|n].
    + destruct m as [|m]; [done|].
      change (String.length (String c s) - 0)%nat with (S (String.length s)).
      rewrite <- Nat.succ_min_distr. cbn [String.substring]. f_equal.
      rewrite <- (IH 0%nat m). by rewrite Nat.sub_0_r.
    + change (String.length (String c s) - S n)%nat
        with (String.length s - n)%nat.
      destruct m; apply IH.
Qed.

Lemma append_cons (c : ascii) (a b : string) :
  String c a +:+ b = String c (a +:+ b).
Proof. reflexivity. Qed.

Lemma append_nil (a : string) : EmptyString +:+ a = a.
Proof. reflexivity. Qed.

Lemma append_assoc (a b c : string) : (a +:+ b) +:+ c = a +:+ b +:+ c.
Proof.
  induction a as [|x a IH]; [done|]. rewrite !append_cons. by f_equal.
Qed.

Lemma append_length (a b : string) :
  String.length (a +:+ b) = (String.length a + String.length b)%nat.
Proof.
  induction a as [|x a IH]; [done|]. rewrite append_cons. simpl. by f_equal.
Qed.

#[local] Transparent String.prefix.

Lemma prefix_append (p s : string) :
  String.prefix p s = true ↔ ∃ post, s = p +:+ post.
Proof.
  revert s; induction p as [|c p IH]; intros s.
  - split; [intros _; by exists s | by destruct s].
  - destruct s as [|d s]; [split; [done | by intros [? ?]] |].
    cbn [String.prefix]. destruct (ascii_dec c d) as [->|Hne].
    + rewrite IH. split; intros [post Hp]; exists post;
        rewrite append_cons in *; congruence.
    + split; [done | intros [post Hp]; rewrite append_cons in Hp; congruence].
Qed.

Lemma occurs_at_substring (sub s : string) (p : nat) :
  occurs_at sub s p → String.substring p (String.length sub) s = sub.
Proof.
  intros (pre & post & -> & <-). induction pre as [|c pre IH].
  - apply prefix_correct, prefix_append. by exists post.
  - rewrite append_cons. exact IH.
Qed.

Lemma substring_occurs_at (sub s : string) (p : nat) :
  sub ≠ EmptyString →
  String.substring p (String.length sub) s = sub → occurs_at sub s p.
Proof.
  intros Hne. revert p; induction s as [|c s IH]; intros p Hs.
  - destruct p, sub; simpl in Hs; congruence.
  - destruct p as [|p].
    + apply prefix_correct, prefix_append in Hs as [post ->].
      by exists EmptyString, post.
    + cbn [String.substring] in Hs.
      destruct (IH p Hs) as (pre & post & -> & <-).
      by exists (String c pre), post.
Qed.

Lemma index_ge (n m : nat) (sub s : string) :
  String.index n sub s = Some m → (n ≤ m)%nat.
Proof.
  revert n m; induction s as [|c s IH]; intros n m; simpl.
  - destruct n; [destruct sub|]; intros; simplify_eq; lia.
  - destruct n as [|n]; [lia|].
    destruct (String.index n sub s) as [k|] eqn:Hk; intros; simplify_eq.
    apply IH in Hk. lia.
Qed.

Lemma index_first_at (sub s : string) (from p : nat) :
  sub ≠ EmptyString → first_at sub s from p →
  String.index from sub s = Some p.
Proof.
  intros Hne (Hle & Hocc & Hmin).
  destruct (String.index from sub s) as [m|] eqn:Hm.
  - f_equal. pose proof (index_ge _ _ _ _ Hm) as Hge.
    destruct (Nat.lt_trichotomy m p) as [Hlt|[->|Hgt]]; [|done|].
    + exfalso. apply (Hmin m Hge Hlt).
      apply substring_occurs_at; [done|]. by eapply index_correct1.
    + exfalso. eapply (index_correct2 _ _ _ _ Hm p); [done..|].
      by apply occurs_at_substring.
  - exfalso. eapply (index_correct3 _ p _ _ Hm); [done..|].
    by apply occurs_at_substring.
Qed.

Lemma index_lacks (sub s : string) (from : nat) :
  sub ≠ EmptyString → lacks sub s → String.index from sub s = None.
Proof.
  intros Hne Hl. destruct (String.index from sub s) as [m|] eqn:Hm; [|done].
  exfalso. apply (Hl m), substring_occurs_at; [done|].
  by eapply index_correct1.
Qed.

Lemma index_occurs_at (sub s : string) (from m : nat) :
  sub ≠ EmptyString → String.index from sub s = Some m → occurs_at sub s m.
Proof.
  intros Hne Hm. apply substring_occurs_at; [done|]. by eapply index_correct1.
Qed.

Lemma index_prefix (sub rest : string) :
  String.index 0 sub (sub +:+ rest) = Some 0%nat.
Proof.
  assert (String.prefix sub (sub +:+ rest) = true) as Hp
    by (apply prefix_append; by exists rest).
  destruct (sub +:+ rest) as [|c s] eqn:Hs.
  - by destruct sub.
  - cbn [String.index]. by rewrite Hp.
Qed.

Lemma find_index (s sub : string) :
  Py.find s sub = match String.index 0 sub s with
                  | Some i => Z.of_nat i
                  | None => -1
                  end.
Proof.
  unfold Py.find, Py.find_from, Py.clamp, Py.len. simpl (0 <? 0).
  cbv iota. by rewrite Z.min_l by lia.
Qed.

Lemma find_in_index (s sub : string) (from : nat) :
  (from ≤ String.length s)%nat →
  Py.find_in s sub (Z.of_nat from) (Py.len s)
  = match String.index from sub s with
    | Some i => Z.of_nat i
    | None => -1
    end.
Proof.
  intros Hle. unfold Py.find_in, Py.clamp, Py.len.
  destruct (Z.ltb_spec (Z.of_nat from) 0); [lia|].
  destruct (Z.ltb_spec (Z.of_nat (String.length s)) 0); [lia|].
  rewrite Z.min_l, Z.min_id, !Nat2Z.id by lia. by rewrite substring_full.
Qed.

Lemma slice_substring (s : string) (a n : nat) :
  (a ≤ String.length s)%nat →
  Py.slice s (Z.of_nat a) (Z.of_nat a + Z.of_nat n) = String.substring a n s.
Proof.
  intros Hle. unfold Py.slice, Py.clamp, Py.len.
  destruct (Z.ltb_spec (Z.of_nat a) 0); [lia|].
  destruct (Z.ltb_spec (Z.of_nat a + Z.of_nat n) 0); [lia|].
  rewrite (Z.min_l (Z.of_nat a)), Nat2Z.id by lia.
  rewrite <- (substring_truncate a n). f_equal. lia.
Qed.

Lemma slice_between (s : string) (a b : nat) :
  (a ≤ String.length s)%nat → (b ≤ String.length s)%nat →
  Py.slice s (Z.of_nat a) (Z.of_nat b) = String.substring a (b - a) s.
Proof.
  intros Ha Hb. unfold Py.slice, Py.clamp, Py.len.
  destruct (Z.ltb_spec (Z.of_nat a) 0); [lia|].
  destruct (Z.ltb_spec (Z.of_nat b) 0); [lia|].
  rewrite !Z.min_l, Nat2Z.id by lia. f_equal. lia.
Qed.

(** ** The Result Formatter *)

Lemma url_format_result (n : Z) (r : raw_result) :
  url (format_result n r)
  = slack_encode
      match result_html r with
      | Some html =>
          if 0 <? Py.find html href_tag then
            url_start +:+ href_tag +:+
            Py.slice html (Py.find html href_tag + Py.len href_tag)
                     (Py.find html href_tag + Py.len href_tag + 6)
          else EmptyString
      | None => EmptyString
      end.
Proof. unfold format_result. by destruct (result_html r). Qed.

Lemma image_format_result (n : Z) (r : raw_result) :
  image (format_result n r)
  = slack_encode
      match result_html r with
      | Some html =>
          if 0 <? Py.find html img_tag then
            let simg := Py.find html img_tag + Py.len img_tag in
            if 0 <? Py.find_from html dquote simg
            then re_sub_scale
                   (Py.slice html simg (Py.find_from html dquote simg))
            else EmptyString
          else EmptyString
      | None => EmptyString
      end.
Proof. unfold format_result. by destruct (result_html r). Qed.

Lemma name_format_result (n : Z) (r : raw_result) :
  name (format_result n r)
  = slack_encode
      match result_text r with
      | Some text =>
          if 0 <? Py.find text product_tag then
            let sidx := Py.find text product_tag + Py.len product_tag in
            if 0 <? Py.find_in text category_tag sidx (Py.len text)
            then Py.slice text sidx
                   (Py.find_in text category_tag sidx (Py.len text) - 1)
            else EmptyString
          else EmptyString
      | None => EmptyString
      end.
Proof. unfold format_result. by destruct (result_html r). Qed.

Lemma cart_number_format_result (n : Z) (r : raw_result) :
  cart_number (format_result n r) = Py.str n.
Proof. unfold format_result. by destruct (result_html r). Qed.

Lemma format_loop (rs : list raw_result) (k : nat) :
  (k ≤ length rs)%nat →
  fold_left (format_step rs) (seq 0 k) (Ok (1, []))
  = Ok (1 + Z.of_nat k,
        imap (λ i r, format_result (Z.of_nat i + 1) r) (take k rs)).
Proof.
  induction k as [|k IH]; intros Hk; [done|].
  rewrite seq_S, fold_left_app, IH by lia. simpl.
  destruct (lookup_lt_is_Some_2 rs k) as [r Hr]; [lia|].
  unfold getitem. rewrite Hr. simpl. f_equal. f_equal; [lia|].
  rewrite (take_S_r _ _ _ Hr), imap_app. simpl.
  rewrite length_take, Nat.min_l, Nat.add_0_r by lia.
  do 3 f_equal. lia.
Qed.

Lemma format_discovery_response_imap (response : DiscoveryResponse) :
  format_discovery_response response
  = Ok (imap (λ i r, format_result (Z.of_nat i + 1) r)
             (take DISCOVERY_KEEP_COUNT (default [] (results response)))).
Proof.
  unfold format_discovery_response.
  destruct (results response) as [[|r rs]|]; [done| |done].
  remember (r :: rs) as l eqn:Hl. rewrite format_loop by lia.
  cbn [result_bind default]. f_equal. f_equal.
  rewrite <- take_take. unfold id. apply take_ge. rewrite length_take. lia.
Qed.

Lemma format_discovery_response_lookup (response : DiscoveryResponse)
    (output : list product_data) (i : nat) (record : product_data) :
  format_discovery_response response = Ok output →
  output !! i = Some record →
  ∃ result, default [] (results response) !! i = Some result ∧
            record = format_result (Z.of_nat i + 1) result.
Proof.
  rewrite format_discovery_response_imap. intros [= <-] Hi.
  apply list_lookup_imap_Some in Hi as (r & Hr & ->).
  apply lookup_take_Some in Hr as [Hr _]. by exists r.
Qed.

(** C6: for a raw result list of length n the formatter returns
    min(n, 5) records; the i-th record (from 0) carries the index i+1 and
    is built from the i-th raw result, so the order is that of the input
    and the raw results from the sixth on play no part. *)
Theorem format_discovery_response_keep_count (response : DiscoveryResponse) :
  let raw := default [] (results response) in
  ∃ output,
    format_discovery_response response = Ok output ∧
    length output = Nat.min (length raw) 5 ∧
    ∀ i record, output !! i = Some record →
      cart_number record = Py.str (Z.of_nat i + 1) ∧
      ∃ result, raw !! i = Some result ∧
                record = format_result (Z.of_nat i + 1) result.
Proof.
  intros raw. eexists. split; [apply format_discovery_response_imap|].
  split.
  - rewrite length_imap, length_take. unfold DISCOVERY_KEEP_COUNT, raw. lia.
  - intros i record Hi.
    destruct (format_discovery_response_lookup response _ i record
                (format_discovery_response_imap response) Hi)
      as (r & Hr & ->).
    split; [apply cart_number_format_result | by exists r].
Qed.

Lemma slack_encode_empty : slack_encode EmptyString = EmptyString.
Proof. reflexivity. Qed.

Lemma find_lacks (s sub : string) :
  sub ≠ EmptyString → lacks sub s → Py.find s sub = -1.
Proof. intros Hne Hl. by rewrite find_index, index_lacks. Qed.

Lemma find_first_at (s sub : string) (p : nat) :
  sub ≠ EmptyString → first_at sub s 0 p → Py.find s sub = Z.of_nat p.
Proof. intros Hne Hp. by rewrite find_index, (index_first_at _ _ _ _ Hne Hp). Qed.

Lemma first_at_index (sub s : string) (from p : nat) :
  sub ≠ EmptyString → String.index from sub s = Some p →
  first_at sub s from p.
Proof.
  intros Hne Hp. split; [by eapply index_ge|].
  split; [by eapply index_occurs_at|].
  intros q Hq1 Hq2 Hocc%occurs_at_substring.
  by eapply (index_correct2 _ _ _ _ Hp q).
Qed.

Lemma occurs_at_length (sub s : string) (p : nat) :
  occurs_at sub s p → (p + String.length sub ≤ String.length s)%nat.
Proof. intros (pre & post & -> & <-). rewrite !append_length. lia. Qed.

(** C9: the formatter returns on every response, and for every raw
    result of which a field lacks a marker the corresponding field of the
    record built from it is the empty string. *)
Theorem format_discovery_response_markers_absent
    (response : DiscoveryResponse) :
  ∃ output,
    format_discovery_response response = Ok output ∧
    ∀ i record, output !! i = Some record →
      ∃ result, default [] (results response) !! i = Some result ∧
        (field_lacks href_tag (result_html result) →
         url record = EmptyString) ∧
        (field_lacks img_tag (result_html result) →
         image record = EmptyString) ∧
        (field_lacks product_tag (result_text result) ∨
         field_lacks category_tag (result_text result) →
         name record = EmptyString).
Proof.
  eexists. split; [apply format_discovery_response_imap|].
  intros i record Hi.
  destruct (format_discovery_response_lookup response _ i record
              (format_discovery_response_imap response) Hi)
    as (r & Hr & ->).
  exists r. split; [done|]. split; [|split].
  - intros Hl. rewrite url_format_result.
    destruct (result_html r) as [html|]; [|done].
    by rewrite find_lacks.
  - intros Hl. rewrite image_format_result.
    destruct (result_html r) as [html|]; [|done].
    by rewrite find_lacks.
  - intros Hl. rewrite name_format_result.
    destruct (result_text r) as [text|]; [|done].
    destruct Hl as [Hl|Hl]; [by rewrite find_lacks|].
    destruct (0 <? Py.find text product_tag) eqn:Hp; [|done].
    cbv zeta. rewrite find_index in *.
    destruct (String.index 0 product_tag text) as [p|] eqn:Hi0; [|done].
    apply index_occurs_at, occurs_at_length in Hi0; [|done].
    change (Py.len product_tag) with (Z.of_nat 8).
    rewrite <- Nat2Z.inj_add, find_in_index, index_lacks; done.
Qed.

(** C10: a marker at offset 0 of its field leaves the field empty, as an
    absent marker does; and a field that is not empty comes from a marker
    found at a strictly positive offset. *)
Theorem format_result_marker_at_offset_zero (n : Z) (result : raw_result) :
  (∀ rest, result_html result = Some (href_tag +:+ rest) →
           url (format_result n result) = EmptyString) ∧
  (∀ rest, result_html result = Some (img_tag +:+ rest) →
           image (format_result n result) = EmptyString) ∧
  (∀ rest, result_text result = Some (product_tag +:+ rest) →
           name (format_result n result) = EmptyString) ∧
  (url (format_result n result) ≠ EmptyString →
   ∃ html p, result_html result = Some html ∧
             occurs_at href_tag html p ∧ (0 < p)%nat) ∧
  (image (format_result n result) ≠ EmptyString →
   ∃ html p, result_html result = Some html ∧
             occurs_at img_tag html p ∧ (0 < p)%nat) ∧
  (name (format_result n result) ≠ EmptyString →
   ∃ text p, result_text result = Some text ∧
             occurs_at product_tag text p ∧ (0 < p)%nat).
Proof.
  rewrite url_format_result, image_format_result, name_format_result.
  repeat split.
  - intros rest ->. by rewrite find_index, index_prefix.
  - intros rest ->. by rewrite find_index, index_prefix.
  - intros rest ->. by rewrite find_index, index_prefix.
  - destruct (result_html result) as [html|]; [|done].
    rewrite find_index.
    destruct (String.index 0 href_tag html) as [p|] eqn:Hp; [|done].
    destruct (Z.ltb_spec 0 (Z.of_nat p)); [|done]. intros _.
    exists html, p. split; [done|]. split; [|lia].
    by eapply index_occurs_at.
  - destruct (result_html result) as [html|]; [|done].
    rewrite find_index.
    destruct (String.index 0 img_tag html) as [p|] eqn:Hp; [|done].
    destruct (Z.ltb_spec 0 (Z.of_nat p)); [|done]. intros _.
    exists html, p. split; [done|]. split; [|lia].
    by eapply index_occurs_at.
  - destruct (result_text result) as [text|]; [|done].
    rewrite find_index.
    destruct (String.index 0 product_tag text) as [p|] eqn:Hp; [|done].
    destruct (Z.ltb_spec 0 (Z.of_nat p)); [|done]. intros _.
    exists text, p. split; [done|]. split; [|lia].
    by eapply index_occurs_at.
Qed.




(** ** The score filter *)

Lemma SFcompare_antisym (x y : spec_float) :
  SFcompare y x = option_map CompOpp (SFcompare x y).
Proof.
  destruct x as [sx|sx| |sx mx ex], y as [sy|sy| |sy my ey]; simpl;
    try done; try (by destruct sx); try (by destruct sy);
    try (by destruct sx, sy).
  f_equal. destruct sx, sy; try done.
  all: destruct (Z.compare_spec ex ey) as [->|Hlt|Hgt].
  all: try (rewrite Z.compare_refl).
  all: try (rewrite (proj2 (Z.compare_gt_iff ey ex)) by lia).
  all: try (rewrite (proj2 (Z.compare_lt_iff ey ex)) by lia).
  all: try done.
  all: assert (Pos.compare_cont Eq my mx
               = CompOpp (Pos.compare_cont Eq mx my)) as ->
         by (symmetry; apply (Pos.compare_cont_antisym mx my Eq)); done.
Qed.

Lemma float_leb_not_gt (s t : float) :
  PrimFloat.leb s t = true → PrimFloat.ltb t s = false.
Proof.
  rewrite FloatAxioms.leb_spec, FloatAxioms.ltb_spec. unfold SFleb, SFltb.
  rewrite (SFcompare_antisym (Prim2SF s) (Prim2SF t)).
  by destruct (SFcompare (Prim2SF s) (Prim2SF t)) as [[]|].
Qed.

Lemma float_positive_truthy (t : float) :
  PrimFloat.ltb 0 t = true → truthy_float t = true.
Proof.
  unfold truthy_float. rewrite FloatAxioms.ltb_spec, FloatAxioms.eqb_spec. unfold SFltb, SFeqb.
  rewrite (SFcompare_antisym (Prim2SF 0) (Prim2SF t)).
  by destruct (SFcompare (Prim2SF 0) (Prim2SF t)) as [[]|].
Qed.

Lemma filter_by_score_elem (threshold : float) (rs : list raw_result)
    (x : raw_result) :
  x ∈ filter_by_score threshold rs ↔
  x ∈ rs ∧ ∃ s, result_score x = Some s ∧ PrimFloat.ltb threshold s = true.
Proof.
  unfold filter_by_score. rewrite !list_elem_of_In, filter_In.
  split; intros [Hx Hs]; (split; [done|]).
  - destruct (result_score x) as [s|]; [by exists s | done].
  - by destruct Hs as (s & -> & ->).
Qed.

Section Dispatch.

Context {W : Type} `{Collaborators W}.

(** C5: with a positive score filter threshold, the raw results that
    survive are those with a score above the threshold: every result
    scoring at or below it (and every result without a score) is removed;
    ['matching_results'] is the number of survivors; and it is the
    filtered response that is formatted and stored. *)
Theorem get_discovery_response_score_filter
    (self : WatsonOnlineStore W)
    (query : value → W → py_result DiscoveryResponse * W)
    (input_text : value) (response : DiscoveryResponse) (w : W)
    (rs : list raw_result) :
  discovery_client = Some query →
  query input_text (world self) = (Ok response, w) →
  results response = Some rs →
  PrimFloat.ltb 0 (discovery_score_filter self) = true →
  let threshold := discovery_score_filter self in
  let filtered := apply_score_filter threshold response in
  let fr := filter_by_score threshold rs in
  results filtered = Some fr ∧
  matching_results filtered = Some (Z.of_nat (length fr)) ∧
  (∀ x, x ∈ fr ↔
        x ∈ rs ∧ ∃ s, result_score x = Some s ∧
                      PrimFloat.ltb threshold s = true) ∧
  (∀ x s, result_score x = Some s → PrimFloat.leb s threshold = true →
          x ∉ fr) ∧
  ∃ output self',
    format_discovery_response filtered = Ok output ∧
    get_discovery_response input_text self
    = (Ok {[ "discovery_result" := VStr (format_items output) ]}, self') ∧
    response_tuple self' = Some output.
Proof.
  intros Hclient Hquery Hrs Hpos threshold filtered fr.
  assert (filtered = {| results := Some fr;
                        matching_results := Some (Z.of_nat (length fr)) |})
    as Hfiltered.
  { unfold filtered, fr, threshold, apply_score_filter.
    by rewrite Hrs, (float_positive_truthy _ Hpos). }
  split; [by rewrite Hfiltered|]. split; [by rewrite Hfiltered|].
  split; [apply filter_by_score_elem|]. split.
  - intros x s Hs Hle [_ (s' & Hs' & Hgt)]%filter_by_score_elem.
    rewrite Hs in Hs'. injection Hs' as <-.
    by rewrite (float_leb_not_gt _ _ Hle) in Hgt.
  - eexists _, _. split; [apply format_discovery_response_imap|].
    unfold get_discovery_response. rewrite Hclient.
    unfold bind, extern, bind, emit, modify, get, lift, ret. simpl.
    rewrite Hquery. fold threshold filtered.
    rewrite format_discovery_response_imap. done.
Qed.

End Dispatch.

Lemma get_discovery_response_score_filter_witness :
  let self := example_bot ∅ [] in
  let filtered := apply_score_filter 0.5 example_found in
  filtered = {| results := Some [scored 0.9; scored 0.6];
                matching_results := Some 2 |} ∧
  ∃ output self',
    format_discovery_response filtered = Ok output ∧
    get_discovery_response (VStr "mug") self
    = (Ok {[ "discovery_result" := VStr (format_items output) ]}, self') ∧
    response_tuple self' = Some output.
Proof.
  intros self filtered. split; [by vm_compute|].
  refine (proj2 (proj2 (proj2 (proj2
    (get_discovery_response_score_filter self _ (VStr "mug") example_found
       (world self) [scored 0.9; scored 0.3; scored 0.6]
       eq_refl eq_refl eq_refl eq_refl))))).
Defined.

(** ** The cart handlers *)

Section Handlers.

Context {W : Type} `{Collaborators W}.

#[local] Abbreviation M := (M W).

Lemma cart_item_number_ok (self : WatsonOnlineStore W) (v : value) (n : Z) :
  context self !! "cart_item" = Some v → py_int v = Ok n →
  cart_item_number self = (Ok (Some n), self).
Proof.
  intros Hv Hn.
  unfold cart_item_number, try_except, context_getitem, bind, get, lift, ret.
  by rewrite Hv; simpl; rewrite Hn.
Qed.

Lemma cart_item_number_value_error (self : WatsonOnlineStore W) (v : value) :
  context self !! "cart_item" = Some v → py_int v = Raise ValueError →
  cart_item_number self
  = (Ok None,
     set_trace (trace self ++ [LogException "cart_item must be a number"])
               self).
Proof.
  intros Hv Hn.
  unfold cart_item_number, try_except, context_getitem, bind, get, lift, ret.
  by rewrite Hv; simpl; rewrite Hn.
Qed.

Lemma clear_shopping_cart_run (self : WatsonOnlineStore W) :
  clear_shopping_cart self
  = (Ok tt,
     set_context (<["cart_item" := VStr ""]>
                    (<["shopping_cart" := VStr ""]> (context self))) self).
Proof. reflexivity. Qed.

Lemma cart_loop_run {A} (n : Z)
    (g : A → gmap string customer_doc → gmap string customer_doc)
    (l : list A) (k : nat) (acc : M unit) (self self1 : WatsonOnlineStore W) :
  acc self = (Ok tt, self1) →
  fold_left (cart_step n g) (imap (λ i x, ((k + i)%nat, x)) l) acc self
  = (Ok tt,
     match (if Z.of_nat k <? n then l !! (Z.to_nat (n - 1) - k)%nat
            else None) with
     | Some x => set_cloudant (g x (cloudant_online_store self1)) self1
     | None => self1
     end).
Proof.
  revert k acc self1. induction l as [|x l IH]; intros k acc self1 Hacc.
  - simpl. rewrite Hacc. by destruct (Z.of_nat k <? n).
  - cbn [imap fold_left].
    rewrite (imap_ext _ (λ i x, ((S k + i)%nat, x)))
      by (intros; simpl; f_equal; lia).
    destruct (Z.eqb_spec (Z.of_nat k + 1) n) as [Hn|Hn].
    + erewrite IH; last first.
      { unfold cart_step, bind. rewrite Hacc.
        rewrite Nat.add_0_r. rewrite (proj2 (Z.eqb_eq _ _) Hn). done. }
      destruct (Z.ltb_spec (Z.of_nat (S k)) n); [lia|].
      destruct (Z.ltb_spec (Z.of_nat k) n); [|lia].
      by replace (Z.to_nat (n - 1) - k)%nat with 0%nat by lia.
    + erewrite IH; last first.
      { unfold cart_step, bind. rewrite Hacc.
        rewrite Nat.add_0_r. rewrite (proj2 (Z.eqb_neq _ _) Hn). done. }
      destruct (Z.ltb_spec (Z.of_nat (S k)) n),
               (Z.ltb_spec (Z.of_nat k) n); try lia; try done.
      by replace (Z.to_nat (n - 1) - k)%nat
        with (S (Z.to_nat (n - 1) - S k))%nat by lia.
Qed.

Lemma handle_add_to_cart_run (self : WatsonOnlineStore W)
    (c : OnlineStoreCustomer) (rs : list product_data) (v : value) (r : Z) :
  customer self = Some c → response_tuple self = Some rs →
  context self !! "cart_item" = Some v → py_int v = Ok r →
  handle_add_to_cart self
  = (Ok false,
     set_context (<["cart_item" := VStr ""]>
                    (<["shopping_cart" := VStr ""]> (context self)))
       match (if 0 <? r then rs !! Z.to_nat (r - 1) else None) with
       | Some entry =>
           set_cloudant
             (Cloudant.add_to_shopping_cart (email c)
                (name entry +:+ ": " +:+ url entry +:+ nl)
                (cloudant_online_store self)) self
       | None => self
       end).
Proof.
  intros Hc Hrs Hv Hr. unfold handle_add_to_cart.
  unfold bind at 1. rewrite (cart_item_number_ok _ _ _ Hv Hr).
  unfold bind at 1, customer_email, bind at 1, get at 1. rewrite Hc.
  unfold ret at 1, bind at 1, get at 1. rewrite Hrs.
  unfold bind at 1, lift at 1, bind at 1.
  pose proof (cart_loop_run r
    (λ entry, Cloudant.add_to_shopping_cart (email c)
                (name entry +:+ ": " +:+ url entry +:+ nl))
    rs 0 (ret tt) self self eq_refl) as Hloop.
  unfold cart_step in Hloop. cbn [Nat.add] in Hloop.
  change (Z.of_nat 0) with 0 in Hloop. rewrite Nat.sub_0_r in Hloop.
  rewrite Hloop. unfold bind, ret. rewrite clear_shopping_cart_run.
  by destruct (if 0 <? r then rs !! Z.to_nat (r - 1) else None).
Qed.

Lemma handle_delete_from_cart_run (self : WatsonOnlineStore W)
    (c : OnlineStoreCustomer) (v : value) (r : Z) :
  customer self = Some c →
  context self !! "cart_item" = Some v → py_int v = Ok r →
  let shopping_list :=
    Cloudant.list_shopping_cart (email c) (cloudant_online_store self) in
  handle_delete_from_cart self
  = (Ok false,
     set_context (<["cart_item" := VStr ""]>
                    (<["shopping_cart" := VStr ""]> (context self)))
       match (if 0 <? r then shopping_list !! Z.to_nat (r - 1)
              else None) with
       | Some item =>
           set_cloudant
             (Cloudant.delete_item_shopping_cart (email c) item
                (cloudant_online_store self)) self
       | None => self
       end).
Proof.
  intros Hc Hv Hr shopping_list. unfold handle_delete_from_cart.
  unfold bind at 1, customer_email, bind at 1, get at 1. rewrite Hc.
  unfold ret at 1, bind at 1, get at 1.
  unfold bind at 1. rewrite (cart_item_number_ok _ _ _ Hv Hr).
  unfold bind at 1.
  pose proof (cart_loop_run r
    (λ item, Cloudant.delete_item_shopping_cart (email c) item)
    shopping_list 0 (ret tt) self self eq_refl) as Hloop.
  unfold cart_step in Hloop. cbn [Nat.add] in Hloop.
  change (Z.of_nat 0) with 0 in Hloop. rewrite Nat.sub_0_r in Hloop.
  fold shopping_list. rewrite Hloop. unfold bind, ret.
  rewrite clear_shopping_cart_run.
  by destruct (if 0 <? r then shopping_list !! Z.to_nat (r - 1) else None).
Qed.

Lemma handle_list_shopping_cart_run (self : WatsonOnlineStore W)
    (c : OnlineStoreCustomer) :
  customer self = Some c →
  handle_list_shopping_cart self
  = (Ok false,
     set_context
       (<["shopping_cart" :=
            VStr (format_cart
                    (Cloudant.list_shopping_cart (email c)
                       (cloudant_online_store self)))]> (context self))
       self).
Proof.
  intros Hc. unfold handle_list_shopping_cart.
  unfold bind at 1, customer_email, bind at 1, get at 1. by rewrite Hc.
Qed.

Lemma context_set_context (c : gmap string value) (self : WatsonOnlineStore W) :
  context (set_context c self) = c.
Proof. reflexivity. Qed.

(** C7: with a customer bound and a stored result list, adding rank [r]
    returns without asking for input; for [r] within the range of the
    list the datastore is the old one after one [add_to_shopping_cart]
    of the [r]-th stored result's line, which is then the last item of
    the customer's cart; for [r] out of range the datastore is as it
    was. *)
Theorem handle_add_to_cart_rank (self : WatsonOnlineStore W)
    (c : OnlineStoreCustomer) (rs : list product_data) (v : value) (r : Z) :
  customer self = Some c → response_tuple self = Some rs →
  context self !! "cart_item" = Some v → py_int v = Ok r →
  ∃ self',
    handle_add_to_cart self = (Ok false, self') ∧
    (1 ≤ r ≤ Z.of_nat (length rs) →
     ∃ entry,
       rs !! Z.to_nat (r - 1) = Some entry ∧
       let item := name entry +:+ ": " +:+ url entry +:+ nl in
       cloudant_online_store self'
       = Cloudant.add_to_shopping_cart (email c) item
           (cloudant_online_store self) ∧
       ∀ doc, cloudant_online_store self !! email c = Some doc →
         Cloudant.list_shopping_cart (email c) (cloudant_online_store self')
         = doc_shopping_cart doc ++ [item]) ∧
    (¬ (1 ≤ r ≤ Z.of_nat (length rs)) →
     cloudant_online_store self' = cloudant_online_store self).
Proof.
  intros Hc Hrs Hv Hr. eexists. split; [by eapply handle_add_to_cart_run|].
  split.
  - intros Hr1. destruct (lookup_lt_is_Some_2 rs (Z.to_nat (r - 1)))
      as [entry Hentry]; [lia|].
    exists entry. split; [done|].
    destruct (Z.ltb_spec 0 r); [|lia]. rewrite Hentry.
    split; [done|]. intros doc Hdoc. cbn.
    unfold Cloudant.list_shopping_cart, Cloudant.add_to_shopping_cart.
    by rewrite lookup_alter_eq, Hdoc.
  - intros Hr1. destruct (Z.ltb_spec 0 r); [|done].
    by rewrite lookup_ge_None_2 by lia.
Qed.

(** C1, as amended: with a customer bound, the add and the delete
    handler, given a [cart_item] that [int()] accepts, return with both
    [shopping_cart] and [cart_item] set to the empty string, whether or
    not the number matched an item; the list handler returns with the
    formatted listing under [shopping_cart] and the rest of the context,
    [cart_item] included, as it was. *)
Theorem cart_handlers_context_flags (self : WatsonOnlineStore W)
    (c : OnlineStoreCustomer) :
  customer self = Some c →
  (∀ v n rs,
     context self !! "cart_item" = Some v → py_int v = Ok n →
     response_tuple self = Some rs →
     ∃ self', handle_add_to_cart self = (Ok false, self') ∧
              context self' !! "shopping_cart" = Some (VStr "") ∧
              context self' !! "cart_item" = Some (VStr "")) ∧
  (∀ v n,
     context self !! "cart_item" = Some v → py_int v = Ok n →
     ∃ self', handle_delete_from_cart self = (Ok false, self') ∧
              context self' !! "shopping_cart" = Some (VStr "") ∧
              context self' !! "cart_item" = Some (VStr "")) ∧
  ∃ self', handle_list_shopping_cart self = (Ok false, self') ∧
           context self'
           = <["shopping_cart" :=
                 VStr (format_cart
                         (Cloudant.list_shopping_cart (email c)
                            (cloudant_online_store self)))]> (context self).
Proof.
  intros Hc. split; [|split].
  - intros v n rs Hv Hn Hrs. eexists.
    split; [by eapply handle_add_to_cart_run|].
    rewrite context_set_context. by simplify_map_eq.
  - intros v n Hv Hn. eexists.
    split; [by eapply handle_delete_from_cart_run|].
    rewrite context_set_context. by simplify_map_eq.
  - eexists. split; [by eapply handle_list_shopping_cart_run|]. done.
Qed.

End Handlers.

Lemma handle_add_to_cart_rank_witness :
  ∃ self',
    handle_add_to_cart (example_bot {[ "cart_item" := VStr "2" ]} [])
    = (Ok false, self') ∧
    Cloudant.list_shopping_cart "a@b.com" (cloudant_online_store self')
    = ["Mug: http://x/1" +:+ nl; "Cap: http://x/2" +:+ nl].
Proof.
  destruct (handle_add_to_cart_rank
              (example_bot {[ "cart_item" := VStr "2" ]} [])
              example_customer example_products (VStr "2") 2)
    as (self' & Hrun & Hin & _); [reflexivity..|].
  exists self'. split; [exact Hrun|].
  destruct (Hin ltac:(simpl; lia)) as (entry & Hentry & _ & Hcart).
  injection Hentry as <-. exact (Hcart example_doc eq_refl).
Defined.

Lemma cart_handlers_context_flags_witness :
  ∃ self',
    handle_delete_from_cart
      (example_bot {[ "shopping_cart" := VStr "delete";
                      "cart_item" := VStr "7" ]} [])
    = (Ok false, self') ∧
    context self' !! "shopping_cart" = Some (VStr "") ∧
    context self' !! "cart_item" = Some (VStr "").
Proof.
  apply (proj1 (proj2 (cart_handlers_context_flags
                         (example_bot {[ "shopping_cart" := VStr "delete";
                                         "cart_item" := VStr "7" ]} [])
                         example_customer eq_refl))
           (VStr "7") 7); reflexivity.
Defined.

(** C1 as worded fails: the list handler leaves the listing, not the
    empty string, under [shopping_cart]; and on a [cart_item] that is not
    a number the add handler logs and returns with both flags as they
    were. *)
Lemma cart_handlers_flags_not_always_cleared :
  (∃ self',
     handle_list_shopping_cart
       (example_bot {[ "shopping_cart" := VStr "list" ]} [])
     = (Ok false, self') ∧
     context self' !! "shopping_cart"
     = Some (VStr ("1) Mug: http://x/1" +:+ nl +:+ nl)) ∧
     context self' !! "shopping_cart" ≠ Some (VStr "")) ∧
  (∃ self',
     handle_add_to_cart
       (example_bot {[ "shopping_cart" := VStr "add";
                       "cart_item" := VStr "two" ]} [])
     = (Ok false, self') ∧
     trace self' = [LogException "cart_item must be a number"] ∧
     context self' !! "shopping_cart" = Some (VStr "add") ∧
     context self' !! "cart_item" = Some (VStr "two")).
Proof.
  split; eexists; (split; [vm_compute; reflexivity|]); by vm_compute.
Qed.

(** ** The customer resolver *)

Section Resolver.

Context {W : Type} `{Collaborators W}.

Lemma get_customer_dict_shopping_cart (c : OnlineStoreCustomer) :
  get_customer_dict c !! "shopping_cart" = Some (VList (shopping_cart c)).
Proof. unfold get_customer_dict. by simplify_map_eq. Qed.

Lemma context_merge_lookup_l (dict1 dict2 : gmap string value)
    (key : string) (v : value) :
  dict2 !! key = Some v → context_merge dict1 dict2 !! key = Some v.
Proof.
  intros Hv. unfold context_merge. destruct (decide (dict2 = ∅)) as [->|_].
  - by rewrite lookup_empty in Hv.
  - by apply lookup_union_Some_l.
Qed.

(** C2, as amended: when the chat identity's email is found in the
    datastore, the resolver binds a Customer with the email and the names
    of the stored record and an empty shopping cart; the datastore, where
    the stored cart stays, is left as it was, and the context gets the
    empty cart under [shopping_cart]. *)
Theorem init_customer_found (self : WatsonOnlineStore W) (user_id : string)
    (answer : UserJson) (profile : slack_profile) (cust : string)
    (user_data : customer_doc) (w : W) :
  user_id ≠ EmptyString →
  users_info user_id (world self) = (Ok (Some answer), w) →
  json_user answer = Some (Some profile) →
  profile_email profile = Some cust → cust ≠ EmptyString →
  Cloudant.find_customer cust (cloudant_online_store self) = Some user_data →
  ∃ self',
    init_customer user_id self = (Ok tt, self') ∧
    customer self' = Some {| email := doc_email user_data;
                             first_name := doc_first_name user_data;
                             last_name := doc_last_name user_data;
                             shopping_cart := [] |} ∧
    cloudant_online_store self' = cloudant_online_store self ∧
    context self' !! "shopping_cart" = Some (VList []).
Proof.
  intros Hid Hinfo Huser Hmail Hcust Hfound. eexists. split.
  - unfold init_customer.
    rewrite (proj2 (String.eqb_neq _ _) Hid).
    unfold try_except, bind, extern, bind, emit, modify, ret.
    cbn [world set_trace]. rewrite Hinfo. cbn beta iota.
    rewrite Huser, Hmail. cbn [truthy_str default].
    rewrite (proj2 (String.eqb_neq _ _) Hcust). cbn [negb].
    unfold get at 1. cbn [cloudant_online_store set_world set_trace].
    unfold id. rewrite Hfound. unfold customer_from_db, modify, get. cbn beta iota.
    cbn [customer set_customer].
    unfold add_customer_to_context, bind, get, modify.
    cbn [customer set_customer]. reflexivity.
  - cbn [customer cloudant_online_store context set_context set_customer
         set_world set_trace].
    split; [done|]. split; [done|].
    apply context_merge_lookup_l, get_customer_dict_shopping_cart.
Qed.

End Resolver.

Lemma init_customer_found_witness :
  ∃ self',
    init_customer "U1" example_fresh_bot = (Ok tt, self') ∧
    customer self' = Some example_customer ∧
    cloudant_online_store self' = cloudant_online_store example_fresh_bot ∧
    context self' !! "shopping_cart" = Some (VList []).
Proof.
  apply (init_customer_found example_fresh_bot "U1"
           {| json_user := Some (Some example_profile) |} example_profile
           "a@b.com" example_doc (world example_fresh_bot));
    (reflexivity || discriminate).
Defined.

(** C2 as worded fails: the stored record of [example_fresh_bot]'s user
    holds one cart item, and the Customer bound from it holds none. *)
Lemma init_customer_cart_not_preserved :
  ∃ self',
    init_customer "U1" example_fresh_bot = (Ok tt, self') ∧
    Cloudant.find_customer "a@b.com" (cloudant_online_store example_fresh_bot)
    = Some example_doc ∧
    (shopping_cart <$> customer self') = Some [] ∧
    (shopping_cart <$> customer self')
    ≠ Some (doc_shopping_cart example_doc).
Proof.
  eexists. split; [vm_compute; reflexivity|].
  split; [reflexivity|]. split; [reflexivity|]. by vm_compute.
Qed.

(** ** The orchestration loop *)

Section Orchestration.

Context {W : Type} `{Collaborators W}.

#[local] Abbreviation M := (M W).

Lemma flag_is_equals (c : gmap string value) (key s : string) :
  flag_is c key s = flag_equals c key s.
Proof.
  unfold flag_is, flag_equals. destruct (c !! key) as [v|] eqn:Hv.
  - destruct v as [|b|n|s'|l]; simpl; try done.
    destruct (String.eqb_spec s' s) as [->|Hne].
    + by rewrite bool_decide_eq_true_2.
    + rewrite bool_decide_eq_false_2; [done|]. congruence.
  - by rewrite bool_decide_eq_false_2.
Qed.

Lemma has_cart_item_nonempty (c : gmap string value) :
  string_flag c "cart_item" → has_cart_item c = flag_nonempty c "cart_item".
Proof.
  unfold string_flag, has_cart_item, flag_nonempty.
  by destruct (c !! "cart_item") as [[]|].
Qed.

Lemma discovery_string_nonempty (c : gmap string value) :
  string_flag c "discovery_string" →
  match c !! "discovery_string" with
  | Some v => truthy v
  | None => false
  end = flag_nonempty c "discovery_string".
Proof.
  unfold string_flag, flag_nonempty.
  by destruct (c !! "discovery_string") as [[]|].
Qed.

(** [handle_message] is the dialogue turn followed by the inspection of
    the flags of the context the turn left. *)
Lemma handle_message_unfold (message : string) (sender : SlackSender)
    (self : WatsonOnlineStore W) :
  handle_message message sender self
  = match dialogue_turn message sender self with
    | (Ok _, self1) =>
        let c := context self1 in
        (if match c !! "discovery_string" with
            | Some v => truthy v
            | None => false
            end && search_client
         then handle_DiscoveryQuery
         else if flag_is c "shopping_cart" "list"
         then handle_list_shopping_cart
         else if flag_is c "shopping_cart" "add" && has_cart_item c
         then handle_add_to_cart
         else if flag_is c "shopping_cart" "delete" && has_cart_item c
         then handle_delete_from_cart
         else if flag_is c "get_input" "no"
         then ret false
         else ret true) self1
    | (Raise e, self1) => (Raise e, self1)
    end.
Proof.
  unfold handle_message, dialogue_turn, bind.
  destruct (get_watson_response message self) as [[watson_response|e] s0];
    [|done].
  destruct (match response_context watson_response with
            | Some c => modify (set_context c)
            | None => ret tt
            end s0) as [[[]|e] s1]; [|done].
  by destruct (send_message sender _ s1) as [[[]|e] s2].
Qed.

Lemma find_first {A} (f : A → bool) (l : list A) (x : A) :
  List.find f l = Some x →
  ∃ before after,
    l = before ++ x :: after ∧ f x = true ∧
    Forall (λ y, f y = false) before.
Proof.
  induction l as [|y l IH]; [done|]. simpl.
  destruct (f y) eqn:Hy.
  - intros [= ->]. by exists [], l.
  - intros (before & after & -> & Hx & Hb)%IH.
    exists (y :: before), after. by repeat constructor.
Qed.

(** C3: after the dialogue turn, the flags of the new context (where
    [discovery_string] and [cart_item], when present, hold strings) are
    inspected in the priority order search, list, add, delete, no input,
    wait: [handle_message] does what the first branch of that order whose
    condition holds does, and nothing else. *)
Theorem handle_message_priority (message : string) (sender : SlackSender)
    (self self1 : WatsonOnlineStore W) :
  dialogue_turn message sender self = (Ok tt, self1) →
  string_flag (context self1) "discovery_string" →
  string_flag (context self1) "cart_item" →
  ∃ b before after,
    priority = before ++ b :: after ∧
    branch_condition search_client (context self1) b = true ∧
    Forall (λ b', branch_condition search_client (context self1) b' = false)
           before ∧
    handle_message message sender self = branch_handler b self1.
Proof.
  intros Hturn Hd Hc.
  assert (∃ b, first_branch search_client (context self1) = Some b ∧
               handle_message message sender self = branch_handler b self1)
    as (b & Hb & Hrun).
  { rewrite handle_message_unfold, Hturn. cbv zeta.
    rewrite (discovery_string_nonempty _ Hd), (has_cart_item_nonempty _ Hc),
      !flag_is_equals.
    unfold first_branch, priority. cbn [List.find branch_condition].
    repeat match goal with
           | |- context [if ?b then _ else _] =>
               lazymatch b with
               | context [if _ then _ else _] => fail
               | _ => destruct b eqn:?
               end
           end;
      eexists; (split; reflexivity). }
  destruct (find_first _ _ _ Hb) as (before & after & Hp & Hcond & Hbefore).
  by exists b, before, after.
Qed.

End Orchestration.

Lemma handle_message_priority_witness :
  let self1 := (dialogue_turn "mug" example_sender example_overlap).2 in
  ∃ b before after,
    priority = before ++ b :: after ∧
    branch_condition search_client (context self1) b = true ∧
    Forall (λ b', branch_condition search_client (context self1) b' = false)
           before ∧
    handle_message "mug" example_sender example_overlap
    = branch_handler b self1.
Proof.
  apply (handle_message_priority "mug" example_sender example_overlap);
    by vm_compute.
Defined.

(** On [example_overlap] the search query and the cart listing flag are
    both set, and the search is what runs. *)
Example handle_message_overlap :
  let self1 := (dialogue_turn "mug" example_sender example_overlap).2 in
  flag_nonempty (context self1) "discovery_string" = true ∧
  flag_equals (context self1) "shopping_cart" "list" = true ∧
  handle_message "mug" example_sender example_overlap
  = handle_DiscoveryQuery self1.
Proof. by vm_compute. Qed.

(** ** Events of the handlers *)

Section Events.

Context {W : Type} `{Collaborators W}.

#[local] Abbreviation M := (M W).

Lemma emits_mono {A} (P Q : event → Prop) (m : M A) :
  (∀ e, P e → Q e) → emits P m → emits Q m.
Proof.
  intros HPQ Hm self r self' Hrun.
  destruct (Hm _ _ _ Hrun) as (events & Ht & HP).
  exists events. split; [done|]. by eapply Forall_impl.
Qed.

Lemma emits_ret {A} (P : event → Prop) (a : A) : emits P (ret a : M A).
Proof. intros self r self' [= <- <-]. exists []. by rewrite app_nil_r. Qed.

Lemma emits_raise {A} (P : event → Prop) (e : py_exn) :
  emits P (raise e : M A).
Proof. intros self r self' [= <- <-]. exists []. by rewrite app_nil_r. Qed.

Lemma emits_lift {A} (P : event → Prop) (r : py_result A) :
  emits P (lift r : M A).
Proof. intros self r' self' [= <- <-]. exists []. by rewrite app_nil_r. Qed.

Lemma emits_get {A} (P : event → Prop) (f : WatsonOnlineStore W → A) :
  emits P (get f).
Proof. intros self r self' [= <- <-]. exists []. by rewrite app_nil_r. Qed.

Lemma emits_modify (P : event → Prop)
    (f : WatsonOnlineStore W → WatsonOnlineStore W) :
  (∀ self, trace (f self) = trace self) → emits P (modify f).
Proof.
  intros Hf self r self' [= <- <-]. exists []. by rewrite app_nil_r, Hf.
Qed.

Lemma emits_emit (P : event → Prop) (e : event) :
  P e → emits P (emit e : M unit).
Proof. intros He self r self' [= <- <-]. exists [e]. by repeat constructor. Qed.

Lemma emits_bind {A B} (P : event → Prop) (m : M A) (k : A → M B) :
  emits P m → (∀ a, emits P (k a)) → emits P (bind m k).
Proof.
  intros Hm Hk self r self' Hrun. unfold bind in Hrun.
  destruct (m self) as [[a|e] self1] eqn:Hm1.
  - destruct (Hm _ _ _ Hm1) as (ev1 & Ht1 & HP1).
    destruct (Hk a _ _ _ Hrun) as (ev2 & Ht2 & HP2).
    exists (ev1 ++ ev2). rewrite Ht2, Ht1, app_assoc.
    split; [done|]. by apply Forall_app.
  - injection Hrun as <- <-. by eapply Hm.
Qed.

Lemma emits_try_except {A} (P : event → Prop) (m : M A)
    (handler : py_exn → option (M A)) :
  emits P m → (∀ e h, handler e = Some h → emits P h) →
  emits P (try_except m handler).
Proof.
  intros Hm Hh self r self' Hrun. unfold try_except in Hrun.
  destruct (m self) as [[a|e] self1] eqn:Hm1.
  - injection Hrun as <- <-. by eapply Hm.
  - destruct (Hm _ _ _ Hm1) as (ev1 & Ht1 & HP1).
    destruct (handler e) as [h|] eqn:He.
    + destruct (Hh e h He _ _ _ Hrun) as (ev2 & Ht2 & HP2).
      exists (ev1 ++ ev2). rewrite Ht2, Ht1, app_assoc.
      split; [done|]. by apply Forall_app.
    + injection Hrun as <- <-. by exists ev1.
Qed.

Lemma emits_extern {A} (P : event → Prop) (e : event)
    (call : W → py_result A * W) :
  P e → emits P (extern e call).
Proof.
  intros He. apply emits_bind; [by apply emits_emit|].
  intros _ self r self'. destruct (call (world self)) as [r0 w] eqn:Hcall.
  intros [= <- <-]. exists []. by rewrite app_nil_r.
Qed.

Lemma emits_fold {A B} (P : event → Prop) (step : M B → A → M B)
    (l : list A) (acc : M B) :
  (∀ acc x, emits P acc → emits P (step acc x)) →
  emits P acc → emits P (fold_left step l acc).
Proof.
  intros Hstep. revert acc. induction l as [|x l IH]; intros acc Hacc; [done|].
  simpl. apply IH. by apply Hstep.
Qed.

End Events.

Ltac emits_step :=
  lazymatch goal with
  | |- emits _ (bind _ _) => apply emits_bind; [|intros ?]
  | |- emits _ (try_except _ _) => apply emits_try_except; [|intros ? ? ?]
  | |- emits _ (extern _ _) =>
      apply emits_extern; first [exact I | reflexivity]
  | |- emits _ (emit _) => apply emits_emit; first [exact I | reflexivity]
  | |- emits _ (ret _) => apply emits_ret
  | |- emits _ (raise _) => apply emits_raise
  | |- emits _ (lift _) => apply emits_lift
  | |- emits _ (get _) => apply emits_get
  | |- emits _ (modify _) => apply emits_modify; intros ?; reflexivity
  | |- emits _ (match ?x with _ => _ end) => destruct x
  | |- emits _ (let _ := _ in _) => cbv zeta
  | H : _ = Some ?h |- emits _ ?h => injection H as <-
  end.

Section HandlerEvents.

Context {W : Type} `{Collaborators W}.

#[local] Abbreviation M := (M W).

Lemma emits_clear_shopping_cart (P : event → Prop) :
  emits P (clear_shopping_cart : M unit).
Proof. unfold clear_shopping_cart. repeat emits_step. Qed.

Lemma emits_customer_email (P : event → Prop) :
  emits P (customer_email : M string).
Proof. unfold customer_email. repeat emits_step. Qed.

Lemma emits_context_getitem (P : event → Prop) (key : string) :
  emits P (context_getitem key : M value).
Proof. unfold context_getitem. repeat emits_step. Qed.

Lemma emits_cart_item_number (P : event → Prop) :
  P (LogException "cart_item must be a number") →
  emits P (cart_item_number : M (option Z)).
Proof.
  intros HP. unfold cart_item_number.
  apply emits_try_except.
  - apply emits_bind; [apply emits_context_getitem|]. intros v.
    repeat emits_step.
  - intros e h. destruct e; intros [= <-].
    apply emits_bind; [by apply emits_emit | intros; apply emits_ret].
Qed.

Lemma emits_cart_loop {A} (P : event → Prop) (n : Z)
    (g : A → gmap string customer_doc → gmap string customer_doc)
    (l : list (nat * A)) :
  emits P (fold_left (cart_step n g) l (ret tt) : M unit).
Proof.
  apply emits_fold; [|apply emits_ret].
  intros acc [index x] Hacc. unfold cart_step.
  apply emits_bind; [done|]. intros _. repeat emits_step.
Qed.

Lemma emits_handle_add_to_cart (message : string) :
  emits (turn_event message) (handle_add_to_cart : M bool).
Proof.
  unfold handle_add_to_cart.
  apply emits_bind; [by apply emits_cart_item_number|]. intros [cart_item|].
  - apply emits_bind; [apply emits_customer_email|]. intros email.
    apply emits_bind; [apply emits_get|]. intros stored.
    apply emits_bind; [apply emits_lift|]. intros rs.
    apply emits_bind;
      [apply (emits_cart_loop _ cart_item
                (λ entry, Cloudant.add_to_shopping_cart email
                            (name entry +:+ ": " +:+ url entry +:+ nl)))|].
    intros _. apply emits_bind; [apply emits_clear_shopping_cart|].
    intros _. apply emits_ret.
  - apply emits_ret.
Qed.

Lemma emits_handle_delete_from_cart (message : string) :
  emits (turn_event message) (handle_delete_from_cart : M bool).
Proof.
  unfold handle_delete_from_cart.
  apply emits_bind; [apply emits_customer_email|]. intros email.
  apply emits_bind; [apply emits_get|]. intros shopping_list.
  apply emits_bind; [by apply emits_cart_item_number|]. intros [item_num|].
  - apply emits_bind;
      [apply (emits_cart_loop _ item_num
                (λ item, Cloudant.delete_item_shopping_cart email item))|].
    intros _. apply emits_bind; [apply emits_clear_shopping_cart|].
    intros _. apply emits_ret.
  - apply emits_ret.
Qed.

Lemma emits_handle_list_shopping_cart (message : string) :
  emits (turn_event message) (handle_list_shopping_cart : M bool).
Proof.
  unfold handle_list_shopping_cart.
  apply emits_bind; [apply emits_customer_email|]. intros email.
  repeat emits_step.
Qed.

Lemma emits_get_discovery_response (message : string) (input_text : value) :
  emits (turn_event message) (get_discovery_response input_text).
Proof. unfold get_discovery_response. repeat emits_step. Qed.

Lemma emits_handle_DiscoveryQuery (message : string) :
  emits (turn_event message) handle_DiscoveryQuery.
Proof.
  unfold handle_DiscoveryQuery.
  apply emits_bind; [apply emits_context_getitem|]. intros query_string.
  apply emits_bind.
  - destruct discovery_client.
    + apply emits_try_except; [apply emits_get_discovery_response|].
      intros e h [= <-]. apply emits_ret.
    + unfold get_fake_discovery_response. repeat emits_step.
  - intros response. repeat emits_step.
Qed.

Lemma emits_dialogue_turn (message : string) (sender : SlackSender) :
  emits (turn_event message) (dialogue_turn message sender).
Proof.
  unfold dialogue_turn, get_watson_response, send_message.
  repeat emits_step.
Qed.

Lemma emits_handle_message (message : string) (sender : SlackSender) :
  emits (turn_event message) (handle_message message sender).
Proof.
  intros self r self' Hrun. rewrite handle_message_unfold in Hrun.
  destruct (dialogue_turn message sender self) as [[[]|e] self1] eqn:Hturn.
  - destruct (emits_dialogue_turn _ _ _ _ _ Hturn) as (ev1 & Ht1 & HP1).
    assert (∃ ev2, trace self' = trace self1 ++ ev2 ∧
                   Forall (turn_event message) ev2) as (ev2 & Ht2 & HP2).
    { cbv zeta in Hrun.
      repeat match type of Hrun with
             | (if ?b then _ else _) _ = _ => destruct b
             end;
        first [ by eapply emits_handle_DiscoveryQuery
              | by eapply emits_handle_list_shopping_cart
              | by eapply emits_handle_add_to_cart
              | by eapply emits_handle_delete_from_cart
              | by eapply (emits_ret (turn_event message)) ]. }
    exists (ev1 ++ ev2). rewrite Ht2, Ht1, app_assoc.
    split; [done|]. by apply Forall_app.
  - injection Hrun as <- <-. by eapply emits_dialogue_turn.
Qed.

Lemma emits_while_not_get_input (fuel : nat) (message : string)
    (sender : SlackSender) (get_input : bool) :
  emits (turn_event message)
        (while_not_get_input fuel message sender get_input).
Proof.
  revert get_input. induction fuel as [|fuel IH]; intros [|]; simpl;
    try apply emits_ret.
  apply emits_bind; [apply emits_handle_message | apply IH].
Qed.

Lemma emits_init_customer (message user_id : string) :
  emits (turn_event message) (init_customer user_id).
Proof.
  unfold init_customer, customer_from_db, create_user_from_ui,
    add_customer_to_context.
  repeat emits_step.
Qed.

End HandlerEvents.

(** ** The turns of a round *)

Section Turns.

Context {W : Type} `{Collaborators W}.

#[local] Abbreviation M := (M W).

(** The events of the flag handlers that [handle_message] picks from,
    for a property [P] that holds of a handler's own calls: a search is
    dispatched only with a Discovery client, so no canned answer is
    drawn. *)
Lemma emits_flag_handlers (P : event → Prop) (c : gmap string value) :
  (∀ e, handler_event e → no_randint e → P e) →
  emits P (if match c !! "discovery_string" with
              | Some v => truthy v
              | None => false
              end && (if discovery_client is Some _ then true else false)
           then handle_DiscoveryQuery
           else if flag_is c "shopping_cart" "list"
           then handle_list_shopping_cart
           else if flag_is c "shopping_cart" "add" && has_cart_item c
           then handle_add_to_cart
           else if flag_is c "shopping_cart" "delete" && has_cart_item c
           then handle_delete_from_cart
           else if flag_is c "get_input" "no"
           then ret false
           else ret true : M bool).
Proof.
  intros Hhandler.
  assert (P (LogException "cart_item must be a number")) as Hlog
    by by apply Hhandler.
  repeat lazymatch goal with
         | |- emits _ (if ?b then _ else _) => destruct b eqn:?
         end; try apply emits_ret.
  - unfold handle_DiscoveryQuery, get_discovery_response.
    apply emits_bind; [apply emits_context_getitem|]. intros query_string.
    apply emits_bind; [|intros response; repeat emits_step].
    destruct discovery_client as [query|];
      [|by rewrite andb_false_r in *].
    apply emits_try_except; [|intros e h [= <-]; apply emits_ret].
    apply emits_bind; [apply emits_extern; by apply Hhandler|].
    intros response. repeat emits_step.
  - unfold handle_list_shopping_cart.
    apply emits_bind; [apply emits_customer_email|]. intros email.
    repeat emits_step.
  - unfold handle_add_to_cart.
    apply emits_bind; [by apply emits_cart_item_number|]. intros [cart_item|];
      [|apply emits_ret].
    apply emits_bind; [apply emits_customer_email|]. intros email.
    apply emits_bind; [apply emits_get|]. intros stored.
    apply emits_bind; [apply emits_lift|]. intros rs.
    apply emits_bind;
      [apply (emits_cart_loop _ cart_item
                (λ entry, Cloudant.add_to_shopping_cart email
                            (name entry +:+ ": " +:+ url entry +:+ nl)))|].
    intros _. apply emits_bind; [apply emits_clear_shopping_cart|].
    intros _. apply emits_ret.
  - unfold handle_delete_from_cart.
    apply emits_bind; [apply emits_customer_email|]. intros email.
    apply emits_bind; [apply emits_get|]. intros shopping_list.
    apply emits_bind; [by apply emits_cart_item_number|]. intros [item_num|];
      [|apply emits_ret].
    apply emits_bind;
      [apply (emits_cart_loop _ item_num
                (λ item, Cloudant.delete_item_shopping_cart email item))|].
    intros _. apply emits_bind; [apply emits_clear_shopping_cart|].
    intros _. apply emits_ret.
Qed.

(** The events of a turn, for a property [P] that holds of the turn's
    own calls. *)
Lemma emits_handle_message_gen (P : event → Prop) (message : string)
    (sender : SlackSender) :
  (∀ c, P (ConversationMessage message c)) →
  (∀ text, P (PostMessage (channel sender) text)) →
  (∀ e, handler_event e → no_randint e → P e) →
  emits P (handle_message message sender).
Proof.
  intros Hconv Hpost Hhandler.
  unfold handle_message, get_watson_response, send_message.
  apply emits_bind.
  { apply emits_bind; [apply emits_get|]. intros c. by apply emits_extern. }
  intros watson_response. apply emits_bind; [repeat emits_step|]. intros _.
  apply emits_bind; [by apply emits_extern|]. intros _.
  apply emits_bind; [apply emits_get|]. intros c.
  by apply emits_flag_handlers.
Qed.

(** A turn begins with its call of the dialogue engine, on the message
    and the context of the bot, and makes no other. *)
Lemma handle_message_engine_call (message : string) (sender : SlackSender)
    (self self' : WatsonOnlineStore W) (r : py_result bool) :
  handle_message message sender self = (r, self') →
  ∃ events,
    trace self'
    = trace self ++ ConversationMessage message (context self) :: events ∧
    Forall after_engine_call events.
Proof.
  unfold handle_message. unfold bind at 1, get_watson_response at 1.
  unfold bind at 1, get at 1, extern at 1, bind at 1, emit at 1, modify at 1.
  cbn [world set_trace].
  destruct (conversation_message message (context self) (world self))
    as [[answer|e] w].
  - intros Hrun.
    match type of Hrun with
    | ?k ?s = _ => assert (emits after_engine_call k) as Hk
    end.
    { apply emits_bind; [repeat emits_step|]. intros _.
      apply emits_bind; [by apply emits_extern|]. intros _.
      apply emits_bind; [apply emits_get|]. intros c.
      apply emits_flag_handlers. by intros []. }
    destruct (Hk _ _ _ Hrun) as (events & Ht & HP).
    exists events. split; [|done].
    rewrite Ht. cbn [trace set_world set_trace]. by rewrite <- app_assoc.
  - intros [= <- <-]. exists []. split; [|done].
    cbn [trace set_world set_trace]. done.
Qed.

Lemma after_engine_call_filter (events : list event) :
  Forall after_engine_call events → List.filter is_engine_call events = [].
Proof.
  induction 1 as [|e events He _ IH]; [done|]. simpl. rewrite IH.
  by destruct e.
Qed.

(** [n] turns in a row make [n] calls of the dialogue engine, each with
    the message of the turns, and read nothing. *)
Lemma no_input_turns_events (n : nat) (message : string)
    (sender : SlackSender) (self self' : WatsonOnlineStore W) :
  no_input_turns n message sender self self' →
  ∃ events,
    trace self' = trace self ++ events ∧
    Forall (turn_event message) events ∧
    length (List.filter is_engine_call events) = n.
Proof.
  revert self. induction n as [|n IH]; intros self.
  - intros ->. exists []. by rewrite app_nil_r.
  - intros (self1 & Hturn & Hrest).
    destruct (handle_message_engine_call _ _ _ _ _ Hturn)
      as (ev1 & Ht1 & Hev1).
    destruct (emits_handle_message _ _ _ _ _ Hturn) as (ev1' & Ht1' & Hev1').
    assert (ev1' = ConversationMessage message (context self) :: ev1) as ->
      by (apply (app_inv_head (trace self)); congruence).
    destruct (IH _ Hrest) as (ev2 & Ht2 & Hev2 & Hn).
    exists ((ConversationMessage message (context self) :: ev1) ++ ev2).
    split; [by rewrite Ht2, Ht1, <- app_assoc|].
    split; [by apply Forall_app|].
    rewrite List.filter_app. cbn [List.filter is_engine_call].
    rewrite (after_engine_call_filter _ Hev1). cbn [app length].
    by rewrite Hn.
Qed.

(** The turns of a round: the first one and those of the inner loop. *)
Lemma turns_until_input (fuel n : nat) (message : string)
    (sender : SlackSender) (self0 self1 self2 : WatsonOnlineStore W)
    (r : py_result bool) :
  no_input_turns n message sender self0 self1 → (n ≤ fuel)%nat →
  handle_message message sender self1 = (r, self2) → r ≠ Ok false →
  (let! get_input := handle_message message sender in
   while_not_get_input fuel message sender get_input) self0
  = (match r with
     | Ok _ => Ok (Some tt)
     | Raise e => Raise e
     end, self2).
Proof.
  revert fuel self0. induction n as [|n IH]; intros fuel self0.
  - intros -> _ Hlast Hr. unfold bind. rewrite Hlast.
    destruct r as [[|]|e]; [|done|done]. by destruct fuel.
  - intros (self' & Hturn & Hrest) Hfuel Hlast Hr.
    destruct fuel as [|fuel]; [lia|].
    unfold bind at 1. rewrite Hturn. cbn [while_not_get_input].
    apply IH; [done | lia | done | done].
Qed.

End Turns.

(** ** The loop of [run] *)

Section Run.

Context {W : Type} `{Collaborators W}.

Lemma turn_event_no_read (message : string) (e : event) :
  turn_event message e → no_read e.
Proof. by destruct e. Qed.

Lemma while_not_get_input_last (fuel : nat) (message : string)
    (sender : SlackSender) (self self' : WatsonOnlineStore W) :
  while_not_get_input fuel message sender false self = (Ok (Some tt), self') →
  ∃ self0, handle_message message sender self0 = (Ok true, self').
Proof.
  revert self. induction fuel as [|fuel IH]; intros self; [done|].
  simpl. unfold bind.
  destruct (handle_message message sender self) as [[[|]|e] self1] eqn:Hturn;
    [|by apply IH|done].
  destruct fuel; intros [= <-]; by exists self.
Qed.

Lemma run_iteration_events (fuel : nat) (self self' : WatsonOnlineStore W)
    (r : py_result (option unit)) :
  run_iteration fuel self = (r, self') →
  ∃ events, trace self' = trace self ++ RtmRead :: events ∧
            Forall no_read events.
Proof.
  unfold run_iteration. unfold bind at 1, extern, bind at 1, emit, modify.
  cbn [world set_trace].
  destruct (rtm_read (world self)) as [[slack_output|e] w] eqn:Hread.
  - intros Hrun.
    match type of Hrun with
    | ?k ?s = _ =>
        assert (emits no_read k) as Hk
    end.
    { apply emits_bind; [apply emits_get|]. intros bot.
      apply emits_bind; [apply emits_lift|]. intros [[message channel] user].
      apply emits_bind; [apply emits_get|]. intros c.
      apply emits_bind.
      { destruct (_ && _); [|apply emits_ret].
        eapply emits_mono; [apply (turn_event_no_read "")|].
        apply emits_init_customer. }
      intros _. apply emits_bind.
      { destruct (_ && _); [|apply emits_ret].
        eapply emits_mono; [apply turn_event_no_read|].
        apply emits_bind; [apply emits_handle_message|]. intros get_input.
        apply emits_while_not_get_input. }
      intros [[]|]; [|apply emits_ret].
      apply emits_bind; [by apply emits_emit | intros; apply emits_ret]. }
    destruct (Hk _ _ _ Hrun) as (events & Ht & HP).
    exists events. split; [|done].
    rewrite Ht. cbn [trace set_world set_trace]. by rewrite <- app_assoc.
  - intros [= <- <-]. exists []. by split.
Qed.

(** A round of [run] that has read a message for the bot is the
    customer resolution followed by the turns on that message: as long as
    a turn returns "no input required" the next turn follows at once, and
    the round ends with the first turn that returns "input required" or
    raises. *)
Lemma run_iteration_turns (fuel n : nat)
    (self self0 self1 self2 : WatsonOnlineStore W)
    (slack_output : list slack_output) (w : W)
    (message channel : string) (user : option string) (r : py_result bool) :
  rtm_read (world self) = (Ok slack_output, w) →
  parse_slack_output (bot_id self) slack_output
  = Ok (Some message, Some channel, user) →
  message ≠ EmptyString → channel ≠ EmptyString →
  resolve_customer user
    (set_world w (set_trace (trace self ++ [RtmRead]) self))
  = (Ok tt, self0) →
  no_input_turns n message {| channel := channel |} self0 self1 →
  (n ≤ fuel)%nat →
  handle_message message {| channel := channel |} self1 = (r, self2) →
  r ≠ Ok false →
  run_iteration fuel self
  = match r with
    | Ok _ => (Ok (Some tt), set_trace (trace self2 ++ [Sleep]) self2)
    | Raise e => (Raise e, self2)
    end.
Proof.
  intros Hread Hparse Hmessage Hchannel Hresolve Hturns Hfuel Hlast Hr.
  unfold run_iteration. unfold bind at 1, extern, bind at 1, emit, modify.
  cbn [world set_trace]. rewrite Hread.
  unfold bind at 1, get at 1. cbn [bot_id set_world set_trace].
  unfold bind at 1, lift at 1. rewrite Hparse.
  unfold resolve_customer, bind at 1, get at 1 in Hresolve.
  unfold bind at 1, get at 1. unfold bind at 1. rewrite Hresolve.
  cbn [truthy_str default].
  rewrite (proj2 (String.eqb_neq _ _) Hmessage),
    (proj2 (String.eqb_neq _ _) Hchannel). cbn [negb andb].
  unfold bind at 1.
  unfold id.
  rewrite (turns_until_input fuel n _ _ _ _ _ _ Hturns Hfuel Hlast Hr).
  by destruct r.
Qed.

(** C4: when a turn returns "no input required", the loop of [run]
    performs at once another turn with the same message, without reading
    the transport, and it returns to reading only after a turn that
    returns "input required".  In the inner loop, a turn that returns
    "no input required" is followed by the next turn and a turn that
    returns "input required" ends the loop; the loop reads no transport
    event and sends the dialogue engine no other text than the message;
    when it ends, its last turn returned "input required"; a round of
    [run] reads the transport once, at its start; every turn begins with
    one call of the dialogue engine on the message and the context of
    the bot and makes no other; [n] turns in a row make [n] such calls;
    and a round of [run] that has read a message for the bot makes, after
    the customer resolution, exactly the turns on that message up to and
    with the first one that asks for input, after which alone it sleeps
    and comes back to reading, or that raises. *)
Theorem run_continues_without_input :
  (∀ fuel message sender (self self1 : WatsonOnlineStore W),
     handle_message message sender self = (Ok false, self1) →
     while_not_get_input (S fuel) message sender false self
     = while_not_get_input fuel message sender false self1) ∧
  (∀ fuel message sender (self self1 : WatsonOnlineStore W),
     handle_message message sender self = (Ok true, self1) →
     while_not_get_input (S fuel) message sender false self
     = (Ok (Some tt), self1)) ∧
  (∀ fuel message sender get_input (self self' : WatsonOnlineStore W) r,
     while_not_get_input fuel message sender get_input self = (r, self') →
     ∃ events, trace self' = trace self ++ events ∧
               Forall (turn_event message) events) ∧
  (∀ fuel message sender (self self' : WatsonOnlineStore W),
     while_not_get_input fuel message sender false self
     = (Ok (Some tt), self') →
     ∃ self0, handle_message message sender self0 = (Ok true, self')) ∧
  (∀ fuel (self self' : WatsonOnlineStore W) r,
     run_iteration fuel self = (r, self') →
     ∃ events, trace self' = trace self ++ RtmRead :: events ∧
               Forall no_read events) ∧
  (∀ message sender (self self' : WatsonOnlineStore W) r,
     handle_message message sender self = (r, self') →
     ∃ events,
       trace self'
       = trace self ++ ConversationMessage message (context self) :: events ∧
       Forall after_engine_call events) ∧
  (∀ n message sender (self self' : WatsonOnlineStore W),
     no_input_turns n message sender self self' →
     ∃ events,
       trace self' = trace self ++ events ∧
       Forall (turn_event message) events ∧
       length (List.filter is_engine_call events) = n) ∧
  (∀ fuel n (self self0 self1 self2 : WatsonOnlineStore W)
     slack_output w message channel user,
     rtm_read (world self) = (Ok slack_output, w) →
     parse_slack_output (bot_id self) slack_output
     = Ok (Some message, Some channel, user) →
     message ≠ EmptyString → channel ≠ EmptyString →
     resolve_customer user
       (set_world w (set_trace (trace self ++ [RtmRead]) self))
     = (Ok tt, self0) →
     no_input_turns n message {| channel := channel |} self0 self1 →
     (n ≤ fuel)%nat →
     (handle_message message {| channel := channel |} self1
      = (Ok true, self2) →
      run_iteration fuel self
      = (Ok (Some tt), set_trace (trace self2 ++ [Sleep]) self2)) ∧
     (∀ e, handle_message message {| channel := channel |} self1
           = (Raise e, self2) →
           run_iteration fuel self = (Raise e, self2))).
Proof.
  split; [|split; [|split; [|split; [|split; [|split; [|split]]]]]].
  - intros fuel message sender self self1 Hturn. simpl. unfold bind.
    by rewrite Hturn.
  - intros fuel message sender self self1 Hturn. simpl. unfold bind.
    rewrite Hturn. by destruct fuel.
  - intros fuel message sender get_input self self' r.
    apply emits_while_not_get_input.
  - intros fuel message sender self self'. apply while_not_get_input_last.
  - intros fuel self self' r. apply run_iteration_events.
  - intros message sender self self' r. apply handle_message_engine_call.
  - intros n message sender self self'. apply no_input_turns_events.
  - intros fuel n self self0 self1 self2 slack_output w message channel user
      Hread Hparse Hmessage Hchannel Hresolve Hturns Hfuel. split.
    + intros Hlast.
      by rewrite (run_iteration_turns fuel n self self0 self1 self2
                    slack_output w message channel user (Ok true)).
    + intros e Hlast.
      by rewrite (run_iteration_turns fuel n self self0 self1 self2
                    slack_output w message channel user (Raise e)).
Qed.

End Run.

(** On [example_session] the round reads "show cart", makes two turns
    that need no input (the cart listing, then "no input") and a third
    that asks for input, and sleeps. *)
Lemma run_continues_without_input_witness :
  let read :=
    set_world {| watson_script := example_answers; slack_script := [] |}
              (set_trace [RtmRead] example_session) in
  let self1 := (handle_message "show cart" example_sender read).2 in
  let self2 := (handle_message "show cart" example_sender self1).2 in
  let self3 := (handle_message "show cart" example_sender self2).2 in
  no_input_turns 2 "show cart" example_sender read self2 ∧
  handle_message "show cart" example_sender self2 = (Ok true, self3) ∧
  run_iteration 5 example_session
  = (Ok (Some tt), set_trace (trace self3 ++ [Sleep]) self3).
Proof.
  intros read self1 self2 self3.
  assert (no_input_turns 2 "show cart" example_sender read self2) as Hturns.
  { exists self1. split; [by vm_compute|].
    exists self2. split; [by vm_compute | reflexivity]. }
  assert (handle_message "show cart" example_sender self2 = (Ok true, self3))
    as Hlast by by vm_compute.
  split; [exact Hturns|]. split; [exact Hlast|].
  destruct (run_continues_without_input (W := script))
    as (_ & _ & _ & _ & _ & _ & _ & Hround).
  apply (proj1 (Hround 5%nat 2%nat example_session read self2 self3
                  [example_event]
                  {| watson_script := example_answers; slack_script := [] |}
                  "show cart" "D42" (Some "U1")
                  eq_refl eq_refl ltac:(discriminate) ltac:(discriminate)
                  eq_refl Hturns ltac:(lia))).
  exact Hlast.
Defined.

(** A round of [run] on [example_session]: the dialogue engine asks for
    the cart listing, then for no input, then waits; the round makes
    three turns with the one message read at its start. *)
Example run_iteration_three_turns :
  let '(r, self') := run_iteration 5 example_session in
  r = Ok (Some tt) ∧
  omap engine_text (trace self') = ["show cart"; "show cart"; "show cart"] ∧
  length (List.filter is_read (trace self')) = 1%nat ∧
  head (trace self') = Some RtmRead ∧
  context self' = ∅.
Proof. by vm_compute. Qed.

(** * Further properties of the code *)

(** ** The escape transform *)

(** [s.replace(c, new)] for a one-character [c], character by
    character. *)
Lemma replace_char (c : ascii) (new s : string) :
  Py.replace s (String c EmptyString) new
  = (fix go (s : string) : string :=
       match s with
       | EmptyString => EmptyString
       | String x s' =>
           (if Ascii.eqb x c then new else String x EmptyString) +:+ go s'
       end) s.
Proof.
  unfold Py.replace. induction s as [|x s IH]; [done|].
  cbn [Py.replace_go String.prefix String.length Nat.sub].
  destruct (ascii_dec c x) as [->|Hne].
  - rewrite Ascii.eqb_refl, IH. by destruct s.
  - rewrite (proj2 (Ascii.eqb_neq x c)) by congruence.
    by rewrite IH, append_cons, append_nil.
Qed.

Lemma replace_char_append (c : ascii) (new a b : string) :
  Py.replace (a +:+ b) (String c EmptyString) new
  = Py.replace a (String c EmptyString) new +:+
    Py.replace b (String c EmptyString) new.
Proof.
  rewrite !replace_char. induction a as [|x a IH]; [done|].
  rewrite append_cons, IH. by rewrite append_assoc.
Qed.

Lemma replace_char_cons (c x : ascii) (new s : string) :
  Py.replace (String x s) (String c EmptyString) new
  = (if Ascii.eqb x c then new else String x EmptyString) +:+
    Py.replace s (String c EmptyString) new.
Proof. by rewrite !replace_char. Qed.

Lemma replace_char_one (c x : ascii) (new : string) :
  Py.replace (String x EmptyString) (String c EmptyString) new
  = if Ascii.eqb x c then new else String x EmptyString.
Proof.
  rewrite replace_char_cons.
  change (Py.replace EmptyString (String c EmptyString) new) with EmptyString.
  generalize (if Ascii.eqb x c then new else String x EmptyString).
  intros a. induction a as [|y a IH]; [done|]. by rewrite append_cons, IH.
Qed.

(** [slack_encode], character by character. *)
Lemma slack_encode_charwise (input_text : string) :
  slack_encode input_text = escape input_text.
Proof.
  destruct input_text as [|c0 s0]; [done|].
  unfold slack_encode. cbn [fold_left fst snd].
  generalize (String c0 s0). clear. intros s.
  induction s as [|c s IH]; [done|].
  cbn [escape]. rewrite <- IH. clear IH.
  rewrite (replace_char_cons "&" c).
  rewrite (replace_char_append "<"), (replace_char_append ">").
  f_equal. unfold escape_char.
  destruct (Ascii.eqb_spec c "&") as [->|Hamp]; [done|].
  rewrite (replace_char_one "<" c).
  destruct (Ascii.eqb_spec c "<") as [->|Hlt]; [done|].
  rewrite (replace_char_one ">" c).
  by destruct (Ascii.eqb_spec c ">") as [->|Hgt].
Qed.

(** X1: [slack_encode] works character by character: every ampersand
    becomes "&amp;", every "<" becomes "&lt;", every ">" becomes "&gt;"
    and every other character stays, in place; the ampersands that the
    entities bring are not escaped again, and a text without these three
    characters is returned as it is. *)
Theorem slack_encode_escape (input_text : string) :
  slack_encode input_text = escape input_text ∧
  (has_char "&" input_text = false → slack_safe input_text = true →
   slack_encode input_text = input_text).
Proof.
  split; [apply slack_encode_charwise|].
  rewrite slack_encode_charwise. unfold slack_safe.
  induction input_text as [|c s IH]; [done|]. cbn [has_char escape].
  intros [Hc Hs]%orb_false_iff [[Hlt Hl]%negb_true_iff%orb_false_iff
    [Hgt Hg]%negb_true_iff%orb_false_iff]%andb_true_iff.
  rewrite IH by (by rewrite ?Hs, ?Hl, ?Hg). unfold escape_char.
  by rewrite Hc, Hlt, Hgt.
Qed.

Lemma has_char_append (c : ascii) (a b : string) :
  has_char c (a +:+ b) = has_char c a || has_char c b.
Proof.
  induction a as [|x a IH]; [done|]. rewrite append_cons. simpl.
  by rewrite IH, orb_assoc.
Qed.

Lemma slack_safe_escape (s : string) : slack_safe (escape s) = true.
Proof.
  unfold slack_safe. induction s as [|c s IH]; [done|].
  cbn [escape]. rewrite !has_char_append.
  apply andb_true_iff in IH as [Hlt Hgt].
  apply negb_true_iff in Hlt, Hgt. rewrite Hlt, Hgt, !orb_false_r.
  unfold escape_char.
  destruct (Ascii.eqb_spec c "&") as [->|Hamp]; [done|].
  destruct (Ascii.eqb_spec c "<") as [->|Hl]; [done|].
  destruct (Ascii.eqb_spec c ">") as [->|Hg]; [done|].
  simpl. rewrite !orb_false_r.
  by rewrite (proj2 (Ascii.eqb_neq c "<")), (proj2 (Ascii.eqb_neq c ">")).
Qed.

(** X2: the formatter returns on every response, and no field that it
    takes from the raw results (name, link, image) of any record it
    returns holds a "<" or a ">". *)
Theorem format_discovery_response_slack_safe (response : DiscoveryResponse) :
  ∃ output,
    format_discovery_response response = Ok output ∧
    Forall (λ record,
              slack_safe (name record) = true ∧
              slack_safe (url record) = true ∧
              slack_safe (image record) = true) output.
Proof.
  eexists. split; [apply format_discovery_response_imap|].
  apply Forall_forall. intros record Hrecord.
  apply list_elem_of_lookup in Hrecord as [i Hi].
  apply list_lookup_imap_Some in Hi as (r & _ & ->).
  unfold format_result.
  destruct (match result_html r with Some _ => _ | None => _ end) as [u i'].
  cbn [name url image]. rewrite !slack_encode_charwise.
  by rewrite !slack_safe_escape.
Qed.

(** ** The context *)

(** X3: [context_merge] looks a key up in the second dict first: a key
    of the second dict has the second dict's value, every other key has
    what the first dict has for it. *)
Theorem context_merge_lookup (dict1 dict2 : gmap string value)
    (key : string) :
  context_merge dict1 dict2 !! key
  = match dict2 !! key with
    | Some v => Some v
    | None => dict1 !! key
    end.
Proof.
  unfold context_merge. destruct (decide (dict2 = ∅)) as [->|_].
  - by rewrite lookup_empty.
  - rewrite lookup_union. by destruct (dict2 !! key), (dict1 !! key).
Qed.

(** ** The cart listing *)

(** X4: the cart listing has one line per item, "<n>) <item>" and a
    newline, numbered from 1 in the order of the cart: the listing of a
    cart with one more item is the old listing followed by the line of
    the new item; and it is the empty string for the empty cart only. *)
Theorem format_cart_lines (shopping_list : list string) (item : string) :
  format_cart [] = EmptyString ∧
  format_cart (shopping_list ++ [item])
  = format_cart shopping_list +:+
    Py.str (Z.of_nat (length shopping_list) + 1) +:+ ") " +:+ item +:+ nl ∧
  format_cart (shopping_list ++ [item]) ≠ EmptyString.
Proof.
  split; [done|].
  assert (format_cart (shopping_list ++ [item])
          = format_cart shopping_list +:+
            Py.str (Z.of_nat (length shopping_list) + 1) +:+ ") " +:+
            item +:+ nl) as Hsnoc.
  { unfold format_cart. rewrite imap_app, fold_left_app. simpl.
    by rewrite Nat.add_0_r. }
  split; [done|]. rewrite Hsnoc. intros Hempty.
  apply (f_equal String.length) in Hempty.
  rewrite !append_length in Hempty. simpl in Hempty. lia.
Qed.

(** ** The transport events *)

Lemma lower_char_idemp (c : ascii) :
  Py.lower_char (Py.lower_char c) = Py.lower_char c.
Proof. by destruct c as [[|] [|] [|] [|] [|] [|] [|] [|]]. Qed.

Lemma is_space_lower_char (c : ascii) :
  Py.is_space (Py.lower_char c) = Py.is_space c.
Proof. by destruct c as [[|] [|] [|] [|] [|] [|] [|] [|]]. Qed.

Lemma lower_idemp (s : string) : Py.lower (Py.lower s) = Py.lower s.
Proof.
  induction s as [|c s IH]; [done|]. simpl. by rewrite lower_char_idemp, IH.
Qed.

Lemma lstrip_lower (s : string) :
  Py.lstrip (Py.lower s) = Py.lower (Py.lstrip s).
Proof.
  induction s as [|c s IH]; [done|]. simpl. rewrite is_space_lower_char.
  by destruct (Py.is_space c).
Qed.

Lemma rstrip_lower (s : string) :
  Py.rstrip (Py.lower s) = Py.lower (Py.rstrip s).
Proof.
  induction s as [|c s IH]; [done|]. simpl. rewrite IH, is_space_lower_char.
  destruct (Py.rstrip s); simpl; [|done]. by destruct (Py.is_space c).
Qed.

Lemma rstrip_idemp (s : string) : Py.rstrip (Py.rstrip s) = Py.rstrip s.
Proof.
  induction s as [|c s IH]; [done|]. simpl.
  destruct (Py.rstrip s) as [|d r] eqn:Hr.
  - destruct (Py.is_space c) eqn:Hc; [done|]. simpl. by rewrite Hc.
  - simpl in *. by rewrite IH.
Qed.

Lemma rstrip_head (c : ascii) (s : string) :
  Py.is_space c = false → ∃ r, Py.rstrip (String c s) = String c r.
Proof.
  intros Hc. simpl. rewrite Hc. destruct (Py.rstrip s); by eexists.
Qed.

Lemma lstrip_head (s : string) :
  Py.lstrip s = EmptyString ∨
  ∃ c r, Py.lstrip s = String c r ∧ Py.is_space c = false.
Proof.
  induction s as [|c s IH]; [by left|]. simpl.
  destruct (Py.is_space c) eqn:Hc; [done|]. right. by exists c, s.
Qed.

Lemma strip_idemp (s : string) : Py.strip (Py.strip s) = Py.strip s.
Proof.
  unfold Py.strip. destruct (lstrip_head s) as [->|(c & r & -> & Hc)]; [done|].
  destruct (rstrip_head c r Hc) as [r' Hr]. rewrite Hr.
  cbn [Py.lstrip]. rewrite Hc, <- Hr. apply rstrip_idemp.
Qed.

Lemma strip_lower (s : string) : Py.strip (Py.lower s) = Py.lower (Py.strip s).
Proof. unfold Py.strip. by rewrite lstrip_lower, rstrip_lower. Qed.

(** The text that [parse_slack_output] returns is in normal form. *)
Lemma lower_strip_normal (s : string) :
  let message := Py.lower (Py.strip s) in
  Py.lower message = message ∧ Py.strip message = message.
Proof.
  intros message. unfold message. split; [apply lower_idemp|].
  by rewrite strip_lower, strip_idemp.
Qed.

Lemma split_at_bot (bot_id text : string) :
  Py.split text (at_bot bot_id)
  = Ok (Py.split_go 0 (at_bot bot_id) EmptyString text).
Proof. unfold Py.split, at_bot. by rewrite append_cons. Qed.

(** X5: [parse_slack_output] skips the events without a text or
    without a user and the events that carry ['user_profile']: the
    result, an exception included, is that of the list without them. *)
Theorem parse_slack_output_candidates (bot_id : string)
    (output_list : list slack_output) :
  parse_slack_output bot_id (List.filter is_candidate output_list)
  = parse_slack_output bot_id output_list.
Proof.
  induction output_list as [|output rest IH]; [done|].
  cbn [List.filter]. unfold is_candidate at 1.
  cbn [parse_slack_output].
  destruct (out_text output) as [text|] eqn:Htext; [|done].
  destruct (out_user output) as [user|] eqn:Huser; [|done].
  destruct (out_user_profile output) eqn:Hprofile; [done|].
  cbn [negb parse_slack_output]. rewrite Htext, Huser, Hprofile.
  destruct (Py.contains (at_bot bot_id) text); [done|].
  destruct (out_channel output) as [channel|]; [|done].
  cbn [getkey result_bind]. by rewrite IH.
Qed.

(** Where the result of [parse_slack_output] comes from. *)
Lemma parse_slack_output_source (bot_id : string)
    (output_list : list slack_output)
    (message channel user : option string) :
  parse_slack_output bot_id output_list = Ok (message, channel, user) →
  (message = None ∧ channel = None ∧ user = None) ∨
  ∃ output text text' ch u,
    output ∈ output_list ∧
    out_text output = Some text ∧ out_user output = Some u ∧
    out_channel output = Some ch ∧ out_user_profile output = false ∧
    message = Some (Py.lower (Py.strip text')) ∧
    channel = Some ch ∧ user = Some u ∧
    ((Py.contains (at_bot bot_id) text = true ∧
      text' = Py.join EmptyString
                (Py.split_go 0 (at_bot bot_id) EmptyString text)) ∨
     (Py.contains (at_bot bot_id) text = false ∧
      Py.startswith ch "D" = true ∧ u ≠ bot_id ∧ text' = text)) ∧
    Py.lower (Py.lower (Py.strip text')) = Py.lower (Py.strip text') ∧
    Py.strip (Py.lower (Py.strip text')) = Py.lower (Py.strip text').
Proof.
  induction output_list as [|output rest IH]; [intros [= <- <- <-]; by left|].
  assert (∀ P : slack_output → Prop,
            (∃ o, o ∈ rest ∧ P o) → ∃ o, o ∈ output :: rest ∧ P o) as Hlater.
  { intros P (o & Ho & HP). exists o. split; [by right | done]. }
  assert (parse_slack_output bot_id rest = Ok (message, channel, user) →
          (message = None ∧ channel = None ∧ user = None) ∨
          ∃ output0 text text' ch u,
            output0 ∈ output :: rest ∧
            out_text output0 = Some text ∧ out_user output0 = Some u ∧
            out_channel output0 = Some ch ∧ out_user_profile output0 = false ∧
            message = Some (Py.lower (Py.strip text')) ∧
            channel = Some ch ∧ user = Some u ∧
            ((Py.contains (at_bot bot_id) text = true ∧
              text' = Py.join EmptyString
                        (Py.split_go 0 (at_bot bot_id) EmptyString text)) ∨
             (Py.contains (at_bot bot_id) text = false ∧
              Py.startswith ch "D" = true ∧ u ≠ bot_id ∧ text' = text)) ∧
            Py.lower (Py.lower (Py.strip text')) = Py.lower (Py.strip text') ∧
            Py.strip (Py.lower (Py.strip text')) = Py.lower (Py.strip text'))
    as Hrest.
  { intros [Hnone|(o & text & text' & ch & u & Ho & Hfound)]%IH; [by left|].
    right. exists o, text, text', ch, u. split; [by right | done]. }
  clear IH Hlater. cbn [parse_slack_output].
  destruct (out_text output) as [text|] eqn:Htext; [|done].
  destruct (out_user output) as [u|] eqn:Huser; [|done].
  destruct (out_user_profile output) eqn:Hprofile; [done|].
  destruct (Py.contains (at_bot bot_id) text) eqn:Hmention.
  - rewrite split_at_bot. cbn [result_bind].
    destruct (out_channel output) as [ch|] eqn:Hch; [|done].
    cbn [getkey result_bind]. intros [= <- <- <-]. right.
    exists output, text,
      (Py.join EmptyString (Py.split_go 0 (at_bot bot_id) EmptyString text)),
      ch, u.
    split; [by left|]. do 7 (split; [done|]).
    split; [by left|]. apply lower_strip_normal.
  - destruct (out_channel output) as [ch|] eqn:Hch; [|done].
    cbn [getkey result_bind].
    destruct (Py.startswith ch "D") eqn:HD; [|done].
    destruct (String.eqb_spec u bot_id) as [->|Hne]; [done|].
    cbn [negb andb]. intros [= <- <- <-]. right.
    exists output, text, text, ch, u.
    split; [by left|]. do 7 (split; [done|]).
    split; [by right|]. apply lower_strip_normal.
Qed.

(** X6: for events whose texts are ASCII, what [parse_slack_output]
    returns is all [None], or the user and the channel of an event of the
    list that has a text and no ['user_profile'] and that mentions the
    bot or else is on a channel whose name starts with "D" and comes from
    another user than the bot; the text returned is that of the event,
    without the mentions in the first case, stripped and in lower case,
    and it is a fixed point of [strip()] and of [lower()]. *)
Theorem parse_slack_output_origin (bot_id : string)
    (output_list : list slack_output)
    (message channel user : option string) :
  Forall ascii_event output_list →
  parse_slack_output bot_id output_list = Ok (message, channel, user) →
  (message = None ∧ channel = None ∧ user = None) ∨
  ∃ output text text' ch u,
    output ∈ output_list ∧
    out_text output = Some text ∧ is_ascii text = true ∧
    out_user output = Some u ∧
    out_channel output = Some ch ∧ out_user_profile output = false ∧
    message = Some (Py.lower (Py.strip text')) ∧
    channel = Some ch ∧ user = Some u ∧
    ((Py.contains (at_bot bot_id) text = true ∧
      text' = Py.join EmptyString
                (Py.split_go 0 (at_bot bot_id) EmptyString text)) ∨
     (Py.contains (at_bot bot_id) text = false ∧
      Py.startswith ch "D" = true ∧ u ≠ bot_id ∧ text' = text)) ∧
    Py.lower (Py.lower (Py.strip text')) = Py.lower (Py.strip text') ∧
    Py.strip (Py.lower (Py.strip text')) = Py.lower (Py.strip text').
Proof.
  intros Hascii Hparse.
  destruct (parse_slack_output_source _ _ _ _ _ Hparse)
    as [Hnone|(output & text & text' & ch & u & Hin & Htext & Hrest)];
    [by left|].
  right. exists output, text, text', ch, u.
  split; [done|]. split; [done|]. split; [|done].
  rewrite Forall_forall in Hascii. specialize (Hascii output Hin).
  unfold ascii_event in Hascii. by rewrite Htext in Hascii.
Qed.

Lemma parse_slack_output_origin_witness :
  parse_slack_output "UBOT" [example_event]
  = Ok (Some "show cart", Some "D42", Some "U1") ∧
  ∃ output text text' ch u,
    output ∈ [example_event] ∧
    out_text output = Some text ∧ is_ascii text = true ∧
    out_user output = Some u ∧
    out_channel output = Some ch ∧ out_user_profile output = false ∧
    Some "show cart" = Some (Py.lower (Py.strip text')) ∧
    Some "D42" = Some ch ∧ Some "U1" = Some u ∧
    ((Py.contains (at_bot "UBOT") text = true ∧
      text' = Py.join EmptyString
                (Py.split_go 0 (at_bot "UBOT") EmptyString text)) ∨
     (Py.contains (at_bot "UBOT") text = false ∧
      Py.startswith ch "D" = true ∧ u ≠ "UBOT" ∧ text' = text)) ∧
    Py.lower (Py.lower (Py.strip text')) = Py.lower (Py.strip text') ∧
    Py.strip (Py.lower (Py.strip text')) = Py.lower (Py.strip text').
Proof.
  split; [reflexivity|].
  destruct (parse_slack_output_origin "UBOT" [example_event]
              (Some "show cart") (Some "D42") (Some "U1"))
    as [[Hnone _]|Hfound];
    [by repeat constructor | reflexivity | discriminate Hnone | exact Hfound].
Defined.

(** Events that are not for the bot yield nothing. *)
Lemma parse_slack_output_not_for_bot (bot_id : string)
    (output_list : list slack_output) :
  Forall (not_for_bot bot_id) output_list →
  parse_slack_output bot_id output_list = Ok (None, None, None).
Proof.
  induction 1 as [|output rest Hout _ IH]; [done|].
  cbn [parse_slack_output]. unfold not_for_bot in Hout.
  destruct (out_text output) as [text|]; [|done].
  destruct (out_user output) as [u|]; [|done].
  destruct Hout as [Hp | (Hm & ch & Hc & Hch)]; [by rewrite Hp|]; rewrite Hm, Hc.
  destruct (out_user_profile output); [done|].
  cbn [getkey result_bind].
  destruct Hch as [Hd | Hu]; [by rewrite Hd|]; rewrite Hu.
  by rewrite String.eqb_refl, andb_false_r.
Qed.

(** ** The customer resolver, further *)

Section ResolverMore.

Context {W : Type} `{Collaborators W}.

(** X7: for a chat identity whose email is not in the datastore, the
    resolver binds a Customer made of the email and the names of the
    Slack profile, with an empty cart, stores it in the datastore, where
    a look-up of the email then finds it and the other records are as
    they were, and merges the customer dict into the context. *)
Theorem init_customer_new (self : WatsonOnlineStore W) (user_id : string)
    (answer : UserJson) (profile : slack_profile)
    (cust first last : string) (w : W) :
  user_id ≠ EmptyString →
  users_info user_id (world self) = (Ok (Some answer), w) →
  json_user answer = Some (Some profile) →
  profile_email profile = Some cust → cust ≠ EmptyString →
  profile_first_name profile = Some first →
  profile_last_name profile = Some last →
  Cloudant.find_customer cust (cloudant_online_store self) = None →
  let c := {| email := cust; first_name := first; last_name := last;
              shopping_cart := [] |} in
  ∃ self',
    init_customer user_id self = (Ok tt, self') ∧
    customer self' = Some c ∧
    cloudant_online_store self'
    = Cloudant.add_customer_obj c (cloudant_online_store self) ∧
    Cloudant.find_customer cust (cloudant_online_store self')
    = Some {| doc_email := cust; doc_first_name := first;
              doc_last_name := last; doc_shopping_cart := [] |} ∧
    (∀ other, other ≠ cust →
       Cloudant.find_customer other (cloudant_online_store self')
       = Cloudant.find_customer other (cloudant_online_store self)) ∧
    context self' = context_merge (context self) (get_customer_dict c) ∧
    context self' !! "email" = Some (VStr cust) ∧
    context self' !! "shopping_cart" = Some (VList []).
Proof.
  intros Hid Hinfo Huser Hmail Hcust Hfirst Hlast Hfound c. eexists. split.
  - unfold init_customer.
    rewrite (proj2 (String.eqb_neq _ _) Hid).
    unfold try_except, bind, extern, bind, emit, modify, ret.
    cbn [world set_trace]. rewrite Hinfo. cbn beta iota.
    rewrite Huser, Hmail. cbn [truthy_str default].
    rewrite (proj2 (String.eqb_neq _ _) Hcust). cbn [negb].
    unfold get at 1. cbn [cloudant_online_store set_world set_trace].
    unfold id. rewrite Hfound.
    unfold create_user_from_ui, bind, lift, modify, get. cbn beta iota.
    rewrite Huser. cbn [getkey]. rewrite Hmail, Hfirst, Hlast.
    cbn [getkey customer set_customer set_cloudant].
    unfold add_customer_to_context, bind, get, modify.
    cbn [customer set_customer set_cloudant]. reflexivity.
  - cbn [customer cloudant_online_store context set_context set_customer
         set_cloudant set_world set_trace].
    split; [done|]. split; [done|].
    unfold Cloudant.find_customer, Cloudant.add_customer_obj.
    cbn [email first_name last_name shopping_cart c].
    split; [by rewrite lookup_insert_eq|].
    split; [by intros other Hother; rewrite lookup_insert_ne|].
    split; [done|].
    split; apply context_merge_lookup_l; unfold get_customer_dict;
      by simplify_map_eq.
Qed.

(** X8: when the Slack look-up of the user fails with an exception,
    answers nothing, answers without a user, or gives a user without an
    email, the resolver of a bot without customer returns normally, binds
    no customer and leaves the context and the datastore as they were. *)
Theorem init_customer_unresolved (self : WatsonOnlineStore W)
    (user_id : string) :
  user_id ≠ EmptyString → customer self = None →
  match users_info user_id (world self) with
  | (Raise _, _) | (Ok None, _) => True
  | (Ok (Some answer), _) =>
      match json_user answer with
      | None | Some None => True
      | Some (Some profile) => truthy_str (profile_email profile) = false
      end
  end →
  ∃ self',
    init_customer user_id self = (Ok tt, self') ∧
    customer self' = None ∧
    context self' = context self ∧
    cloudant_online_store self' = cloudant_online_store self.
Proof.
  intros Hid Hnone Hcase. unfold init_customer.
  rewrite (proj2 (String.eqb_neq _ _) Hid).
  unfold try_except, bind, extern, bind, emit, modify, ret.
  cbn [world set_trace].
  destruct (users_info user_id (world self)) as [[[answer|]|e] w];
    cbn beta iota; try (by eexists).
  destruct (json_user answer) as [[profile|]|]; try (by eexists).
  - rewrite Hcase. unfold get. cbn [customer set_world set_trace].
    rewrite Hnone. by eexists.
  - cbn [truthy_str]. unfold get. cbn [customer set_world set_trace].
    rewrite Hnone. by eexists.
Qed.

(** X9: for a chat identity whose email is not in the datastore and
    whose Slack profile lacks the first or the last name, the resolver
    raises KeyError; no customer is bound and nothing is stored. *)
Theorem init_customer_incomplete_profile (self : WatsonOnlineStore W)
    (user_id : string) (answer : UserJson) (profile : slack_profile)
    (cust : string) (w : W) :
  user_id ≠ EmptyString →
  users_info user_id (world self) = (Ok (Some answer), w) →
  json_user answer = Some (Some profile) →
  profile_email profile = Some cust → cust ≠ EmptyString →
  Cloudant.find_customer cust (cloudant_online_store self) = None →
  profile_first_name profile = None ∨ profile_last_name profile = None →
  ∃ self',
    init_customer user_id self = (Raise KeyError, self') ∧
    customer self' = customer self ∧
    context self' = context self ∧
    cloudant_online_store self' = cloudant_online_store self.
Proof.
  intros Hid Hinfo Huser Hmail Hcust Hfound Hname. eexists. split.
  - unfold init_customer.
    rewrite (proj2 (String.eqb_neq _ _) Hid).
    unfold try_except, bind, extern, bind, emit, modify, ret.
    cbn [world set_trace]. rewrite Hinfo. cbn beta iota.
    rewrite Huser, Hmail. cbn [truthy_str default].
    rewrite (proj2 (String.eqb_neq _ _) Hcust). cbn [negb].
    unfold get at 1. cbn [cloudant_online_store set_world set_trace].
    unfold id. rewrite Hfound.
    unfold create_user_from_ui, bind, lift, modify, get. cbn beta iota.
    rewrite Huser. cbn [getkey]. rewrite Hmail. cbn [getkey].
    destruct Hname as [Hname|Hname].
    + rewrite Hname. cbn [getkey]. reflexivity.
    + rewrite Hname. destruct (profile_first_name profile); reflexivity.
  - done.
Qed.

End ResolverMore.

Lemma init_customer_new_witness :
  ∃ self',
    init_customer "U1" (set_cloudant ∅ example_fresh_bot) = (Ok tt, self') ∧
    customer self' = Some example_customer ∧
    Cloudant.find_customer "a@b.com" (cloudant_online_store self')
    = Some {| doc_email := "a@b.com"; doc_first_name := "Ann";
              doc_last_name := "Bee"; doc_shopping_cart := [] |}.
Proof.
  destruct (init_customer_new (set_cloudant ∅ example_fresh_bot) "U1"
              {| json_user := Some (Some example_profile) |} example_profile
              "a@b.com" "Ann" "Bee" (world example_fresh_bot))
    as (self' & Hrun & Hc & _ & Hfind & _);
    [reflexivity || discriminate..|].
  by exists self'.
Defined.

Lemma init_customer_unresolved_witness :
  ∃ self',
    @init_customer unit sparse "U9" sparse_bot = (Ok tt, self') ∧
    customer self' = None ∧
    context self' = context sparse_bot ∧
    cloudant_online_store self' = cloudant_online_store sparse_bot.
Proof.
  apply (@init_customer_unresolved unit sparse sparse_bot "U9");
    [discriminate | reflexivity | exact I].
Defined.

Lemma init_customer_incomplete_profile_witness :
  ∃ self',
    @init_customer unit sparse "U2" sparse_bot = (Raise KeyError, self') ∧
    customer self' = customer sparse_bot ∧
    context self' = context sparse_bot ∧
    cloudant_online_store self' = cloudant_online_store sparse_bot.
Proof.
  apply (@init_customer_incomplete_profile unit sparse sparse_bot "U2"
           {| json_user :=
                Some (Some {| profile_email := Some "c@d.com";
                              profile_first_name := None;
                              profile_last_name := None |}) |}
           {| profile_email := Some "c@d.com";
              profile_first_name := None;
              profile_last_name := None |} "c@d.com" tt);
    try reflexivity; try discriminate. by left.
Defined.

(** ** The search dispatch, further *)

Section DispatchMore.

Context {W : Type} `{Collaborators W}.

Lemma context_merge_singleton (c : gmap string value) (key : string)
    (v : value) :
  context_merge c {[ key := v ]} = <[key := v]> c.
Proof.
  unfold context_merge. destruct (decide (_ = ∅)) as [Hempty|_].
  - by apply (map_non_empty_singleton key v) in Hempty.
  - by rewrite insert_union_singleton_l.
Qed.

(** X10: with a Discovery client and a [discovery_string] in the
    context, [handle_DiscoveryQuery] always returns "no input required",
    whatever the service does: the context is the old one with a string
    under [discovery_result], the [discovery_string] and every other key
    kept; the customer and the datastore are as they were; and when the
    query raises an exception, the string is the [repr] of the exception
    and the stored result list is the one of the search before. *)
Theorem handle_DiscoveryQuery_returns (self : WatsonOnlineStore W)
    (query : value → W → py_result DiscoveryResponse * W) (q : value) :
  discovery_client = Some query →
  context self !! "discovery_string" = Some q →
  ∃ s self',
    handle_DiscoveryQuery self = (Ok false, self') ∧
    context self' = <["discovery_result" := VStr s]> (context self) ∧
    customer self' = customer self ∧
    cloudant_online_store self' = cloudant_online_store self ∧
    ∀ e w, query q (world self) = (Raise e, w) →
           s = repr_exn e ∧ response_tuple self' = response_tuple self.
Proof.
  intros Hclient Hq.
  unfold handle_DiscoveryQuery, context_getitem, get_discovery_response.
  rewrite Hclient.
  unfold try_except, bind, extern, bind, emit, modify, get, lift, ret.
  rewrite Hq. cbn [getkey world set_trace].
  destruct (query q (world self)) as [[response|e] w] eqn:Hquery.
  - cbn beta iota. rewrite format_discovery_response_imap. cbn beta iota.
    eexists _, _. split; [reflexivity|].
    cbn [context set_context set_response_tuple set_world set_trace].
    split; [apply context_merge_singleton|]. by repeat split.
  - cbn beta iota. eexists _, _. split; [reflexivity|].
    cbn [context set_context set_response_tuple set_world set_trace].
    split; [apply context_merge_singleton|]. do 2 (split; [done|]).
    by intros e' w' [= <- <-].
Qed.

End DispatchMore.

Lemma handle_DiscoveryQuery_returns_witness :
  ∃ s self',
    handle_DiscoveryQuery (example_bot {[ "discovery_string" := VStr "mug" ]} [])
    = (Ok false, self') ∧
    context self'
    = <["discovery_result" := VStr s]> {[ "discovery_string" := VStr "mug" ]}.
Proof.
  destruct (handle_DiscoveryQuery_returns
              (example_bot {[ "discovery_string" := VStr "mug" ]} [])
              (λ _ w, (Ok example_found, w)) (VStr "mug"))
    as (s & self' & Hrun & Hcontext & _); [reflexivity..|].
  by exists s, self'.
Defined.

(** ** The cart handlers, further *)

Lemma remove_item_length (item : string) (cart : list string) :
  item ∈ cart →
  length (Cloudant.remove_item item cart) = (length cart - 1)%nat.
Proof.
  induction cart as [|x cart IH]; [by intros ?%elem_of_nil|].
  simpl. destruct (String.eqb_spec x item) as [->|Hne]; [lia|].
  intros [Heq|Hin]%elem_of_cons; [congruence|]. simpl. rewrite IH by done.
  destruct cart; [by apply elem_of_nil in Hin | simpl; lia].
Qed.

Section HandlersMore.

Context {W : Type} `{Collaborators W}.

(** X11: with a customer bound, deleting rank [r] returns without
    asking for input; for [r] within the range of the current cart
    listing the datastore is the old one after one
    [delete_item_shopping_cart] of the [r]-th listed item, and the cart
    is then one item shorter; for [r] out of range the datastore is as it
    was. *)
Theorem handle_delete_from_cart_rank (self : WatsonOnlineStore W)
    (c : OnlineStoreCustomer) (v : value) (r : Z) :
  customer self = Some c →
  context self !! "cart_item" = Some v → py_int v = Ok r →
  let shopping_list :=
    Cloudant.list_shopping_cart (email c) (cloudant_online_store self) in
  ∃ self',
    handle_delete_from_cart self = (Ok false, self') ∧
    (1 ≤ r ≤ Z.of_nat (length shopping_list) →
     ∃ item,
       shopping_list !! Z.to_nat (r - 1) = Some item ∧
       cloudant_online_store self'
       = Cloudant.delete_item_shopping_cart (email c) item
           (cloudant_online_store self) ∧
       Cloudant.list_shopping_cart (email c) (cloudant_online_store self')
       = Cloudant.remove_item item shopping_list ∧
       length (Cloudant.list_shopping_cart (email c)
                 (cloudant_online_store self'))
       = (length shopping_list - 1)%nat) ∧
    (¬ (1 ≤ r ≤ Z.of_nat (length shopping_list)) →
     cloudant_online_store self' = cloudant_online_store self).
Proof.
  intros Hc Hv Hr shopping_list. eexists.
  split; [by eapply handle_delete_from_cart_run|].
  fold shopping_list. split.
  - intros Hr1.
    destruct (lookup_lt_is_Some_2 shopping_list (Z.to_nat (r - 1)))
      as [item Hitem]; [lia|].
    exists item. split; [done|].
    destruct (Z.ltb_spec 0 r); [|lia]. rewrite Hitem.
    split; [done|]. cbn [cloudant_online_store set_context set_cloudant].
    assert (Cloudant.list_shopping_cart (email c)
              (Cloudant.delete_item_shopping_cart (email c) item
                 (cloudant_online_store self))
            = Cloudant.remove_item item shopping_list) as Hlist.
    { unfold shopping_list, Cloudant.list_shopping_cart,
        Cloudant.delete_item_shopping_cart.
      rewrite lookup_alter_eq.
      by destruct (cloudant_online_store self !! email c). }
    split; [done|]. rewrite Hlist. apply remove_item_length.
    by eapply list_elem_of_lookup_2.
  - intros Hr1. destruct (Z.ltb_spec 0 r); [|done].
    by rewrite lookup_ge_None_2 by lia.
Qed.

(** X12: on a [cart_item] that [int()] rejects with ValueError, the add
    handler and, with a customer bound, the delete handler log the
    exception and return "no input required" at once: the context, with
    its [shopping_cart] and [cart_item] flags, the datastore and the
    stored results are as they were. *)
Theorem cart_item_not_a_number (self : WatsonOnlineStore W) (v : value) :
  context self !! "cart_item" = Some v → py_int v = Raise ValueError →
  let self' :=
    set_trace (trace self ++ [LogException "cart_item must be a number"])
              self in
  handle_add_to_cart self = (Ok false, self') ∧
  (∀ c, customer self = Some c →
        handle_delete_from_cart self = (Ok false, self')) ∧
  context self' = context self ∧
  cloudant_online_store self' = cloudant_online_store self.
Proof.
  intros Hv Hn self'. split; [|split; [|done]].
  - unfold handle_add_to_cart, bind.
    by rewrite (cart_item_number_value_error _ _ Hv Hn).
  - intros c Hc. unfold handle_delete_from_cart.
    unfold bind at 1, customer_email, bind at 1, get at 1. rewrite Hc.
    unfold ret at 1, bind at 1, get at 1. unfold bind at 1.
    by rewrite (cart_item_number_value_error _ _ Hv Hn).
Qed.

(** X13: without a customer bound, the list and the delete handler
    raise AttributeError, and so does the add handler once the
    [cart_item] is read as a number; nothing of the bot is changed. *)
Theorem cart_handlers_without_customer (self : WatsonOnlineStore W) :
  customer self = None →
  handle_list_shopping_cart self = (Raise AttributeError, self) ∧
  handle_delete_from_cart self = (Raise AttributeError, self) ∧
  ∀ v n, context self !! "cart_item" = Some v → py_int v = Ok n →
         handle_add_to_cart self = (Raise AttributeError, self).
Proof.
  intros Hc. split; [|split].
  - unfold handle_list_shopping_cart.
    unfold bind at 1, customer_email, bind at 1, get at 1. by rewrite Hc.
  - unfold handle_delete_from_cart.
    unfold bind at 1, customer_email, bind at 1, get at 1. by rewrite Hc.
  - intros v n Hv Hn. unfold handle_add_to_cart.
    unfold bind at 1. rewrite (cart_item_number_ok _ _ _ Hv Hn).
    unfold bind at 1, customer_email, bind at 1, get at 1. by rewrite Hc.
Qed.

(** X14: before any search has stored a result list, the add handler,
    given a customer and a [cart_item] read as a number, raises
    TypeError; the flags are not cleared and nothing of the bot is
    changed. *)
Theorem handle_add_to_cart_before_search (self : WatsonOnlineStore W)
    (c : OnlineStoreCustomer) (v : value) (n : Z) :
  customer self = Some c → response_tuple self = None →
  context self !! "cart_item" = Some v → py_int v = Ok n →
  handle_add_to_cart self = (Raise TypeError, self).
Proof.
  intros Hc Hrs Hv Hn. unfold handle_add_to_cart.
  unfold bind at 1. rewrite (cart_item_number_ok _ _ _ Hv Hn).
  unfold bind at 1, customer_email, bind at 1, get at 1. rewrite Hc.
  unfold ret at 1, bind at 1, get at 1. by rewrite Hrs.
Qed.

End HandlersMore.

Lemma handle_delete_from_cart_rank_witness :
  ∃ self',
    handle_delete_from_cart (example_bot {[ "cart_item" := VStr "1" ]} [])
    = (Ok false, self') ∧
    Cloudant.list_shopping_cart "a@b.com" (cloudant_online_store self') = [].
Proof.
  destruct (handle_delete_from_cart_rank
              (example_bot {[ "cart_item" := VStr "1" ]} [])
              example_customer (VStr "1") 1)
    as (self' & Hrun & Hin & _); [reflexivity..|].
  exists self'. split; [exact Hrun|].
  destruct (Hin ltac:(by vm_compute)) as (item & Hitem & _ & Hcart & _).
  injection Hitem as <-. exact Hcart.
Defined.

Lemma cart_item_not_a_number_witness :
  ∃ self',
    handle_add_to_cart (example_bot {[ "cart_item" := VStr "two" ]} [])
    = (Ok false, self') ∧
    context self' = {[ "cart_item" := VStr "two" ]}.
Proof.
  destruct (cart_item_not_a_number
              (example_bot {[ "cart_item" := VStr "two" ]} []) (VStr "two"))
    as (Hadd & _ & Hcontext & _); [reflexivity..|].
  eexists. split; [exact Hadd | exact Hcontext].
Defined.

Lemma cart_handlers_without_customer_witness :
  handle_list_shopping_cart example_fresh_bot
  = (Raise AttributeError, example_fresh_bot).
Proof.
  apply (proj1 (cart_handlers_without_customer example_fresh_bot eq_refl)).
Defined.

Lemma handle_add_to_cart_before_search_witness :
  let self :=
    set_response_tuple None (example_bot {[ "cart_item" := VStr "1" ]} []) in
  handle_add_to_cart self = (Raise TypeError, self).
Proof.
  intros self.
  apply (handle_add_to_cart_before_search self example_customer (VStr "1") 1);
    reflexivity.
Defined.

(** ** What a run leaves as it was *)

Section FrameRules.

Context {W : Type} `{Collaborators W}.

#[local] Abbreviation M := (M W).

Lemma keeps_ret {A B} (f : WatsonOnlineStore W → B) (a : A) :
  keeps f (ret a : M A).
Proof. by intros self r self' [= <- <-]. Qed.

Lemma keeps_raise {A B} (f : WatsonOnlineStore W → B) (e : py_exn) :
  keeps f (raise e : M A).
Proof. by intros self r self' [= <- <-]. Qed.

Lemma keeps_lift {A B} (f : WatsonOnlineStore W → B) (r : py_result A) :
  keeps f (lift r : M A).
Proof. by intros self r' self' [= <- <-]. Qed.

Lemma keeps_get {A B} (f : WatsonOnlineStore W → B)
    (g : WatsonOnlineStore W → A) :
  keeps f (get g).
Proof. by intros self r self' [= <- <-]. Qed.

Lemma keeps_modify {B} (f : WatsonOnlineStore W → B)
    (g : WatsonOnlineStore W → WatsonOnlineStore W) :
  (∀ self, f (g self) = f self) → keeps f (modify g).
Proof. intros Hg self r self' [= <- <-]. apply Hg. Qed.

Lemma keeps_bind {A A' B} (f : WatsonOnlineStore W → B) (m : M A)
    (k : A → M A') :
  keeps f m → (∀ a, keeps f (k a)) → keeps f (bind m k).
Proof.
  intros Hm Hk self r self' Hrun. unfold bind in Hrun.
  destruct (m self) as [[a|e] self1] eqn:Hm1.
  - rewrite (Hk a _ _ _ Hrun). by eapply Hm.
  - injection Hrun as <- <-. by eapply Hm.
Qed.

Lemma keeps_try_except {A B} (f : WatsonOnlineStore W → B) (m : M A)
    (handler : py_exn → option (M A)) :
  keeps f m → (∀ e h, handler e = Some h → keeps f h) →
  keeps f (try_except m handler).
Proof.
  intros Hm Hh self r self' Hrun. unfold try_except in Hrun.
  destruct (m self) as [[a|e] self1] eqn:Hm1.
  - injection Hrun as <- <-. by eapply Hm.
  - destruct (handler e) as [h|] eqn:He.
    + rewrite (Hh e h He _ _ _ Hrun). by eapply Hm.
    + injection Hrun as <- <-. by eapply Hm.
Qed.

Lemma keeps_emit {B} (f : WatsonOnlineStore W → B) (e : event) :
  (∀ t self, f (set_trace t self) = f self) → keeps f (emit e : M unit).
Proof. intros Hf self r self' [= <- <-]. apply Hf. Qed.

Lemma keeps_extern {A B} (f : WatsonOnlineStore W → B) (e : event)
    (call : W → py_result A * W) :
  (∀ t self, f (set_trace t self) = f self) →
  (∀ w self, f (set_world w self) = f self) →
  keeps f (extern e call).
Proof.
  intros Ht Hw. apply keeps_bind; [by apply keeps_emit|].
  intros _ self r self'. destruct (call (world self)) as [r0 w] eqn:Hcall.
  intros [= <- <-]. apply Hw.
Qed.

Lemma keeps_fold {A A' B} (f : WatsonOnlineStore W → B)
    (step : M A' → A → M A') (l : list A) (acc : M A') :
  (∀ acc x, keeps f acc → keeps f (step acc x)) →
  keeps f acc → keeps f (fold_left step l acc).
Proof.
  intros Hstep. revert acc. induction l as [|x l IH]; intros acc Hacc; [done|].
  simpl. apply IH. by apply Hstep.
Qed.

End FrameRules.

Ltac keeps_step :=
  lazymatch goal with
  | |- keeps _ (bind _ _) => apply keeps_bind; [|intros ?]
  | |- keeps _ (try_except _ _) => apply keeps_try_except; [|intros ? ? ?]
  | |- keeps _ (extern _ _) => apply keeps_extern; intros; reflexivity
  | |- keeps _ (emit _) => apply keeps_emit; intros; reflexivity
  | |- keeps _ (ret _) => apply keeps_ret
  | |- keeps _ (raise _) => apply keeps_raise
  | |- keeps _ (lift _) => apply keeps_lift
  | |- keeps _ (get _) => apply keeps_get
  | |- keeps _ (modify _) => apply keeps_modify; intros ?; reflexivity
  | |- keeps _ (match ?x with _ => _ end) => destruct x
  | |- keeps _ (let _ := _ in _) => cbv zeta
  | H : _ = Some ?h |- keeps _ ?h => injection H as <-
  end.

Section FrameLemmas.

Context {W : Type} `{Collaborators W}.

#[local] Abbreviation M := (M W).

Lemma keeps_cart_item_number {B} (f : WatsonOnlineStore W → B) :
  (∀ t self, f (set_trace t self) = f self) →
  keeps f (cart_item_number : M (option Z)).
Proof.
  intros Hf. unfold cart_item_number, context_getitem.
  apply keeps_try_except; [repeat keeps_step|].
  intros e h. destruct e; intros [= <-].
  apply keeps_bind; [by apply keeps_emit | intros; apply keeps_ret].
Qed.

Lemma keeps_cart_loop {A B} (f : WatsonOnlineStore W → B) (n : Z)
    (g : A → gmap string customer_doc → gmap string customer_doc)
    (l : list (nat * A)) :
  (∀ db self, f (set_cloudant db self) = f self) →
  keeps f (fold_left (cart_step n g) l (ret tt) : M unit).
Proof.
  intros Hf. apply keeps_fold; [|apply keeps_ret].
  intros acc [index x] Hacc. unfold cart_step.
  apply keeps_bind; [done|]. intros _.
  destruct (_ =? _); [|apply keeps_ret].
  apply keeps_modify. intros self. apply Hf.
Qed.

Lemma keeps_handle_add_to_cart {B} (f : WatsonOnlineStore W → B) :
  (∀ t self, f (set_trace t self) = f self) →
  (∀ c self, f (set_context c self) = f self) →
  (∀ db self, f (set_cloudant db self) = f self) →
  keeps f (handle_add_to_cart : M bool).
Proof.
  intros Ht Hc Hdb. unfold handle_add_to_cart.
  apply keeps_bind; [by apply keeps_cart_item_number|]. intros [cart_item|];
    [|apply keeps_ret].
  unfold customer_email. do 3 (apply keeps_bind; [repeat keeps_step|intros ?]).
  apply keeps_bind;
    [by apply (keeps_cart_loop f cart_item
                 (λ entry, Cloudant.add_to_shopping_cart _
                             (name entry +:+ ": " +:+ url entry +:+ nl)))|].
  intros _. unfold clear_shopping_cart.
  apply keeps_bind; [|intros; apply keeps_ret].
  apply keeps_bind; [|intros _]; apply keeps_modify; intros self; apply Hc.
Qed.

Lemma keeps_handle_delete_from_cart {B} (f : WatsonOnlineStore W → B) :
  (∀ t self, f (set_trace t self) = f self) →
  (∀ c self, f (set_context c self) = f self) →
  (∀ db self, f (set_cloudant db self) = f self) →
  keeps f (handle_delete_from_cart : M bool).
Proof.
  intros Ht Hc Hdb. unfold handle_delete_from_cart, customer_email.
  do 2 (apply keeps_bind; [repeat keeps_step|intros ?]).
  apply keeps_bind; [by apply keeps_cart_item_number|]. intros [item_num|];
    [|apply keeps_ret].
  apply keeps_bind;
    [by apply (keeps_cart_loop f item_num
                 (λ item, Cloudant.delete_item_shopping_cart _ item))|].
  intros _. unfold clear_shopping_cart.
  apply keeps_bind; [|intros; apply keeps_ret].
  apply keeps_bind; [|intros _]; apply keeps_modify; intros self; apply Hc.
Qed.

Lemma keeps_handle_list_shopping_cart {B} (f : WatsonOnlineStore W → B) :
  (∀ c self, f (set_context c self) = f self) →
  keeps f (handle_list_shopping_cart : M bool).
Proof.
  intros Hc. unfold handle_list_shopping_cart, customer_email.
  do 2 (apply keeps_bind; [repeat keeps_step|intros ?]).
  apply keeps_bind; [|intros; apply keeps_ret].
  apply keeps_modify; intros self; apply Hc.
Qed.

Lemma keeps_handle_DiscoveryQuery {B} (f : WatsonOnlineStore W → B) :
  (∀ t self, f (set_trace t self) = f self) →
  (∀ w self, f (set_world w self) = f self) →
  (∀ c self, f (set_context c self) = f self) →
  (∀ r self, f (set_response_tuple r self) = f self) →
  keeps f handle_DiscoveryQuery.
Proof.
  intros Ht Hw Hc Hr.
  unfold handle_DiscoveryQuery, context_getitem, get_discovery_response,
    get_fake_discovery_response.
  apply keeps_bind; [repeat keeps_step|]. intros query_string.
  apply keeps_bind.
  - destruct discovery_client.
    + apply keeps_try_except; [|intros e h [= <-]; apply keeps_ret].
      apply keeps_bind; [by apply keeps_extern|]. intros response.
      apply keeps_bind; [apply keeps_get|]. intros threshold.
      apply keeps_bind; [apply keeps_lift|]. intros output.
      apply keeps_bind; [|intros; apply keeps_ret].
      apply keeps_modify. intros self. apply Hr.
    + apply keeps_bind; [by apply keeps_extern|]. intros index.
      repeat keeps_step.
  - intros response. apply keeps_bind; [|intros; apply keeps_ret].
    apply keeps_modify. intros self. apply Hc.
Qed.

Lemma keeps_dialogue_turn {B} (f : WatsonOnlineStore W → B)
    (message : string) (sender : SlackSender) :
  (∀ t self, f (set_trace t self) = f self) →
  (∀ w self, f (set_world w self) = f self) →
  (∀ c self, f (set_context c self) = f self) →
  keeps f (dialogue_turn message sender).
Proof.
  intros Ht Hw Hc. unfold dialogue_turn, get_watson_response, send_message.
  apply keeps_bind.
  { apply keeps_bind; [apply keeps_get|]. intros c. by apply keeps_extern. }
  intros watson_response. apply keeps_bind; [|intros _; by apply keeps_extern].
  destruct (response_context watson_response); [|apply keeps_ret].
  apply keeps_modify. intros self. apply Hc.
Qed.

(** The customer is not touched by a turn. *)
Lemma keeps_customer_handle_message (message : string)
    (sender : SlackSender) :
  keeps customer (handle_message message sender).
Proof.
  intros self r self' Hrun. rewrite handle_message_unfold in Hrun.
  destruct (dialogue_turn message sender self) as [[[]|e] self1] eqn:Hturn.
  - rewrite <- (keeps_dialogue_turn customer message sender
                  ltac:(done) ltac:(done) ltac:(done) _ _ _ Hturn).
    cbv zeta in Hrun.
    repeat match type of Hrun with
           | (if ?b then _ else _) _ = _ => destruct b
           end;
      first [ by eapply (keeps_handle_DiscoveryQuery customer)
            | by eapply (keeps_handle_list_shopping_cart customer)
            | by eapply (keeps_handle_add_to_cart customer)
            | by eapply (keeps_handle_delete_from_cart customer)
            | by eapply (keeps_ret customer) ].
  - injection Hrun as <- <-.
    by eapply (keeps_dialogue_turn customer message sender).
Qed.

Lemma keeps_customer_while (fuel : nat) (message : string)
    (sender : SlackSender) (get_input : bool) :
  keeps customer (while_not_get_input fuel message sender get_input).
Proof.
  revert get_input. induction fuel as [|fuel IH]; intros [|]; simpl;
    try apply keeps_ret.
  apply keeps_bind; [apply keeps_customer_handle_message | apply IH].
Qed.

End FrameLemmas.

(** ** Events of a run, in general *)

Section EventsMore.

Context {W : Type} `{Collaborators W}.

#[local] Abbreviation M := (M W).

Lemma emits_while_gen (P : event → Prop) (fuel : nat) (message : string)
    (sender : SlackSender) (get_input : bool) :
  (∀ c, P (ConversationMessage message c)) →
  (∀ text, P (PostMessage (channel sender) text)) →
  (∀ e, handler_event e → no_randint e → P e) →
  emits P (while_not_get_input fuel message sender get_input).
Proof.
  intros Hconv Hpost Hhandler.
  revert get_input. induction fuel as [|fuel IH]; intros [|]; simpl;
    try apply emits_ret.
  apply emits_bind; [by apply emits_handle_message_gen | apply IH].
Qed.

Lemma emits_init_customer_gen (P : event → Prop) (user_id : string) :
  P (UsersInfo user_id) → P (LogException "Slack client call exception:") →
  emits P (init_customer user_id).
Proof.
  intros Hinfo Hlog.
  unfold init_customer, customer_from_db, create_user_from_ui,
    add_customer_to_context.
  destruct (String.eqb user_id EmptyString); [apply emits_raise|].
  apply emits_bind.
  { apply emits_try_except.
    - apply emits_bind; [by apply emits_extern | intros; apply emits_ret].
    - intros e h [= <-].
      apply emits_bind; [by apply emits_emit | intros; apply emits_ret]. }
  intros looked_up. repeat emits_step.
Qed.

(** The events of one round of [run] and of its loop: everything but a
    connection to the transport and a draw of a canned answer. *)
Lemma emits_run_iteration_loop_event (fuel : nat) :
  emits loop_event (run_iteration fuel).
Proof.
  assert (∀ e, handler_event e → no_randint e → loop_event e) as Hhandler
    by by intros [].
  unfold run_iteration.
  apply emits_bind; [by apply emits_extern|]. intros slack_output.
  apply emits_bind; [apply emits_get|]. intros bot.
  apply emits_bind; [apply emits_lift|]. intros [[message channel] user].
  apply emits_bind; [apply emits_get|]. intros c.
  apply emits_bind.
  { destruct (_ && _); [|apply emits_ret]. by apply emits_init_customer_gen. }
  intros _. apply emits_bind.
  { destruct (_ && _); [|apply emits_ret].
    apply emits_bind; [by apply emits_handle_message_gen|]. intros get_input.
    by apply emits_while_gen. }
  intros [[]|]; [|apply emits_ret].
  apply emits_bind; [by apply emits_emit | intros; apply emits_ret].
Qed.

Lemma emits_run_loop_event (rounds fuel : nat) :
  emits loop_event (run_loop rounds fuel).
Proof.
  induction rounds as [|rounds IH]; simpl; [apply emits_ret|].
  apply emits_bind; [apply emits_run_iteration_loop_event|].
  intros [[]|]; [apply IH | apply emits_ret].
Qed.

Lemma emits_run_iteration_no_randint (fuel : nat) :
  emits no_randint (run_iteration fuel).
Proof.
  eapply emits_mono; [|apply emits_run_iteration_loop_event]. by intros [].
Qed.

(** X15: no run of the bot draws a canned search answer:
    [get_fake_discovery_response] sits behind a test that is false
    whenever [handle_message] dispatches a search, so neither a turn nor
    [run] ever calls [random.randint]. *)
Theorem run_never_fakes_discovery :
  (∀ message sender,
     emits no_randint (handle_message message sender : M bool)) ∧
  (∀ rounds fuel, emits no_randint (run rounds fuel : M (option unit))).
Proof.
  split; [intros; by apply emits_handle_message_gen|].
  intros rounds fuel. unfold run.
  apply emits_bind; [by apply emits_extern|]. intros [|].
  - apply emits_bind; [by apply emits_emit|]. intros _.
    induction rounds as [|rounds IH]; simpl; [apply emits_ret|].
    apply emits_bind; [apply emits_run_iteration_no_randint|].
    intros [[]|]; [apply IH | apply emits_ret].
  - apply emits_bind; [by apply emits_emit | intros; apply emits_ret].
Qed.

(** X16: a turn calls the dialogue engine once, first, with the message
    and the context of the bot; when the call fails, the exception is
    that of the turn, nothing is posted and the context stands; when it
    answers, the reply text (every text of the answer followed by a
    newline) is posted once, next, to the sender's channel, and whatever
    the flag handlers do after that is no engine call, no post, no
    transport read and no customer look-up. *)
Theorem handle_message_events (message : string) (sender : SlackSender)
    (self self' : WatsonOnlineStore W) (r : py_result bool) :
  handle_message message sender self = (r, self') →
  ∃ events,
    trace self'
    = trace self ++ ConversationMessage message (context self) :: events ∧
    match conversation_message message (context self) (world self) with
    | (Raise e, _) =>
        events = [] ∧ r = Raise e ∧ context self' = context self
    | (Ok answer, _) =>
        ∃ rest,
          events = PostMessage (channel sender) (reply_text answer) :: rest ∧
          Forall handler_event rest
    end.
Proof.
  unfold handle_message. unfold bind at 1, get_watson_response at 1.
  unfold bind at 1, get at 1, extern, bind at 1, emit, modify.
  cbn [world set_trace].
  destruct (conversation_message message (context self) (world self))
    as [[answer|e] w] eqn:Hanswer.
  - destruct (response_context answer) as [c'|];
      unfold bind at 1; [|unfold ret at 1];
      unfold bind at 1, send_message at 1, extern, bind at 1, emit, modify;
      cbn [world set_trace set_context set_world trace];
      fold (reply_text answer);
      (destruct (chat_postMessage (channel sender) (reply_text answer) w)
         as [[[]|e] w2];
       [|intros [= <- <-]; eexists; (split; [|by exists []]);
         cbn [trace set_world set_trace set_context];
         by rewrite <- !app_assoc]).
    all: intros Hrun.
    all: match type of Hrun with
         | ?k ?s = _ => assert (emits handler_event k) as Hk
         end.
    1,3: apply emits_bind; [apply emits_get|]; intros c;
         by apply emits_flag_handlers.
    all: destruct (Hk _ _ _ Hrun) as (rest & Hrest & Hhandlers).
    all: eexists; (split; [|by exists rest]).
    all: rewrite Hrest; cbn [trace set_world set_trace set_context].
    all: by rewrite <- !app_assoc.
  - intros [= <- <-]. by exists [].
Qed.

End EventsMore.

Lemma handle_message_events_witness :
  let turn := handle_message "mug" example_sender example_overlap in
  ∃ events,
    trace turn.2
    = trace example_overlap ++
      ConversationMessage "mug" (context example_overlap) :: events ∧
    ∃ rest,
      events = PostMessage "D42" ("Searching" +:+ nl) :: rest ∧
      Forall handler_event rest.
Proof.
  intros turn.
  destruct (handle_message_events "mug" example_sender example_overlap
              turn.2 turn.1) as (events & Htrace & Hrest);
    [exact (surjective_pairing turn)|].
  exists events. split; [exact Htrace | exact Hrest].
Defined.

(** ** The orchestration loop, further *)

Lemma py_int_type_error (v : value) :
  py_int v = Raise TypeError → v = VNone ∨ ∃ l, v = VList l.
Proof.
  destruct v as [|b|n|s|l]; simpl;
    [by left | done | done | | by right; exists l].
  unfold Py.int_of_str.
  destruct (match Py.int_rstrip (Py.int_lstrip s) with
            | String "-"%char d => (-1, d)
            | String "+"%char d => (1, d)
            | _ => (1, Py.int_rstrip (Py.int_lstrip s))
            end) as [sign digits].
  by destruct (Py.digits_value 0 false digits).
Qed.

Section OrchestrationMore.

Context {W : Type} `{Collaborators W}.

#[local] Abbreviation M := (M W).

(** X17: when the dialogue turn leaves [shopping_cart] at "add" or
    "delete" and a [cart_item] that is neither a string nor a number (the
    JSON null, a list), with no search to dispatch, the turn raises
    TypeError: [int()] rejects the value with an exception that the
    handlers do not catch; the bot is as the dialogue turn left it. *)
Theorem handle_message_cart_item_not_text (message : string)
    (sender : SlackSender) (self self1 : WatsonOnlineStore W)
    (op : string) (v : value) :
  dialogue_turn message sender self = (Ok tt, self1) →
  context self1 !! "discovery_string" = None →
  context self1 !! "shopping_cart" = Some (VStr op) →
  op = "add" ∨ (op = "delete" ∧ is_Some (customer self1)) →
  context self1 !! "cart_item" = Some v →
  py_int v = Raise TypeError →
  handle_message message sender self = (Raise TypeError, self1).
Proof.
  intros Hturn Hsearch Hop Hcase Hv Hint.
  assert (has_cart_item (context self1) = true) as Hitem.
  { unfold has_cart_item. rewrite Hv.
    by destruct (py_int_type_error v Hint) as [->|[l ->]]. }
  assert (cart_item_number self1 = (Raise TypeError, self1)) as Hnumber.
  { unfold cart_item_number, try_except, context_getitem, bind, get, lift.
    by rewrite Hv; simpl; rewrite Hint. }
  rewrite handle_message_unfold, Hturn. cbv zeta.
  rewrite Hsearch, Hitem. unfold flag_is. rewrite Hop.
  destruct Hcase as [->|[-> [c Hc]]]; cbn [eq_str String.eqb Ascii.eqb
    Bool.eqb andb].
  - unfold handle_add_to_cart, bind. by rewrite Hnumber.
  - unfold handle_delete_from_cart.
    unfold bind at 1, customer_email, bind at 1, get at 1. rewrite Hc.
    unfold ret at 1, bind at 1, get at 1. unfold bind at 1.
    by rewrite Hnumber.
Qed.

(** X18: a round of [run] whose transport events are not for the bot
    (no text or no user, a ['user_profile'], or no mention of the bot
    and not a direct message of somebody else) does nothing but read and
    sleep: no customer look-up, no dialogue turn, and the context, the
    customer, the stored results and the datastore are as they were. *)
Theorem run_iteration_idle (fuel : nat) (self : WatsonOnlineStore W)
    (slack_output : list slack_output) (w : W) :
  rtm_read (world self) = (Ok slack_output, w) →
  Forall (not_for_bot (bot_id self)) slack_output →
  ∃ self',
    run_iteration fuel self = (Ok (Some tt), self') ∧
    trace self' = trace self ++ [RtmRead; Sleep] ∧
    world self' = w ∧
    context self' = context self ∧ customer self' = customer self ∧
    response_tuple self' = response_tuple self ∧
    cloudant_online_store self' = cloudant_online_store self.
Proof.
  intros Hread Hfor. eexists. split.
  - unfold run_iteration. unfold bind at 1, extern, bind at 1, emit, modify.
    cbn [world set_trace]. rewrite Hread.
    unfold bind at 1, get at 1. cbn [bot_id set_world set_trace].
    unfold bind at 1, lift at 1.
    rewrite (parse_slack_output_not_for_bot _ _ Hfor).
    unfold bind at 1, get at 1. cbn [truthy_str andb].
    unfold bind at 1, ret at 1. unfold bind at 1, ret at 1.
    unfold bind, ret. reflexivity.
  - cbn [trace world context customer response_tuple cloudant_online_store
         set_trace set_world].
    by rewrite <- app_assoc.
Qed.

Lemma keeps_customer_of {A} (c : OnlineStoreCustomer) (m : M A) :
  keeps customer m → emits no_users_info m → keeps_customer c m.
Proof.
  intros Hkeeps Hemits self r self' Hc Hrun.
  rewrite (Hkeeps _ _ _ Hrun). split; [done|]. by eapply Hemits.
Qed.

Lemma keeps_customer_bind {A B} (c : OnlineStoreCustomer) (m : M A)
    (k : A → M B) :
  keeps_customer c m → (∀ a, keeps_customer c (k a)) →
  keeps_customer c (bind m k).
Proof.
  intros Hm Hk self r self' Hc Hrun. unfold bind in Hrun.
  destruct (m self) as [[a|e] self1] eqn:Hm1.
  - destruct (Hm _ _ _ Hc Hm1) as (Hc1 & ev1 & Ht1 & HP1).
    destruct (Hk a _ _ _ Hc1 Hrun) as (Hc2 & ev2 & Ht2 & HP2).
    split; [done|]. exists (ev1 ++ ev2). rewrite Ht2, Ht1, app_assoc.
    split; [done|]. by apply Forall_app.
  - injection Hrun as <- <-. by eapply Hm.
Qed.

Lemma keeps_customer_get {B} (c : OnlineStoreCustomer)
    (k : option OnlineStoreCustomer → M B) :
  keeps_customer c (k (Some c)) → keeps_customer c (bind (get customer) k).
Proof.
  intros Hk self r self' Hc Hrun. unfold bind, get in Hrun.
  rewrite Hc in Hrun. by eapply Hk.
Qed.

Lemma keeps_customer_ret {A} (c : OnlineStoreCustomer) (a : A) :
  keeps_customer c (ret a : M A).
Proof.
  apply keeps_customer_of; [apply keeps_ret | apply emits_ret].
Qed.

Lemma keeps_customer_run_iteration (c : OnlineStoreCustomer) (fuel : nat) :
  keeps_customer c (run_iteration fuel).
Proof.
  unfold run_iteration.
  apply keeps_customer_bind.
  { apply keeps_customer_of; [by apply keeps_extern | by apply emits_extern]. }
  intros slack_output. apply keeps_customer_bind.
  { apply keeps_customer_of; [apply keeps_get | apply emits_get]. }
  intros bot. apply keeps_customer_bind.
  { apply keeps_customer_of; [apply keeps_lift | apply emits_lift]. }
  intros [[message channel] user]. apply keeps_customer_get.
  rewrite andb_false_r. apply keeps_customer_bind;
    [apply keeps_customer_ret|]. intros _.
  apply keeps_customer_bind.
  { destruct (_ && _); [|apply keeps_customer_ret].
    apply keeps_customer_of.
    - apply keeps_bind; [apply keeps_customer_handle_message|].
      intros get_input. apply keeps_customer_while.
    - apply emits_bind; [by apply emits_handle_message_gen; intros []|].
      intros get_input. by apply emits_while_gen; intros []. }
  intros [[]|]; [|apply keeps_customer_ret].
  apply keeps_customer_of.
  - apply keeps_bind; [by apply keeps_emit | intros; apply keeps_ret].
  - apply emits_bind; [by apply emits_emit | intros; apply emits_ret].
Qed.

(** X19: once a customer is bound, [run] never looks a user up again
    and never binds another customer: after any number of rounds the
    customer is the same, and the trace holds no ['users.info'] call. *)
Theorem run_customer_stays (rounds fuel : nat)
    (self self' : WatsonOnlineStore W) (r : py_result (option unit))
    (c : OnlineStoreCustomer) :
  customer self = Some c →
  run rounds fuel self = (r, self') →
  customer self' = Some c ∧
  ∃ events, trace self' = trace self ++ events ∧
            Forall no_users_info events.
Proof.
  revert self r self'. change (keeps_customer c (run rounds fuel)).
  unfold run. apply keeps_customer_bind.
  { apply keeps_customer_of; [by apply keeps_extern | by apply emits_extern]. }
  intros [|]; (apply keeps_customer_bind;
    [apply keeps_customer_of; [by apply keeps_emit | by apply emits_emit]|]);
    intros _; [|apply keeps_customer_ret].
  induction rounds as [|rounds IH]; simpl; [apply keeps_customer_ret|].
  apply keeps_customer_bind; [apply keeps_customer_run_iteration|].
  intros [[]|]; [apply IH | apply keeps_customer_ret].
Qed.

(** X20: a turn changes the datastore only through the add and the
    delete handler: when the context left by the dialogue turn does not
    have [shopping_cart] at "add" or "delete" together with a
    [cart_item], the datastore after the turn is the one before it,
    whatever else the turn does (a search, a cart listing, an
    exception). *)
Theorem handle_message_datastore (message : string) (sender : SlackSender)
    (self self1 self' : WatsonOnlineStore W) (r : py_result bool) :
  dialogue_turn message sender self = (Ok tt, self1) →
  (flag_is (context self1) "shopping_cart" "add" ||
   flag_is (context self1) "shopping_cart" "delete") &&
  has_cart_item (context self1) = false →
  handle_message message sender self = (r, self') →
  cloudant_online_store self' = cloudant_online_store self.
Proof.
  intros Hturn Hflags Hrun.
  rewrite <- (keeps_dialogue_turn cloudant_online_store message sender
                ltac:(done) ltac:(done) ltac:(done) _ _ _ Hturn).
  rewrite handle_message_unfold, Hturn in Hrun. cbv zeta in Hrun.
  destruct (_ && search_client);
    [by eapply (keeps_handle_DiscoveryQuery cloudant_online_store)|].
  destruct (flag_is (context self1) "shopping_cart" "list");
    [by eapply (keeps_handle_list_shopping_cart cloudant_online_store)|].
  destruct (flag_is (context self1) "shopping_cart" "add"),
    (flag_is (context self1) "shopping_cart" "delete"),
    (has_cart_item (context self1)); try done;
    cbn [andb] in Hrun;
    destruct (flag_is (context self1) "get_input" "no");
    by injection Hrun as <- <-.
Qed.

Lemma no_read_filter (events : list event) :
  Forall no_read events → List.filter is_read events = [].
Proof.
  induction 1 as [|e events He _ IH]; [done|]. simpl. rewrite IH.
  by destruct e.
Qed.

Lemma run_loop_reads (rounds fuel : nat) (self self' : WatsonOnlineStore W) :
  run_loop rounds fuel self = (Ok (Some tt), self') →
  ∃ events, trace self' = trace self ++ events ∧
            length (List.filter is_read events) = rounds.
Proof.
  revert self. induction rounds as [|rounds IH]; intros self.
  - intros [= <-]. exists []. by rewrite app_nil_r.
  - simpl. unfold bind.
    destruct (run_iteration fuel self) as [[[[]|]|e] self1] eqn:Hround;
      [|done..].
    destruct (run_iteration_events _ _ _ _ Hround) as (ev1 & Ht1 & Hev1).
    intros (ev2 & Ht2 & Hev2)%IH.
    exists (RtmRead :: ev1 ++ ev2). split.
    + rewrite Ht2, Ht1. by rewrite <- app_assoc.
    + cbn [List.filter is_read].
      rewrite List.filter_app, (no_read_filter _ Hev1). cbn [app length].
      by rewrite Hev2.
Qed.


End OrchestrationMore.

Lemma handle_message_cart_item_not_text_witness :
  let self :=
    example_bot ∅
      [ {| response_context :=
             Some {[ "shopping_cart" := VStr "add"; "cart_item" := VNone ]};
           response_output_text := ["Which one?"] |} ] in
  ∃ self1,
    dialogue_turn "add it" example_sender self = (Ok tt, self1) ∧
    handle_message "add it" example_sender self = (Raise TypeError, self1).
Proof.
  intros self.
  exists (dialogue_turn "add it" example_sender self).2.
  split; [by vm_compute|].
  apply (handle_message_cart_item_not_text "add it" example_sender self _
           "add" VNone); try (by vm_compute). by left.
Defined.

Lemma run_iteration_idle_witness :
  let own := {| out_text := Some "hello"; out_user := Some "UBOT";
                out_channel := Some "D42"; out_user_profile := false |} in
  let self :=
    set_world {| watson_script := []; slack_script := [[own]] |}
              (example_bot ∅ []) in
  ∃ self',
    run_iteration 5 self = (Ok (Some tt), self') ∧
    trace self' = [RtmRead; Sleep] ∧
    context self' = ∅.
Proof.
  intros own self.
  destruct (run_iteration_idle 5 self [own]
              {| watson_script := []; slack_script := [] |})
    as (self' & Hrun & Htrace & _ & Hcontext & _); [reflexivity| |].
  { constructor; [|constructor]. right. split; [reflexivity|].
    exists "D42". split; [reflexivity|]. by right. }
  by exists self'.
Defined.

Lemma run_customer_stays_witness :
  let outcome := run 2 5 example_session in
  customer outcome.2 = Some example_customer ∧
  ∃ events, trace outcome.2 = trace example_session ++ events ∧
            Forall no_users_info events.
Proof.
  intros outcome.
  apply (run_customer_stays 2 5 example_session outcome.2 outcome.1
           example_customer);
    [reflexivity | exact (surjective_pairing outcome)].
Defined.

Lemma handle_message_datastore_witness :
  let turn := handle_message "mug" example_sender example_overlap in
  cloudant_online_store turn.2 = cloudant_online_store example_overlap.
Proof.
  intros turn.
  apply (handle_message_datastore "mug" example_sender example_overlap
           (dialogue_turn "mug" example_sender example_overlap).2
           turn.2 turn.1);
    [by vm_compute | by vm_compute | exact (surjective_pairing turn)].
Defined.


(** ** The conversation workspace *)

Lemma workspace_by_id_spec (id : string) (workspaces : list workspace) :
  Forall (λ x, is_Some (workspace_id x)) workspaces →
  workspace_by_id id workspaces
  = if bool_decide (Some id ∈ workspace_id <$> workspaces) then Ok id
    else Raise (ServiceError (workspace_missing id)).
Proof.
  induction 1 as [|x workspaces [i Hi] _ IH].
  - by rewrite bool_decide_eq_false_2 by by intros ?%elem_of_nil.
  - rewrite fmap_cons. cbn [workspace_by_id]. rewrite Hi.
    cbn [getkey result_bind].
    destruct (String.eqb_spec i id) as [->|Hne].
    + by rewrite bool_decide_eq_true_2 by apply list_elem_of_here.
    + rewrite IH. erewrite bool_decide_ext; [reflexivity|].
      rewrite elem_of_cons. split; [by right|].
      by intros [[= ->]|?].
Qed.

Lemma workspace_by_name_spec (name : string) (workspaces : list workspace) :
  Forall (λ x, is_Some (workspace_id x) ∧ is_Some (workspace_name x))
         workspaces →
  workspace_by_name name workspaces
  = Ok (List.find (λ x, bool_decide (workspace_name x = Some name))
                  workspaces ≫= workspace_id).
Proof.
  induction 1 as [|x workspaces [[i Hi] [n Hn]] _ IH]; [done|].
  cbn [workspace_by_name List.find]. rewrite Hn. cbn [getkey result_bind].
  destruct (String.eqb_spec n name) as [->|Hne].
  - rewrite bool_decide_eq_true_2 by done. cbn [mbind option_bind].
    by rewrite Hi.
  - rewrite bool_decide_eq_false_2 by congruence. apply IH.
Qed.

Section SetupProperties.

Context {W J : Type} `{ConversationSetup W J}.

(** X22: with a non-empty [WORKSPACE_ID] in the environment, the set-up
    returns that id when a listed workspace has it and raises the
    "does not exist" exception otherwise; the names of the workspaces
    and [WORKSPACE_NAME] play no part, and no workspace is created: the
    only call made is [list_workspaces]. *)
Theorem setup_conversation_workspace_by_id (environ : gmap string string)
    (w w1 : W) (workspaces : list workspace) (id : string) :
  list_workspaces w = (Ok (Some workspaces), w1) →
  environ !! "WORKSPACE_ID" = Some id → id ≠ EmptyString →
  Forall (λ x, is_Some (workspace_id x)) workspaces →
  setup_conversation_workspace environ w
  = (if bool_decide (Some id ∈ workspace_id <$> workspaces) then Ok id
     else Raise (ServiceError (workspace_missing id)), w1).
Proof.
  intros Hlist Hid Hne Hkeys.
  unfold setup_conversation_workspace, io_bind, io_lift. rewrite Hlist.
  cbn [getkey]. rewrite Hid. cbn [truthy_str default].
  rewrite (proj2 (String.eqb_neq _ _) Hne). cbn [negb].
  by rewrite workspace_by_id_spec.
Qed.

(** X23: without a [WORKSPACE_ID] (unset or empty), the set-up looks
    the workspace up by name, [WORKSPACE_NAME] or else
    "watson-online-store": when a listed workspace has that name, the id
    of the first such workspace is returned and nothing is created. *)
Theorem setup_conversation_workspace_by_name (environ : gmap string string)
    (w w1 : W) (workspaces : list workspace) (x : workspace) (id : string) :
  list_workspaces w = (Ok (Some workspaces), w1) →
  truthy_str (environ !! "WORKSPACE_ID") = false →
  Forall (λ x, is_Some (workspace_id x) ∧ is_Some (workspace_name x))
         workspaces →
  let name := default "watson-online-store" (environ !! "WORKSPACE_NAME") in
  List.find (λ x, bool_decide (workspace_name x = Some name)) workspaces
  = Some x →
  workspace_id x = Some id →
  setup_conversation_workspace environ w = (Ok id, w1).
Proof.
  intros Hlist Hid Hkeys name Hfind Hx.
  unfold setup_conversation_workspace, io_bind, io_lift. rewrite Hlist.
  cbn [getkey]. rewrite Hid. fold name.
  rewrite workspace_by_name_spec by done. rewrite Hfind. cbn [mbind option_bind].
  by rewrite Hx.
Qed.

(** X24: without a [WORKSPACE_ID] and with no listed workspace of the
    name looked up, the set-up reads [data/workspace.json] and creates a
    workspace under that same name, so that a later look-up by name finds
    it, and returns the id of what was created. *)
Theorem setup_conversation_workspace_creates (environ : gmap string string)
    (w w1 w2 w3 : W) (workspaces : list workspace) (json : gmap string J)
    (language intents entities dialog_nodes counterexamples metadata : J)
    (created : workspace) (id : string) :
  list_workspaces w = (Ok (Some workspaces), w1) →
  truthy_str (environ !! "WORKSPACE_ID") = false →
  Forall (λ x, is_Some (workspace_id x) ∧ is_Some (workspace_name x))
         workspaces →
  let name := default "watson-online-store" (environ !! "WORKSPACE_NAME") in
  Forall (λ x, workspace_name x ≠ Some name) workspaces →
  get_workspace_json w1 = (Ok json, w2) →
  json !! "language" = Some language → json !! "intents" = Some intents →
  json !! "entities" = Some entities →
  json !! "dialog_nodes" = Some dialog_nodes →
  json !! "counterexamples" = Some counterexamples →
  json !! "metadata" = Some metadata →
  create_workspace name
    "Conversation workspace created by watson-online-store."
    language intents entities dialog_nodes counterexamples metadata w2
  = (Ok created, w3) →
  workspace_id created = Some id →
  setup_conversation_workspace environ w = (Ok id, w3).
Proof.
  intros Hlist Hid Hkeys name Hnone Hjson Hl Hi He Hd Hc Hm Hcreate Hcreated.
  unfold setup_conversation_workspace, io_bind, io_lift. rewrite Hlist.
  cbn [getkey]. rewrite Hid. fold name.
  rewrite workspace_by_name_spec by done.
  assert (List.find (λ x, bool_decide (workspace_name x = Some name))
                    workspaces = None) as ->.
  { clear -Hnone. induction Hnone as [|x l Hx _ IH]; [done|]. simpl.
    by rewrite bool_decide_eq_false_2. }
  cbn [mbind option_bind]. rewrite Hjson, Hl, Hi, He, Hd, Hc, Hm.
  cbn [getkey]. by rewrite Hcreate, Hcreated.
Qed.

End SetupProperties.

Lemma setup_conversation_workspace_by_id_witness :
  setup_conversation_workspace {[ "WORKSPACE_ID" := "w1" ]} 0%nat
  = (Ok "w1", 0%nat) ∧
  setup_conversation_workspace {[ "WORKSPACE_ID" := "w7" ]} 0%nat
  = (Raise (ServiceError (workspace_missing "w7")), 0%nat).
Proof.
  split.
  - etrans.
    + apply (setup_conversation_workspace_by_id {[ "WORKSPACE_ID" := "w1" ]}
               0%nat 0%nat
               [ {| workspace_id := Some "w1"; workspace_name := Some "other" |};
                 {| workspace_id := Some "w2";
                    workspace_name := Some "watson-online-store" |} ] "w1");
        [reflexivity | reflexivity | discriminate | by repeat constructor].
    + by vm_compute.
  - etrans.
    + apply (setup_conversation_workspace_by_id {[ "WORKSPACE_ID" := "w7" ]}
               0%nat 0%nat
               [ {| workspace_id := Some "w1"; workspace_name := Some "other" |};
                 {| workspace_id := Some "w2";
                    workspace_name := Some "watson-online-store" |} ] "w7");
        [reflexivity | reflexivity | discriminate | by repeat constructor].
    + by vm_compute.
Defined.

Lemma setup_conversation_workspace_by_name_witness :
  setup_conversation_workspace ∅ 0%nat = (Ok "w2", 0%nat).
Proof.
  apply (setup_conversation_workspace_by_name ∅ 0%nat 0%nat
           [ {| workspace_id := Some "w1"; workspace_name := Some "other" |};
             {| workspace_id := Some "w2";
                workspace_name := Some "watson-online-store" |} ]
           {| workspace_id := Some "w2";
              workspace_name := Some "watson-online-store" |} "w2");
    try reflexivity.
  by repeat constructor.
Defined.

Lemma setup_conversation_workspace_creates_witness :
  setup_conversation_workspace {[ "WORKSPACE_NAME" := "fresh" ]} 0%nat
  = (Ok "new", 1%nat).
Proof.
  apply (setup_conversation_workspace_creates
           {[ "WORKSPACE_NAME" := "fresh" ]} 0%nat 0%nat 0%nat 1%nat
           [ {| workspace_id := Some "w1"; workspace_name := Some "other" |};
             {| workspace_id := Some "w2";
                workspace_name := Some "watson-online-store" |} ]
           (list_to_map
              [("language", tt); ("intents", tt); ("entities", tt);
               ("dialog_nodes", tt); ("counterexamples", tt);
               ("metadata", tt)])
           tt tt tt tt tt tt
           {| workspace_id := Some "new"; workspace_name := None |} "new");
    try reflexivity.
  - by repeat constructor.
  - by repeat constructor.
Defined.

(** ** Start-up *)

Section StartProperties.

Context {W B : Type} `{Startup W B}.

Lemma find_bot_id_spec (bot_user : string) (users : list slack_member)
    (w : W) (out : list string) :
  find_bot_id (Some bot_user) users (w, out)
  = match List.find (λ user, bool_decide (member_name user = Some bot_user))
                    users with
    | Some user =>
        match member_id user with
        | Some id => (Ok (Some id), (w, out ++ ["Found BOT_ID=" +:+ id]))
        | None => (Raise TypeError, (w, out))
        end
    | None =>
        (Ok None,
         (w, out ++ ["could not find user with the name " +:+ bot_user]))
    end.
Proof.
  induction users as [|user users IH]; [done|].
  cbn [find_bot_id List.find].
  destruct (member_name user) as [name|].
  - destruct (decide (name = bot_user)) as [->|Hne].
    + rewrite !bool_decide_eq_true_2 by done. by destruct (member_id user).
    + rewrite !bool_decide_eq_false_2 by congruence. apply IH.
  - rewrite bool_decide_eq_false_2 by done. apply IH.
Qed.

(** X25: with [SLACK_BOT_USER] set and a ['users.list'] answer that is
    ok, [get_slack_user_id] returns the id of the first member whose
    name is [SLACK_BOT_USER], and [None] when no member has that name;
    in both cases it has printed what it looks up and what it found, and
    has called Slack once. *)
Theorem get_slack_user_id_first (environ : gmap string string)
    (bot_user : string) (w w1 : W) (out : list string) (answer : UsersList)
    (users : list slack_member) :
  environ !! "SLACK_BOT_USER" = Some bot_user →
  users_list w = (Ok answer, w1) →
  list_ok answer = true → list_members answer = Some users →
  Forall (λ user, is_Some (member_id user)) users →
  let looking := "Looking up BOT_ID for '" +:+ bot_user +:+ "'" in
  get_slack_user_id environ (w, out)
  = match List.find (λ user, bool_decide (member_name user = Some bot_user))
                    users with
    | Some user =>
        (Ok (member_id user),
         (w1, out ++ [looking; "Found BOT_ID=" +:+ default "" (member_id user)]))
    | None =>
        (Ok None,
         (w1, out ++ [looking;
                      "could not find user with the name " +:+ bot_user]))
    end.
Proof.
  intros Huser Hlist Hok Hmembers Hids looking.
  unfold get_slack_user_id, io_bind, print, call, io_lift.
  rewrite Huser, Hlist, Hok, Hmembers. cbn [percent_s default].
  rewrite find_bot_id_spec. fold looking.
  destruct (List.find _ users) as [user|] eqn:Hfind.
  - apply find_some in Hfind as [Hin _].
    rewrite Forall_forall in Hids.
    destruct (Hids user) as [id Hid]; [by apply list_elem_of_In|].
    rewrite Hid. cbn [default]. by rewrite <- app_assoc.
  - by rewrite <- app_assoc.
Qed.

(** X26: [get_slack_user_id] returns [None] without looking at any
    member when the ['users.list'] answer is not ok; and without
    [SLACK_BOT_USER] in the environment it never returns an id: on an
    answer that is ok, no member matches and the closing message, built
    from the missing name, raises TypeError. *)
Theorem get_slack_user_id_edges (environ : gmap string string)
    (w w1 : W) (out : list string) (answer : UsersList) :
  users_list w = (Ok answer, w1) →
  let looking :=
    "Looking up BOT_ID for '" +:+ percent_s (environ !! "SLACK_BOT_USER") +:+
    "'" in
  (list_ok answer = false →
   get_slack_user_id environ (w, out)
   = (Ok None,
      (w1, out ++ [looking;
                   "could not find user because api_call did not return 'ok'"])))
  ∧
  (list_ok answer = true → environ !! "SLACK_BOT_USER" = None →
   get_slack_user_id environ (w, out) = (Raise TypeError, (w1, out ++ [looking]))).
Proof.
  intros Hlist looking. split.
  - intros Hok. unfold get_slack_user_id, io_bind, print, call, io_ret.
    rewrite Hlist, Hok. fold looking. by rewrite <- app_assoc.
  - intros Hok Huser.
    unfold get_slack_user_id, io_bind, print, call, io_lift.
    unfold looking. rewrite Huser, Hlist, Hok.
    destruct (list_members answer) as [users|]; [|done].
    induction users as [|user users IH]; [done|].
    cbn [find_bot_id]. by destruct (member_name user).
Qed.

(** X27: when one of the seven required environment variables is unset
    or empty, [get_watson_online_store] prints the error line and returns
    [None]; it calls nothing and builds nothing. *)
Theorem get_watson_online_store_required (environ : gmap string string)
    (key : string) (w : W) (out : list string) :
  key ∈ required_env → truthy_str (environ !! key) = false →
  get_watson_online_store environ (w, out)
  = (Ok None, (w, out ++ [MISSING_ENV_VARS])).
Proof.
  intros Hkey Hunset. unfold get_watson_online_store.
  assert (all_set environ required_env = false) as ->; [|done].
  apply not_true_is_false. unfold all_set. rewrite forallb_forall.
  intros Hall. apply list_elem_of_In in Hkey.
  by rewrite (Hall key Hkey) in Hunset.
Qed.

(** X28: a bot that [get_watson_online_store] returns was built with
    all seven required variables set, under a bot id that is not empty
    (the [BOT_ID] of the environment when there is one, else the id that
    the look-up by [SLACK_BOT_USER] returned), and with a Discovery
    client exactly when the four Discovery variables are all set. *)
Theorem get_watson_online_store_built (environ : gmap string string)
    (s s' : W * list string) (bot : B) :
  get_watson_online_store environ s = (Ok (Some bot), s') →
  all_set environ required_env = true ∧
  ∃ args w0,
    make_store args w0 = (Ok bot, s'.1) ∧
    args_bot_id args ≠ EmptyString ∧
    args_discovery args = all_set environ discovery_env ∧
    (truthy_str (environ !! "BOT_ID") = true →
     environ !! "BOT_ID" = Some (args_bot_id args) ∧ w0 = s.1 ∧ s'.2 = s.2) ∧
    (truthy_str (environ !! "BOT_ID") = false →
     ∃ s1, get_slack_user_id environ s = (Ok (Some (args_bot_id args)), s1) ∧
           w0 = s1.1 ∧ s'.2 = s1.2).
Proof.
  unfold get_watson_online_store.
  destruct (all_set environ required_env); cbn [negb];
    [|by destruct s as [w out]].
  intros Hrun. split; [done|]. unfold io_bind at 1 in Hrun.
  destruct (truthy_str (environ !! "BOT_ID")) eqn:Hbot; cbn [negb] in Hrun.
  - unfold io_ret at 1 in Hrun. rewrite Hbot in Hrun. cbn [negb] in Hrun.
    unfold io_bind, call, io_ret in Hrun. destruct s as [w out].
    destruct (make_store _ w) as [[b|e] w'] eqn:Hmake; [|done].
    injection Hrun as <- <-.
    destruct (environ !! "BOT_ID") as [id|] eqn:Hid; [|done].
    cbn [truthy_str] in Hbot. apply negb_true_iff, String.eqb_neq in Hbot.
    eexists _, w. split; [exact Hmake|]. cbn [args_bot_id args_discovery default].
    split; [done|]. split; [done|]. split; [done|]. done.
  - destruct (get_slack_user_id environ s) as [[found|e] s1] eqn:Hfound;
      [|done].
    destruct (truthy_str found) eqn:Hid; cbn [negb] in Hrun; [|done].
    unfold io_bind, call, io_ret in Hrun. destruct s1 as [w1 out1].
    destruct (make_store _ w1) as [[b|e] w'] eqn:Hmake; [|done].
    injection Hrun as <- <-.
    destruct found as [id|]; [|done].
    cbn [truthy_str] in Hid. apply negb_true_iff, String.eqb_neq in Hid.
    eexists _, w1. split; [exact Hmake|]. cbn [args_bot_id args_discovery default].
    split; [done|]. split; [done|]. split; [done|].
    intros _. by exists (w1, out1).
Qed.

End StartProperties.

Lemma get_slack_user_id_first_witness :
  get_slack_user_id example_environ (0%nat, [])
  = (Ok (Some "UBOT"),
     (1%nat, ["Looking up BOT_ID for 'wos'"; "Found BOT_ID=UBOT"])).
Proof.
  rewrite (get_slack_user_id_first example_environ "wos" 0%nat 1%nat []
             {| list_ok := true;
                list_members :=
                  Some [ {| member_name := Some "ann"; member_id := Some "U1" |};
                         {| member_name := Some "wos";
                            member_id := Some "UBOT" |} ] |}
             [ {| member_name := Some "ann"; member_id := Some "U1" |};
               {| member_name := Some "wos"; member_id := Some "UBOT" |} ]);
    try reflexivity.
  by repeat constructor.
Defined.

Lemma get_slack_user_id_edges_witness :
  get_slack_user_id ∅ (0%nat, [])
  = (Raise TypeError, (1%nat, ["Looking up BOT_ID for 'None'"])).
Proof.
  destruct (get_slack_user_id_edges ∅ 0%nat 1%nat []
              {| list_ok := true;
                 list_members :=
                   Some [ {| member_name := Some "ann";
                             member_id := Some "U1" |};
                          {| member_name := Some "wos";
                             member_id := Some "UBOT" |} ] |})
    as [_ Hunset]; [reflexivity|].
  apply Hunset; reflexivity.
Defined.

Lemma get_watson_online_store_required_witness :
  get_watson_online_store (delete "CLOUDANT_URL" example_environ)
    (0%nat, [])
  = (Ok None, (0%nat, [MISSING_ENV_VARS])).
Proof.
  apply (get_watson_online_store_required
           (delete "CLOUDANT_URL" example_environ) "CLOUDANT_URL" 0%nat []);
    [|reflexivity].
  unfold required_env. set_solver.
Defined.

Lemma get_watson_online_store_built_witness :
  get_watson_online_store example_environ (0%nat, [])
  = (Ok (Some {| args_bot_id := "UBOT"; args_discovery := false |}),
     (1%nat, ["Looking up BOT_ID for 'wos'"; "Found BOT_ID=UBOT"])) ∧
  all_set example_environ required_env = true.
Proof.
  split; [reflexivity|].
  apply (get_watson_online_store_built example_environ (0%nat, [])
           (1%nat, ["Looking up BOT_ID for 'wos'"; "Found BOT_ID=UBOT"])
           {| args_bot_id := "UBOT"; args_discovery := false |}).
  reflexivity.
Defined.

(** ** The numbers shown and the numbers typed *)

Ltac digit_step :=
  cbn [NilEmpty.string_of_uint Py.digits_value Pos.of_uint Pos.of_uint_acc];
  change (Py.is_digit _) with true; cbn iota;
  match goal with
  | |- context [Py.digit_value ?c] =>
      let v := eval vm_compute in (Py.digit_value c) in
      change (Py.digit_value c) with v
  end.

(** The value of a decimal numeral, digit by digit from the left. *)
Lemma digits_value_acc (d : Decimal.uint) (acc : positive) :
  Py.digits_value (Z.pos acc) true (NilEmpty.string_of_uint d)
  = Some (Z.pos (Pos.of_uint_acc d acc)).
Proof.
  revert acc.
  induction d as [|d IH|d IH|d IH|d IH|d IH|d IH|d IH|d IH|d IH|d IH];
    intros acc; [done|..]; digit_step;
    (etrans; [|apply IH]); f_equal; lia.
Qed.

Lemma digits_value_zero (d : Decimal.uint) :
  Py.digits_value 0 true (NilEmpty.string_of_uint d)
  = Some (Z.of_N (Pos.of_uint d)).
Proof.
  induction d as [|d IH|d IH|d IH|d IH|d IH|d IH|d IH|d IH|d IH|d IH];
    [done|..]; digit_step; [apply IH|..]; apply digits_value_acc.
Qed.

Lemma digits_value_string_of_uint (d : Decimal.uint) :
  d ≠ Decimal.Nil →
  Py.digits_value 0 false (NilEmpty.string_of_uint d)
  = Some (Z.of_N (Pos.of_uint d)).
Proof.
  destruct d as [|d|d|d|d|d|d|d|d|d|d]; [done|..]; intros _; digit_step;
    [apply digits_value_zero|..]; apply digits_value_acc.
Qed.

Lemma to_uint_not_nil (p : positive) : Pos.to_uint p ≠ Decimal.Nil.
Proof.
  intros Hnil. pose proof (DecimalPos.Unsigned.of_to p) as Hp.
  by rewrite Hnil in Hp.
Qed.

Lemma string_of_uint_digits (d : Decimal.uint) :
  Forall (λ c, Py.is_digit c = true)
         (list_ascii_of_string (NilEmpty.string_of_uint d)).
Proof.
  induction d as [|d IH|d IH|d IH|d IH|d IH|d IH|d IH|d IH|d IH|d IH];
    simpl; by constructor.
Qed.

Lemma is_digit_not_space (c : ascii) :
  Py.is_digit c = true → Py.is_int_space c = false.
Proof. by destruct c as [[|] [|] [|] [|] [|] [|] [|] [|]]. Qed.

Lemma int_rstrip_no_space (s : string) :
  Forall (λ c, Py.is_int_space c = false) (list_ascii_of_string s) →
  Py.int_rstrip s = s.
Proof.
  induction s as [|c s IH]; [done|]. simpl.
  intros [Hc Hs]%Forall_cons. rewrite (IH Hs), Hc. by destruct s.
Qed.

Lemma int_strip_no_space (s : string) :
  Forall (λ c, Py.is_int_space c = false) (list_ascii_of_string s) →
  Py.int_rstrip (Py.int_lstrip s) = s.
Proof.
  intros Hs.
  assert (Py.int_lstrip s = s) as ->; [|by apply int_rstrip_no_space].
  destruct s as [|c s]; [done|]. simpl.
  apply Forall_cons in Hs as [Hc _]. simpl in Hc. by rewrite Hc.
Qed.

(** [int(str(n))] is [n]: what [str] prints, [int] reads back. *)
Lemma int_of_str_str (n : Z) : Py.int_of_str (Py.str n) = Ok n.
Proof.
  assert (∀ p, Forall (λ c, Py.is_int_space c = false)
                 (list_ascii_of_string (NilEmpty.string_of_uint
                                          (Pos.to_uint p)))) as Hspace.
  { intros p. eapply Forall_impl; [apply string_of_uint_digits|].
    apply is_digit_not_space. }
  assert (∀ p, Py.digits_value 0 false
                 (NilEmpty.string_of_uint (Pos.to_uint p))
               = Some (Z.pos p)) as Hvalue.
  { intros p. rewrite digits_value_string_of_uint by apply to_uint_not_nil.
    by rewrite DecimalPos.Unsigned.of_to. }
  unfold Py.int_of_str, Py.str. destruct n as [|p|p]; [done| |].
  - cbn [Z.to_int NilEmpty.string_of_int].
    rewrite int_strip_no_space by apply Hspace.
    pose proof (string_of_uint_digits (Pos.to_uint p)) as Hdigits.
    destruct (NilEmpty.string_of_uint (Pos.to_uint p)) as [|c s] eqn:Hs.
    + by rewrite <- Hs, Hvalue.
    + apply Forall_cons in Hdigits as [Hc _].
      assert (c ≠ "-"%char ∧ c ≠ "+"%char) as [Hminus Hplus]
        by (split; intros ->; discriminate Hc).
      destruct c as [[|] [|] [|] [|] [|] [|] [|] [|]]; try done;
        rewrite <- Hs, Hvalue; f_equal; lia.
  - cbn [Z.to_int NilEmpty.string_of_int].
    rewrite int_strip_no_space by (constructor; [done | apply Hspace]).
    by rewrite Hvalue.
Qed.

Section Numbers.

Context {W : Type} `{Collaborators W}.

(** X29: the number that the cart listing shows before an item selects
    that item: with the customer bound and the number of the [i]-th
    listed item (from 0), as [format_cart] prints it, typed back as
    [cart_item], the delete handler makes the one
    [delete_item_shopping_cart] call for that item and clears both
    flags. *)
Theorem cart_listing_number_deletes (self : WatsonOnlineStore W)
    (c : OnlineStoreCustomer) (i : nat) (item : string) :
  customer self = Some c →
  Cloudant.list_shopping_cart (email c) (cloudant_online_store self) !! i
  = Some item →
  context self !! "cart_item" = Some (VStr (Py.str (Z.of_nat i + 1))) →
  handle_delete_from_cart self
  = (Ok false,
     set_context (<["cart_item" := VStr ""]>
                    (<["shopping_cart" := VStr ""]> (context self)))
       (set_cloudant
          (Cloudant.delete_item_shopping_cart (email c) item
             (cloudant_online_store self)) self)).
Proof.
  intros Hc Hitem Hv.
  rewrite (handle_delete_from_cart_run self c _ (Z.of_nat i + 1) Hc Hv)
    by apply int_of_str_str.
  destruct (Z.ltb_spec 0 (Z.of_nat i + 1)); [|lia].
  replace (Z.to_nat (Z.of_nat i + 1 - 1)) with i by lia.
  by rewrite Hitem.
Qed.

(** X30: the number that a search shows before a result selects that
    result: when the stored result list is what the formatter made of a
    response, typing the [cart_number] of its [i]-th record back as
    [cart_item] makes the add handler add the line "<name>: <url>" of
    that record, and of no other, to the customer's cart. *)
Theorem search_number_adds (self : WatsonOnlineStore W)
    (c : OnlineStoreCustomer) (response : DiscoveryResponse)
    (output : list product_data) (i : nat) (entry : product_data) :
  customer self = Some c →
  format_discovery_response response = Ok output →
  response_tuple self = Some output →
  output !! i = Some entry →
  context self !! "cart_item" = Some (VStr (cart_number entry)) →
  handle_add_to_cart self
  = (Ok false,
     set_context (<["cart_item" := VStr ""]>
                    (<["shopping_cart" := VStr ""]> (context self)))
       (set_cloudant
          (Cloudant.add_to_shopping_cart (email c)
             (name entry +:+ ": " +:+ url entry +:+ nl)
             (cloudant_online_store self)) self)).
Proof.
  intros Hc Hformat Hrs Hentry Hv.
  destruct (format_discovery_response_lookup _ _ _ _ Hformat Hentry)
    as (result & _ & Hrecord).
  assert (cart_number entry = Py.str (Z.of_nat i + 1)) as Hnumber
    by (rewrite Hrecord; apply cart_number_format_result).
  rewrite Hnumber in Hv.
  rewrite (handle_add_to_cart_run self c output _ (Z.of_nat i + 1) Hc Hrs Hv)
    by apply int_of_str_str.
  destruct (Z.ltb_spec 0 (Z.of_nat i + 1)); [|lia].
  replace (Z.to_nat (Z.of_nat i + 1 - 1)) with i by lia.
  by rewrite Hentry.
Qed.

End Numbers.

Lemma cart_listing_number_deletes_witness :
  ∃ self',
    format_cart (Cloudant.list_shopping_cart "a@b.com"
                   (cloudant_online_store (example_bot ∅ [])))
    = "1) Mug: http://x/1" +:+ nl +:+ nl ∧
    handle_delete_from_cart (example_bot {[ "cart_item" := VStr "1" ]} [])
    = (Ok false, self') ∧
    Cloudant.list_shopping_cart "a@b.com" (cloudant_online_store self') = [].
Proof.
  eexists. split; [reflexivity|]. split.
  - apply (cart_listing_number_deletes
             (example_bot {[ "cart_item" := VStr "1" ]} []) example_customer
             0 ("Mug: http://x/1" +:+ nl)); reflexivity.
  - reflexivity.
Defined.

Lemma search_number_adds_witness :
  let response :=
    {| results := Some [example_result]; matching_results := Some 1 |} in
  let output := [format_result 1 example_result] in
  let self :=
    set_response_tuple (Some output)
      (example_bot {[ "cart_item" := VStr "1" ]} []) in
  ∃ self',
    handle_add_to_cart self = (Ok false, self') ∧
    Cloudant.list_shopping_cart "a@b.com" (cloudant_online_store self')
    = ["Mug: http://x/1" +:+ nl;
       " Mug: http://www.logostore-globalid.us/ProductDetail.aspx?pid=AT&amp;T42"
       +:+ nl].
Proof.
  intros response output self. eexists. split.
  - apply (search_number_adds self example_customer response output 0
             (format_result 1 example_result)); reflexivity.
  - by vm_compute.
Defined.
